(** * Headcount tracker: the authenticated attendance ledger of [app.js]

    A shallow embedding of the storage, authentication, audit, designation
    and attendance objects of [src/app.js], and the properties of them that
    the specification states.

    Modelling conventions.
    - [localStorage] holds six JSON documents.  A document is modelled by the
      value [JSON.parse] gives for it, [None] when the key is absent; writing
      a document and reading it back is the identity on these values.
    - Every [Storage.get...] call parses the stored text again, so it returns
      a fresh copy: a caller's changes to it reach the store only through a
      [Storage.save...] call.  Local copies are therefore plain values, and
      the store is the state of the monad [St].
    - JS objects used as maps (dates, areas, per-area histories) are [gmap]s
      with string keys.  A lookup by an area name, which is free text, goes
      through [member]: for a name the object does not hold it gives what
      the object inherits from [Object.prototype] (under [constructor],
      [toString], ...).  A date is the value of a date input and is no such
      name.
    - A method call on [undefined] throws a [TypeError]; the operations that
      can throw live in [StE], where a throw ends the call and keeps what
      was written before it.
    - Numbers are doubles with an integer value ([Z]); their sums are
      rounded as doubles are ([js_add]).  [Date.now()] is an argument [now]
      of the operation that reads it.  A synchronous operation runs at one
      instant; [Auth.login] awaits the password hash and so has two
      instants.
    - Strings are sequences of Latin-1 code points (one [ascii] each). *)

From Stdlib Require Import ZArith Ascii String List Bool Lia.
From stdpp Require Import base option list strings gmap.

Local Open Scope string_scope.
Local Open Scope Z_scope.

(** ** CONSTANTS & CONFIGURATION *)

Module CONFIG.
Definition SESSION_DURATION : Z := 8 * 60 * 60 * 1000.
Definition LOCKOUT_DURATION : Z := 5 * 60 * 1000.
Definition MAX_LOGIN_ATTEMPTS : Z := 5.
Definition MAX_AUDIT_ENTRIES : nat := 10.
Definition MAX_GLOBAL_DESIGNATION_HISTORY : nat := 100.
Definition MAX_AREA_DESIGNATION_HISTORY : nat := 50.
Definition DEFAULT_RETENTION_DAYS : Z := 180.
Definition DEFAULT_AREAS : list string :=
  [ "TCF Facilities"; "Precast S2A"; "Painting & Sand Blasting"; "Precast S4A";
    "Precast S4B"; "Fabrication Area S2A & S4A"; "Fabrication Area S4B";
    "Common Welding S4A_S2A_S4B"; "Spool Yard"; "Old Spool Yard";
    "Spool Yard T58"; "Spool Yard T63"; "PWHT" ].
End CONFIG.

(** ** Data model *)

(** A JSON scalar, as stored in [present] and in the [from]/[to] fields of an
    audit entry.  A number is a double with an integer value, which is what
    [parseInt] gives the entry form; a number with a fractional part has no
    value here. *)
Inductive JVal : Type :=
  | JNull
  | JNum (n : Z)
  | JStr (s : string)
  | JBool (b : bool).

#[global] Instance JVal_eq_dec : EqDecision JVal.
Proof. solve_decision. Defined.

(** [typeof v === 'number'] *)
Definition is_number (v : JVal) : bool :=
  match v with JNum _ => true | _ => false end.

(** ** Numbers

    The numbers [getAreaTotals] adds are doubles.  The sum of two doubles
    with integer values is the exact sum rounded to 53 significant bits,
    ties to the even neighbour, and is infinite from [2^1024] on.  The two
    zeros are not told apart. *)
Inductive Number : Type :=
  | Fin (n : Z)
  | Inf (negative : bool)
  | NaN.

#[global] Instance Number_eq_dec : EqDecision Number.
Proof. solve_decision. Defined.

(** The double nearest to an integer. *)
Definition round_double (z : Z) : Number :=
  let a := Z.abs z in
  let e := Z.log2 a - 52 in
  if e <=? 0 then Fin z
  else
    let q := a / 2 ^ e in
    let r := a mod 2 ^ e in
    let half := 2 ^ (e - 1) in
    let q' :=
      if r <? half then q
      else if half <? r then q + 1
      else if Z.even q then q else q + 1 in
    let m := q' * 2 ^ e in
    if 2 ^ 1024 <=? m then Inf (z <? 0) else Fin (Z.sgn z * m).

(** [a + b] on numbers. *)
Definition js_add (a b : Number) : Number :=
  match a, b with
  | NaN, _ | _, NaN => NaN
  | Inf s, Inf s' => if Bool.eqb s s' then Inf s else NaN
  | Inf s, Fin _ | Fin _, Inf s => Inf s
  | Fin x, Fin y => round_double (x + y)
  end.

(** ** Objects used as maps

    [areas] of a date document and [byArea] of the designation history are
    plain objects: [obj[key]] gives the value stored under the key, and for
    a key the object does not hold it gives what the object inherits from
    [Object.prototype] under that name, a function or, for [__proto__], the
    prototype itself.  These have none of the properties of a stored value
    and are truthy. *)
Definition Object_prototype : list string :=
  [ "constructor"; "__defineGetter__"; "__defineSetter__"; "hasOwnProperty";
    "__lookupGetter__"; "__lookupSetter__"; "isPrototypeOf";
    "propertyIsEnumerable"; "toString"; "valueOf"; "__proto__";
    "toLocaleString" ].

Inductive Member (A : Type) : Type :=
  | Val (a : A)
  | Inherited
  | Undefined.

Arguments Val {A} a.
Arguments Inherited {A}.
Arguments Undefined {A}.

(** [obj[key]] *)
Definition member {A} (obj : gmap string A) (key : string) : Member A :=
  match obj !! key with
  | Some a => Val a
  | None =>
      if bool_decide (key ∈ Object_prototype) then Inherited else Undefined
  end.

(** [obj[key] || fresh], after which [obj[key]] is not [undefined]. *)
Definition or_fresh {A} (m : Member A) (fresh : A) : Member A :=
  match m with
  | Undefined => Val fresh
  | _ => m
  end.

(** The strings ['admin'] and ['user']. *)
Inductive Role : Type := role_admin | role_user.

Record User : Type := mkUser {
  username : string;
  role : Role;
  salt : string;
  passwordHash : string;
  assignedAreas : list string;
  createdAt : Z;
  disabled : bool
}.

Record FailedLogin : Type := mkFailedLogin {
  count : Z;
  cooldownUntil : option Z
}.

Record Session : Type := mkSession {
  currentUser : option string;
  expiresAt : option Z;
  failedLogin : FailedLogin
}.

Record Row : Type := mkRow {
  designationKey : string;
  designationLabel : string;
  present : JVal;
  confirmed : bool;
  updatedAt : option Z;
  updatedBy : option string
}.

Inductive Field : Type := f_present | f_confirmed.

Record AuditEntry : Type := mkAuditEntry {
  ts : Z;
  a_user : string;
  a_area : string;
  a_designationKey : string;
  field : Field;
  from : JVal;
  to : JVal
}.

Record AreaData : Type := mkAreaData { rows : list Row }.

Record DateAttendance : Type := mkDateAttendance {
  areas : gmap string AreaData;
  audit : list AuditEntry;
  d_updatedAt : option Z;
  d_updatedBy : option string
}.

Record DesignationHistory : Type := mkDesignationHistory {
  global : list string;
  byArea : gmap string (list string)
}.

Record Settings : Type := mkSettings {
  darkMode : bool;
  retentionDays : Z
}.

(** The argument [updates] of [updateRow]: [None] is a field that is not
    [in] the object. *)
Record Updates : Type := mkUpdates {
  u_present : option JVal;
  u_confirmed : option bool
}.

(** [localStorage], one field per key of [STORAGE_KEYS]. *)
Record LocalStorage : Type := mkLocalStorage {
  hc_settings : option Settings;
  hc_areas : option (list string);
  hc_users : option (list User);
  hc_session : option Session;
  hc_attendance : option (gmap string DateAttendance);
  hc_designation_history : option DesignationHistory
}.

(** JS truthiness of the values the code tests. *)
Definition truthy_str (o : option string) : bool :=
  match o with
  | Some s => negb (String.eqb s EmptyString)
  | None => false
  end.

Definition truthy_num (o : option Z) : bool :=
  match o with
  | Some n => negb (Z.eqb n 0)
  | None => false
  end.

(** ** The state monad over [localStorage] *)

Definition St (A : Type) : Type := LocalStorage → A * LocalStorage.

#[global] Instance St_ret : MRet St := λ A (x : A) ls, (x, ls).
#[global] Instance St_bind : MBind St :=
  λ A B (f : A → St B) (m : St A) ls, let '(x, ls') := m ls in f x ls'.

Definition run {A} (m : St A) (ls : LocalStorage) : A * LocalStorage := m ls.
Definition result {A} (m : St A) (ls : LocalStorage) : A := fst (m ls).
Definition exec {A} (m : St A) (ls : LocalStorage) : LocalStorage := snd (m ls).

(** *** Calls that can throw

    A method call on [undefined] throws a [TypeError], which no function of
    the program catches: the call ends there, and what was written to
    [localStorage] before stays written. *)
Inductive Res (A : Type) : Type :=
  | Ok (a : A)
  | TypeError.

Arguments Ok {A} a.
Arguments TypeError {A}.

#[global] Instance Res_fmap : FMap Res := λ A B (f : A → B) (r : Res A),
  match r with Ok a => Ok (f a) | TypeError => TypeError end.

Definition StE (A : Type) : Type := St (Res A).

#[global] Instance StE_ret : MRet StE := λ A (x : A) ls, (Ok x, ls).
#[global] Instance StE_bind : MBind StE :=
  λ A B (f : A → StE B) (m : StE A) ls,
    match m ls with
    | (Ok x, ls') => f x ls'
    | (TypeError, ls') => (TypeError, ls')
    end.

(** A call that does not throw, and the throw. *)
Definition liftE {A} (m : St A) : StE A := λ ls,
  let '(x, ls') := m ls in (Ok x, ls').

Definition throw {A} : StE A := λ ls, (TypeError, ls).

(** ** UTILITY FUNCTIONS *)

Module Utils.

(** White space of ECMAScript ([\s], and what [trim] removes) among the
    Latin-1 code points: TAB, LF, VT, FF, CR, SP and NBSP. *)
Definition is_space (c : ascii) : bool :=
  let n := nat_of_ascii c in
  Nat.leb 9 n && Nat.leb n 13 || Nat.eqb n 32 || Nat.eqb n 160.

(** [toLowerCase] on one Latin-1 code point: A-Z, and the accented capitals
    U+00C0-U+00DE without the multiplication sign U+00D7. *)
Definition to_lower (c : ascii) : ascii :=
  let n := nat_of_ascii c in
  if Nat.leb 65 n && Nat.leb n 90
     || Nat.leb 192 n && Nat.leb n 222 && negb (Nat.eqb n 215)
  then ascii_of_nat (n + 32) else c.

Fixpoint trim_start (l : list ascii) : list ascii :=
  match l with
  | [] => []
  | c :: l' => if is_space c then trim_start l' else l
  end.

(** Drops the white space after the last other character. *)
Fixpoint trim_end (l : list ascii) : list ascii :=
  match l with
  | [] => []
  | c :: l' =>
      match trim_end l' with
      | [] => if is_space c then [] else [c]
      | r => c :: r
      end
  end.

(** [text.trim()] *)
Definition trim (l : list ascii) : list ascii := trim_end (trim_start l).

(** [.replace(/\s+/g, ' ')]: every maximal run of white space becomes one
    space.  [in_run] tells that the previous character was white space. *)
Fixpoint replace_spaces (in_run : bool) (l : list ascii) : list ascii :=
  match l with
  | [] => []
  | c :: l' =>
      if is_space c
      then (if in_run then replace_spaces true l'
            else " "%char :: replace_spaces true l')
      else c :: replace_spaces false l'
  end.

Definition toLowerCase (l : list ascii) : list ascii := map to_lower l.

Definition normalize_chars (l : list ascii) : list ascii :=
  toLowerCase (replace_spaces false (trim l)).

(** [text.trim().replace(/\s+/g, ' ').toLowerCase()] *)
Definition normalizeDesignation (text : string) : string :=
  string_of_list_ascii (normalize_chars (list_ascii_of_string text)).

(** [s.includes(sub)] on strings. *)
Fixpoint includes (s sub : string) : bool :=
  String.prefix sub s ||
  match s with
  | EmptyString => false
  | String _ s' => includes s' sub
  end.

(** The alphabet of [generatePassword]. *)
Definition password_chars : string :=
  "ABCDEFGHJKLMNPQRSTUVWXYZabcdefghjkmnpqrstuvwxyz23456789!@#$%".

(** [chars[i]] as a string to append: the text [undefined] past the end. *)
Definition char_at (chars : string) (i : nat) : string :=
  match String.get i chars with
  | Some c => String c EmptyString
  | None => "undefined"
  end.

(** [generatePassword(length)]: [arr] is the array of [length] bytes that
    [crypto.getRandomValues] filled. *)
Definition generatePassword (arr : list Byte.byte) : string :=
  fold_left
    (λ pwd b,
       pwd ++ char_at password_chars
                (Byte.to_nat b mod String.length password_chars))
    arr EmptyString.

End Utils.

(** ** STORAGE MANAGEMENT *)

Module Storage.

Definition getSettings : St Settings := λ ls,
  (default (mkSettings false CONFIG.DEFAULT_RETENTION_DAYS) (hc_settings ls), ls).

Definition getAreas : St (list string) := λ ls,
  (default [] (hc_areas ls), ls).

Definition saveSettings (st : Settings) : St unit := λ ls,
  (tt, mkLocalStorage (Some st) (hc_areas ls) (hc_users ls) (hc_session ls)
         (hc_attendance ls) (hc_designation_history ls)).

Definition saveAreas (a : list string) : St unit := λ ls,
  (tt, mkLocalStorage (hc_settings ls) (Some a) (hc_users ls) (hc_session ls)
         (hc_attendance ls) (hc_designation_history ls)).

Definition getUsers : St (list User) := λ ls,
  (default [] (hc_users ls), ls).

Definition saveUsers (u : list User) : St unit := λ ls,
  (tt, mkLocalStorage (hc_settings ls) (hc_areas ls) (Some u) (hc_session ls)
         (hc_attendance ls) (hc_designation_history ls)).

Definition getSession : St Session := λ ls,
  (default (mkSession None None (mkFailedLogin 0 None)) (hc_session ls), ls).

Definition saveSession (s : Session) : St unit := λ ls,
  (tt, mkLocalStorage (hc_settings ls) (hc_areas ls) (hc_users ls) (Some s)
         (hc_attendance ls) (hc_designation_history ls)).

Definition getAttendance : St (gmap string DateAttendance) := λ ls,
  (default ∅ (hc_attendance ls), ls).

Definition saveAttendance (a : gmap string DateAttendance) : St unit := λ ls,
  (tt, mkLocalStorage (hc_settings ls) (hc_areas ls) (hc_users ls) (hc_session ls)
         (Some a) (hc_designation_history ls)).

(** The empty document made for a missing date lives in the copy [all]
    only; nothing is saved here.  [dateStr] is the value of a date input or
    [Utils.getTodayString()]: a date [YYYY-MM-DD], which is no name an
    object inherits, so that [all[dateStr]] is the document stored for the
    date or [undefined]. *)
Definition getAttendanceForDate (dateStr : string) : St DateAttendance :=
  all ← getAttendance;
  mret (default (mkDateAttendance ∅ [] None None) (all !! dateStr)).

Definition saveAttendanceForDate (dateStr : string) (data : DateAttendance)
  : St unit :=
  all ← getAttendance;
  saveAttendance (<[dateStr := data]> all).

Definition getDesignationHistory : St DesignationHistory := λ ls,
  (default (mkDesignationHistory [] ∅) (hc_designation_history ls), ls).

Definition saveDesignationHistory (h : DesignationHistory) : St unit := λ ls,
  (tt, mkLocalStorage (hc_settings ls) (hc_areas ls) (hc_users ls) (hc_session ls)
         (hc_attendance ls) (Some h)).

End Storage.

(** ** DESIGNATION HISTORY & AUTOCOMPLETE *)

Module DesignationMgr.

(** [list.filter(d => normalizeDesignation(d) !== norm)], then [unshift]
    and [slice(0, cap)]. *)
Definition touch (cap : nat) (norm designationLabel : string)
    (l : list string) : list string :=
  take cap
    (designationLabel ::
     List.filter (λ d, negb (String.eqb (Utils.normalizeDesignation d) norm)) l).

(** The receiver of [h.byArea[areaName].filter(...)]: an inherited member
    is no array and has no [filter]. *)
Definition labels_of (m : Member (list string)) : StE (list string) :=
  match m with
  | Val l => mret l
  | _ => throw
  end.

Definition addToHistory (designationLabel areaName : string) : StE unit :=
  let norm := Utils.normalizeDesignation designationLabel in
  h ← liftE Storage.getDesignationHistory;
  let g := touch CONFIG.MAX_GLOBAL_DESIGNATION_HISTORY norm designationLabel
             (global h) in
  l ← labels_of (or_fresh (member (byArea h) areaName) []);
  let a := touch CONFIG.MAX_AREA_DESIGNATION_HISTORY norm designationLabel l in
  liftE (Storage.saveDesignationHistory
           (mkDesignationHistory g (<[areaName := a]> (byArea h)))).

Definition getSuggestions (partial areaName : string) : StE (list string) :=
  let norm := Utils.normalizeDesignation partial in
  h ← liftE Storage.getDesignationHistory;
  suggestions ←
    (if negb (String.eqb areaName EmptyString) then
       match member (byArea h) areaName with
       | Undefined => mret []
       | m =>
           l ← labels_of m;
           mret (List.filter
                   (λ d, Utils.includes (Utils.normalizeDesignation d) norm) l)
       end
     else mret []);
  if Nat.ltb (length suggestions) 5 then
    let global :=
      List.filter
        (λ d, Utils.includes (Utils.normalizeDesignation d) norm
              && negb (existsb (String.eqb d) suggestions))
        (global h) in
    mret (take 5 (suggestions ++ global))
  else mret suggestions.

End DesignationMgr.

(** ** AUTHENTICATION *)

(** The errors [login] throws: "Account locked. Try again in N minute(s).",
    "Invalid username or password" and "Account is disabled". *)
Inductive LoginError : Type :=
  | AccountLocked (remaining : Z)
  | InvalidCredentials
  | AccountDisabled.

Inductive LoginOutcome : Type :=
  | LoginOk
  | LoginErr (e : LoginError).

(** [Math.ceil(x / d)] for an integer [x] and [0 < d]. *)
Definition ceil_div (x d : Z) : Z := - ((- x) / d).

(** The errors [createUser] and [resetPassword] throw: "Username already
    exists" and "User not found". *)
Inductive UserError : Type :=
  | UsernameExists
  | UserNotFound.

Inductive UserOutcome : Type :=
  | UserOk
  | UserErr (e : UserError).

Module Auth.

Definition find_user (uname : string) (users : list User) : option User :=
  List.find (λ u, String.eqb (username u) uname) users.

Definition _handleFailedLogin (now : Z) : St unit :=
  sess ← Storage.getSession;
  let n := count (failedLogin sess) + 1 in
  let cd := if CONFIG.MAX_LOGIN_ATTEMPTS <=? n
            then Some (now + CONFIG.LOCKOUT_DURATION)
            else cooldownUntil (failedLogin sess) in
  Storage.saveSession
    (mkSession (currentUser sess) (expiresAt sess) (mkFailedLogin n cd)).

Definition logout : St unit :=
  sess ← Storage.getSession;
  Storage.saveSession (mkSession None None (failedLogin sess)).

Definition getCurrentUser (now : Z) : St (option User) :=
  sess ← Storage.getSession;
  if negb (truthy_str (currentUser sess)) then mret None
  else if truthy_num (expiresAt sess)
          && (default 0 (expiresAt sess) <? now)
  then logout;; mret None
  else
    users ← Storage.getUsers;
    match find_user (default EmptyString (currentUser sess)) users with
    | None => logout;; mret None
    | Some u => if disabled u then logout;; mret None else mret (Some u)
    end.

(** [u && u.role === 'admin']: [None] is the [null] of a missing user. *)
Definition isAdmin (now : Z) : St (option bool) :=
  u ← getCurrentUser now;
  mret (match u with
        | Some u => Some (match role u with role_admin => true | _ => false end)
        | None => None
        end).

(** An assignment to the object [users.find(...)] returned: the first user
    with that name changes. *)
Fixpoint assign_user (uname : string) (f : User → User) (l : list User)
  : list User :=
  match l with
  | [] => []
  | u :: l' =>
      if String.eqb (username u) uname then f u :: l'
      else u :: assign_user uname f l'
  end.

Section WithHash.

(** [Utils.hashPassword]: the SHA-256 digest of [password + salt] in
    hexadecimal, computed by the platform. *)
Variable hashPassword : string → string → string.

(** [now] is the clock when the call starts, [now'] the clock once the
    awaited hash is there. *)
Definition login (now now' : Z) (uname password : string)
  : St LoginOutcome :=
  sess ← Storage.getSession;
  if truthy_num (cooldownUntil (failedLogin sess))
     && (now <? default 0 (cooldownUntil (failedLogin sess)))
  then
    mret (LoginErr (AccountLocked
      (ceil_div (default 0 (cooldownUntil (failedLogin sess)) - now) 60000)))
  else
    users ← Storage.getUsers;
    match find_user uname users with
    | None => _handleFailedLogin now;; mret (LoginErr InvalidCredentials)
    | Some u =>
        if disabled u then mret (LoginErr AccountDisabled)
        else if negb (String.eqb (hashPassword password (salt u))
                        (passwordHash u))
        then _handleFailedLogin now';; mret (LoginErr InvalidCredentials)
        else
          Storage.saveSession
            (mkSession (Some uname) (Some (now' + CONFIG.SESSION_DURATION))
               (mkFailedLogin 0 None));;
          mret LoginOk
    end.

(** [salt0] is the salt [Utils.generateSalt] drew, [now] the clock when the
    user object is built. *)
Definition createUser (now : Z) (salt0 uname password : string) (role0 : Role)
    (assignedAreas0 : list string) : St UserOutcome :=
  users ← Storage.getUsers;
  match find_user uname users with
  | Some _ => mret (UserErr UsernameExists)
  | None =>
      Storage.saveUsers
        (users ++ [mkUser uname role0 salt0 (hashPassword password salt0)
                     assignedAreas0 now false]);;
      mret UserOk
  end.

Definition resetPassword (salt0 uname newPassword : string) : St UserOutcome :=
  users ← Storage.getUsers;
  match find_user uname users with
  | None => mret (UserErr UserNotFound)
  | Some _ =>
      Storage.saveUsers
        (assign_user uname
           (λ u, mkUser (username u) (role u) salt0
                   (hashPassword newPassword salt0) (assignedAreas u)
                   (createdAt u) (disabled u))
           users);;
      mret UserOk
  end.

End WithHash.

End Auth.

(** ** AUDIT TRAIL *)

Module Audit.

Definition addEntry (now : Z) (dateStr areaName designationKey : string)
    (field : Field) (oldVal newVal : JVal) : St unit :=
  u ← Auth.getCurrentUser now;
  match u with
  | None => mret tt
  | Some user =>
      data ← Storage.getAttendanceForDate dateStr;
      let unshifted :=
        mkAuditEntry now (username user) areaName designationKey field
          oldVal newVal :: audit data in
      let kept :=
        if Nat.ltb CONFIG.MAX_AUDIT_ENTRIES (length unshifted)
        then take CONFIG.MAX_AUDIT_ENTRIES unshifted else unshifted in
      Storage.saveAttendanceForDate dateStr
        (mkDateAttendance (areas data) kept (d_updatedAt data)
           (d_updatedBy data))
  end.

Definition getEntries (dateStr : string) : St (list AuditEntry) :=
  data ← Storage.getAttendanceForDate dateStr;
  mret (audit data).

End Audit.

(** ** ATTENDANCE WITH DESIGNATIONS *)

(** [{ total, confirmed, rows }] as [getAreaTotals] returns it. *)
Record AreaTotals : Type := mkAreaTotals {
  t_total : Number;
  t_confirmed : nat;
  t_rows : nat
}.

Module Attendance.

Definition has_key (designationKey0 : string) (r : Row) : bool :=
  String.eqb (designationKey r) designationKey0.

(** [rows.findIndex(p)], with [-1] when no element satisfies [p]. *)
Fixpoint findIndex (p : Row → bool) (l : list Row) : Z :=
  match l with
  | [] => -1
  | r :: l' =>
      if p r then 0
      else let i := findIndex p l' in if i <? 0 then -1 else i + 1
  end.

(** An assignment to the object [rows.find(p)] returned: it is the first
    element of [rows] that satisfies [p] that changes. *)
Fixpoint assign_found (p : Row → bool) (f : Row → Row) (l : list Row)
  : list Row :=
  match l with
  | [] => []
  | r :: l' => if p r then f r :: l' else r :: assign_found p f l'
  end.

(** The receiver of [area.rows.find(...)] and the like: an inherited member
    has no [rows], and the method is called on [undefined]. *)
Definition rows_of (area : Member AreaData) : StE (list Row) :=
  match area with
  | Val a => mret (rows a)
  | _ => throw
  end.

(** [data.areas[areaName] || { rows: [] }] *)
Definition getAreaData (dateStr areaName : string) : St (Member AreaData) :=
  data ← Storage.getAttendanceForDate dateStr;
  mret (or_fresh (member (areas data) areaName) (mkAreaData [])).

Definition getRow (dateStr areaName designationKey0 : string)
  : StE (option Row) :=
  area ← liftE (getAreaData dateStr areaName);
  rs ← rows_of area;
  mret (List.find (has_key designationKey0) rs).

Definition addOrUpdateRow (now : Z) (dateStr areaName designationLabel0 : string)
  : StE (option Row) :=
  u ← liftE (Auth.getCurrentUser now);
  match u with
  | None => mret None
  | Some user =>
      let key := Utils.normalizeDesignation designationLabel0 in
      data ← liftE (Storage.getAttendanceForDate dateStr);
      rs ← rows_of (or_fresh (member (areas data) areaName) (mkAreaData []));
      match List.find (has_key key) rs with
      | Some row =>
          liftE (Storage.saveAttendanceForDate dateStr
                   (mkDateAttendance (<[areaName := mkAreaData rs]> (areas data))
                      (audit data) (Some now) (Some (username user))));;
          mret (Some row)
      | None =>
          let row := mkRow key designationLabel0 JNull false None None in
          DesignationMgr.addToHistory designationLabel0 areaName;;
          liftE (Storage.saveAttendanceForDate dateStr
                   (mkDateAttendance
                      (<[areaName := mkAreaData (rs ++ [row])]> (areas data))
                      (audit data) (Some now) (Some (username user))));;
          mret (Some row)
      end
  end.

(** [Object.assign(row, updates, { updatedAt, updatedBy })] *)
Definition assign (updates : Updates) (now : Z) (by_user : string) (row : Row)
  : Row :=
  mkRow (designationKey row) (designationLabel row)
    (default (present row) (u_present updates))
    (default (confirmed row) (u_confirmed updates))
    (Some now) (Some by_user).

Definition updateRow (now : Z) (dateStr areaName designationKey0 : string)
    (updates : Updates) : StE unit :=
  u ← liftE (Auth.getCurrentUser now);
  match u with
  | None => mret tt
  | Some user =>
      data ← liftE (Storage.getAttendanceForDate dateStr);
      match member (areas data) areaName with
      | Undefined => mret tt
      | area =>
          rs ← rows_of area;
          match List.find (has_key designationKey0) rs with
          | None => mret tt
          | Some oldRow =>
              liftE
                (match u_present updates with
                 | Some v =>
                     if decide (v = present oldRow) then mret tt
                     else Audit.addEntry now dateStr areaName designationKey0
                            f_present (present oldRow) v
                 | None => mret tt
                 end);;
              liftE
                (match u_confirmed updates with
                 | Some b =>
                     if Bool.eqb b (confirmed oldRow) then mret tt
                     else Audit.addEntry now dateStr areaName designationKey0
                            f_confirmed (JBool (confirmed oldRow)) (JBool b)
                 | None => mret tt
                 end);;
              liftE
                (Storage.saveAttendanceForDate dateStr
                   (mkDateAttendance
                      (<[areaName :=
                           mkAreaData
                             (assign_found (has_key designationKey0)
                                (assign updates now (username user)) rs)]>
                         (areas data))
                      (audit data) (Some now) (Some (username user))))
          end
      end
  end.

Definition deleteRow (dateStr areaName designationKey0 : string) : StE unit :=
  data ← liftE (Storage.getAttendanceForDate dateStr);
  match member (areas data) areaName with
  | Undefined => mret tt
  | area =>
      rs ← rows_of area;
      let idx := findIndex (has_key designationKey0) rs in
      if 0 <=? idx then
        liftE
          (Storage.saveAttendanceForDate dateStr
             (mkDateAttendance
                (<[areaName := mkAreaData (delete (Z.to_nat idx) rs)]>
                   (areas data))
                (audit data) (d_updatedAt data) (d_updatedBy data)))
      else mret tt
  end.

(** [typeof r.present === 'number' ? r.present : 0] *)
Definition present_or_0 (r : Row) : Number :=
  match present r with JNum n => Fin n | _ => Fin 0 end.

Definition getAreaTotals (dateStr areaName : string) : StE AreaTotals :=
  area ← liftE (getAreaData dateStr areaName);
  rs ← rows_of area;
  let total := fold_left (λ sum r, js_add sum (present_or_0 r)) rs (Fin 0) in
  let confirmed := length (List.filter confirmed rs) in
  mret (mkAreaTotals total confirmed (length rs)).

(** [areas.reduce((sum, areaName) => sum + getAreaTotals(..).total, 0)] *)
Fixpoint getGrandTotal_from (sum : Number) (dateStr : string)
    (areas : list string) : StE Number :=
  match areas with
  | [] => mret sum
  | areaName :: rest =>
      t ← getAreaTotals dateStr areaName;
      getGrandTotal_from (js_add sum (t_total t)) dateStr rest
  end.

Definition getGrandTotal (dateStr : string) (areas : list string)
  : StE Number :=
  getGrandTotal_from (Fin 0) dateStr areas.

End Attendance.

(** ** ENTRY VIEW, BACKUP, ADMIN, APP: what they do to the store

    The views also build the page; that part writes nothing to
    [localStorage] and is left out.  The date a view works on comes from an
    input of the page and is an argument here. *)

(** [user.role === 'admin' ? Storage.getAreas() : user.assignedAreas] *)
Definition user_areas (u : User) : St (list string) :=
  match role u with
  | role_admin => Storage.getAreas
  | role_user => mret (assignedAreas u)
  end.

Module EntryView.

(** [render()]: after its [getCurrentUser] it only reads the store. *)
Definition render (now : Z) : St unit :=
  _ ← Auth.getCurrentUser now; mret tt.

(** [areaData.rows || []]: an inherited member has no [rows]. *)
Definition rows_or_empty (area : Member AreaData) : list Row :=
  match area with
  | Val a => rows a
  | _ => []
  end.

(** [!row.confirmed && row.present !== null && row.present !== ''] *)
Definition to_confirm (row : Row) : bool :=
  negb (confirmed row)
  && negb (bool_decide (present row = JNull))
  && negb (bool_decide (present row = JStr EmptyString)).

(** The inner [forEach] of [confirmAll], over the rows read before it. *)
Fixpoint confirm_rows (now : Z) (dateStr areaName : string) (l : list Row)
    (count0 : nat) : StE nat :=
  match l with
  | [] => mret count0
  | row :: rest =>
      if to_confirm row then
        Attendance.updateRow now dateStr areaName (designationKey row)
          (mkUpdates None (Some true));;
        confirm_rows now dateStr areaName rest (S count0)
      else confirm_rows now dateStr areaName rest count0
  end.

Fixpoint confirm_areas (now : Z) (dateStr : string) (l : list string)
    (count0 : nat) : StE nat :=
  match l with
  | [] => mret count0
  | areaName :: rest =>
      areaData ← liftE (Attendance.getAreaData dateStr areaName);
      c ← confirm_rows now dateStr areaName (rows_or_empty areaData) count0;
      confirm_areas now dateStr rest c
  end.

(** Returns the count the toast shows, nothing without a user. *)
Definition confirmAll (now : Z) (dateStr : string) : StE (option nat) :=
  u ← liftE (Auth.getCurrentUser now);
  match u with
  | None => mret None
  | Some user =>
      l ← liftE (user_areas user);
      c ← confirm_areas now dateStr l 0;
      liftE (render now);;
      mret (Some c)
  end.

(** [rowKeys.forEach(key => Attendance.deleteRow(dateStr, areaName, key))] *)
Fixpoint delete_keys (dateStr areaName : string) (keys : list string)
  : StE unit :=
  match keys with
  | [] => mret tt
  | key :: rest =>
      Attendance.deleteRow dateStr areaName key;;
      delete_keys dateStr areaName rest
  end.

Fixpoint clear_areas (dateStr : string) (l : list string) : StE unit :=
  match l with
  | [] => mret tt
  | areaName :: rest =>
      areaData ← liftE (Attendance.getAreaData dateStr areaName);
      delete_keys dateStr areaName (map designationKey (rows_or_empty areaData));;
      clear_areas dateStr rest
  end.

Definition clearAll (now : Z) (dateStr : string) : StE unit :=
  u ← liftE (Auth.getCurrentUser now);
  match u with
  | None => mret tt
  | Some user =>
      l ← liftE (user_areas user);
      clear_areas dateStr l;;
      liftE (render now)
  end.

End EntryView.

(** The object [exportBackup] serialises and [importBackup] parses; [None]
    is a key the file does not have. *)
Record Backup : Type := mkBackup {
  b_version : option Z;
  b_exportedAt : option Z;
  b_settings : option Settings;
  b_areas : option (list string);
  b_users : option (list User);
  b_attendance : option (gmap string DateAttendance);
  b_designationHistory : option DesignationHistory
}.

Inductive ImportOutcome : Type :=
  | Imported
  | InvalidBackup.

Module BackupView.

Definition exportBackup (now : Z) : St Backup :=
  st ← Storage.getSettings;
  ar ← Storage.getAreas;
  us ← Storage.getUsers;
  att ← Storage.getAttendance;
  h ← Storage.getDesignationHistory;
  mret (mkBackup (Some 1) (Some now) (Some st) (Some ar) (Some us) (Some att)
          (Some h)).

(** [importBackup] once the file is read and the overwrite is agreed to. *)
Definition importBackup (backup : Backup) : St ImportOutcome :=
  match b_settings backup with
  | Some st =>
      if truthy_num (b_version backup) then
        Storage.saveSettings st;;
        Storage.saveAreas (default [] (b_areas backup));;
        Storage.saveUsers (default [] (b_users backup));;
        Storage.saveAttendance (default ∅ (b_attendance backup));;
        match b_designationHistory backup with
        | Some h => Storage.saveDesignationHistory h
        | None => mret tt
        end;;
        mret Imported
      else mret InvalidBackup
  | None => mret InvalidBackup
  end.

Section WithDate.

(** [new Date(d)] as a time value, [None] for an invalid date, and the
    cutoff [cleanOldData] computes from the clock and [retentionDays] with
    [setDate]: both are the platform's calendar. *)
Variable parseDate : string → option Z.
Variable cutoffDate : Z → Z → Z.

(** [new Date(d) < cutoffDate]: a comparison with an invalid date is
    false. *)
Definition is_old (cutoff : Z) (d : string) : bool :=
  match parseDate d with
  | Some t => t <? cutoff
  | None => false
  end.

(** Returns the number of dates the toast reports. *)
Definition cleanOldData (now : Z) : St nat :=
  st ← Storage.getSettings;
  let cutoff := cutoffDate now (retentionDays st) in
  att ← Storage.getAttendance;
  Storage.saveAttendance
    (filter (λ kv, is_old cutoff kv.1 = false) att);;
  mret (size (filter (λ kv, is_old cutoff kv.1 = true) att)).

End WithDate.

End BackupView.

Inductive AddAreaOutcome : Type :=
  | AreaAdded
  | NameRequired
  | AlreadyExists.

Module AdminView.

Definition toggleUser (uname : string) : St unit :=
  users ← Storage.getUsers;
  match Auth.find_user uname users with
  | Some _ =>
      Storage.saveUsers
        (Auth.assign_user uname
           (λ u, mkUser (username u) (role u) (salt u) (passwordHash u)
                   (assignedAreas u) (createdAt u) (negb (disabled u)))
           users)
  | None => mret tt
  end.

(** The handler of the Add button in [showAddAreaModal]; [value] is the
    text of the input. *)
Definition addArea (value : string) : St AddAreaOutcome :=
  let name :=
    string_of_list_ascii (Utils.trim (list_ascii_of_string value)) in
  if String.eqb name EmptyString then mret NameRequired
  else
    ar ← Storage.getAreas;
    if existsb (String.eqb name) ar then mret AlreadyExists
    else Storage.saveAreas (ar ++ [name]);; mret AreaAdded.

(** [areas.indexOf(area)], with [-1] when it is not there. *)
Fixpoint indexOf (area : string) (l : list string) : Z :=
  match l with
  | [] => -1
  | a :: l' =>
      if String.eqb a area then 0
      else let i := indexOf area l' in if i <? 0 then -1 else i + 1
  end.

(** [deleteArea] once the deletion is agreed to. *)
Definition deleteArea (area : string) : St unit :=
  ar ← Storage.getAreas;
  let idx := indexOf area ar in
  if 0 <=? idx then Storage.saveAreas (delete (Z.to_nat idx) ar)
  else mret tt.

End AdminView.

Module App.

(** Returns whether the create-admin screen is shown. *)
Definition checkFirstRun : St bool :=
  users ← Storage.getUsers;
  let hasAdmin :=
    existsb
      (λ u, match role u with role_admin => true | _ => false end
            && negb (disabled u))
      users in
  if Nat.eqb (length users) 0 || negb hasAdmin then
    ar ← Storage.getAreas;
    (if Nat.eqb (length ar) 0 then Storage.saveAreas CONFIG.DEFAULT_AREAS
     else mret tt);;
    mret true
  else mret false.

End App.

(** ** Vocabulary of the specification *)

(** What the store holds for a date: the rows of an area and the audit
    list, empty when the date or the area has no document. *)
Definition stored_rows (ls : LocalStorage) (dateStr areaName : string)
  : list Row :=
  match default ∅ (hc_attendance ls) !! dateStr with
  | Some data =>
      match areas data !! areaName with
      | Some area => rows area
      | None => []
      end
  | None => []
  end.

Definition stored_audit (ls : LocalStorage) (dateStr : string)
  : list AuditEntry :=
  match default ∅ (hc_attendance ls) !! dateStr with
  | Some data => audit data
  | None => []
  end.

(** The session document as [Storage.getSession] reads it. *)
Definition session_of (ls : LocalStorage) : Session :=
  result Storage.getSession ls.

(** The store with the session document replaced. *)
Definition set_session (s : Session) (ls : LocalStorage) : LocalStorage :=
  mkLocalStorage (hc_settings ls) (hc_areas ls) (hc_users ls) (Some s)
    (hc_attendance ls) (hc_designation_history ls).

(** A session as [login] leaves it: a user name, which the forms require
    not to be empty, and the instant at which the session expires, which is
    [SESSION_DURATION] after a clock reading and so not the epoch itself. *)
Definition logged_in (sess : Session) (u : string) (e : Z) : Prop :=
  currentUser sess = Some u ∧ u ≠ EmptyString ∧ expiresAt sess = Some e ∧ e ≠ 0.

(** The session documents the program writes: nobody logged in, or a
    session as [login] leaves it. *)
Definition session_wf (sess : Session) : Prop :=
  (currentUser sess = None ∧ expiresAt sess = None)
  ∨ ∃ u e, logged_in sess u e.

(** The session after one failed credential check at clock [t]. *)
Definition fail_session (t : Z) (sess : Session) : Session :=
  let n := count (failedLogin sess) + 1 in
  mkSession (currentUser sess) (expiresAt sess)
    (mkFailedLogin n
       (if CONFIG.MAX_LOGIN_ATTEMPTS <=? n
        then Some (t + CONFIG.LOCKOUT_DURATION)
        else cooldownUntil (failedLogin sess))).

(** The test [login] starts with. *)
Definition locked (now : Z) (sess : Session) : bool :=
  truthy_num (cooldownUntil (failedLogin sess))
  && (now <? default 0 (cooldownUntil (failedLogin sess))).

(** One call of [login]: its two clock readings and its arguments. *)
Record Attempt : Type := mkAttempt {
  at_now : Z;
  at_now' : Z;
  at_username : string;
  at_password : string
}.

(** Calls of [login] one after the other, nothing in between. *)
Fixpoint attempts (hashPassword : string → string → string)
    (l : list Attempt) : St (list LoginOutcome) :=
  match l with
  | [] => mret []
  | a :: rest =>
      o ← Auth.login hashPassword (at_now a) (at_now' a) (at_username a)
            (at_password a);
      os ← attempts hashPassword rest;
      mret (o :: os)
  end.

(** The matches [getSuggestions] finds in the history of the area. *)
Definition area_matches (ls : LocalStorage) (partial areaName : string)
  : list string :=
  List.filter
    (λ d, Utils.includes (Utils.normalizeDesignation d)
            (Utils.normalizeDesignation partial))
    (default [] (byArea (result Storage.getDesignationHistory ls) !! areaName)).

(** The row [addOrUpdateRow] creates for a label. *)
Definition new_row (label : string) : Row :=
  mkRow (Utils.normalizeDesignation label) label JNull false None None.

(** [total] and [confirmed] of [getAreaTotals], as the specification words
    them. *)
Definition present_number (r : Row) : Z :=
  match present r with JNum n => n | _ => 0 end.

Fixpoint sum_present (rs : list Row) : Z :=
  match rs with
  | [] => 0
  | r :: rs' => present_number r + sum_present rs'
  end.

Definition count_confirmed (rs : list Row) : nat :=
  length (List.filter confirmed rs).

(** [Number.MAX_SAFE_INTEGER], and the sum of the absolute values of the
    present numbers: while it is no larger, every sum of present numbers is
    an integer that doubles add without rounding. *)
Definition MAX_SAFE_INTEGER : Z := 2 ^ 53 - 1.

Fixpoint abs_sum_present (rs : list Row) : Z :=
  match rs with
  | [] => 0
  | r :: rs' => Z.abs (present_number r) + abs_sum_present rs'
  end.

(** The two conditional calls of [Audit.addEntry] in [updateRow], for the
    row [oldRow] it found. *)
Definition audit_changes (now : Z) (dateStr areaName key : string)
    (updates : Updates) (oldRow : Row) : St unit :=
  match u_present updates with
  | Some v =>
      if decide (v = present oldRow) then mret tt
      else Audit.addEntry now dateStr areaName key f_present
             (present oldRow) v
  | None => mret tt
  end;;
  match u_confirmed updates with
  | Some b =>
      if Bool.eqb b (confirmed oldRow) then mret tt
      else Audit.addEntry now dateStr areaName key f_confirmed
             (JBool (confirmed oldRow)) (JBool b)
  | None => mret tt
  end.

(** [updateRow] with [{ present: v }] for each [v] of [vals] in turn, one
    millisecond apart. *)
Fixpoint set_present_seq (now : Z) (dateStr areaName key : string)
    (vals : list Z) : StE unit :=
  match vals with
  | [] => mret tt
  | v :: rest =>
      Attendance.updateRow now dateStr areaName key
        (mkUpdates (Some (JNum v)) None);;
      set_present_seq (now + 1) dateStr areaName key rest
  end.

(** Labels that differ only in letter case and in white space: the words of
    a label are its maximal runs of characters other than white space, and
    two such labels have the same words up to the case of their letters. *)
Module LabelSpec.
Import Utils.






Definition starts_space (l : list ascii) : bool :=
  match l with c :: _ => is_space c | [] => false end.


End LabelSpec.

(** ** Stores used in examples *)

Module Examples.

(** Stands for the digest in examples. *)
Definition concat_hash (password salt : string) : string := password ++ salt.

Definition admin_user : User :=
  mkUser "admin" role_admin "5a17" "secret5a17" [] 1700000000000 false.

Definition welder : Row := mkRow "welder" "Welder" JNull false None None.
Definition fitter : Row := mkRow "fitter" "Fitter" (JNum 4) true None None.

Definition ledger : gmap string DateAttendance :=
  {[ "2023-11-14" :=
       mkDateAttendance {[ "Spool Yard" := mkAreaData [welder; fitter] ]}
         [] None None ]}.

(** [admin] is logged in until 1700030000000. *)
Definition store : LocalStorage :=
  mkLocalStorage None None (Some [admin_user])
    (Some (mkSession (Some "admin") (Some 1700030000000)
             (mkFailedLogin 0 None)))
    (Some ledger) None.

(** The same with two areas in the list of areas, one of them under a name
    that every object inherits. *)
Definition store_with_areas : LocalStorage :=
  mkLocalStorage None (Some ["Spool Yard"; "constructor"]) (Some [admin_user])
    (Some (mkSession (Some "admin") (Some 1700030000000)
             (mkFailedLogin 0 None)))
    (Some ledger) None.

(** Nobody is logged in. *)
Definition store_logged_out : LocalStorage :=
  mkLocalStorage None None (Some [admin_user]) None (Some ledger) None.

(** Five failures were counted and the cooldown ended at 1700000300000. *)
Definition store_after_cooldown : LocalStorage :=
  mkLocalStorage None None (Some [admin_user])
    (Some (mkSession None None (mkFailedLogin 5 (Some 1700000300000))))
    (Some ledger) None.

Definition wrong_attempts : list Attempt :=
  [ mkAttempt 1700000000000 1700000000040 "admin" "guess";
    mkAttempt 1700000001000 1700000001040 "nobody" "secret";
    mkAttempt 1700000002000 1700000002040 "admin" "Secret";
    mkAttempt 1700000003000 1700000003040 "root" "toor";
    mkAttempt 1700000004000 1700000004040 "admin" "secret " ].

Definition totals_rows : list Row :=
  [ mkRow "welder" "Welder" (JNum 3) true None None;
    mkRow "fitter" "Fitter" JNull false None None;
    mkRow "rigger" "Rigger" (JNum 5) true None None ].

Definition totals_store : LocalStorage :=
  mkLocalStorage None None None None
    (Some {[ "2024-05-01" :=
               mkDateAttendance {[ "Spool Yard" := mkAreaData totals_rows ]}
                 [] None None ]})
    None.

(** Three rows whose present numbers add up to [2^53 + 2]. *)
Definition big_rows : list Row :=
  [ mkRow "welder" "Welder" (JNum 9007199254740992) false None None;
    mkRow "fitter" "Fitter" (JNum 1) false None None;
    mkRow "rigger" "Rigger" (JNum 1) false None None ].

Definition big_store : LocalStorage :=
  mkLocalStorage None None None None
    (Some {[ "2024-05-01" :=
               mkDateAttendance {[ "Spool Yard" := mkAreaData big_rows ]}
                 [] None None ]})
    None.

Definition six_labels : list string :=
  ["Welder A"; "Welder B"; "Welder C"; "Welder D"; "Welder E"; "Welder F"].

Definition history_store : LocalStorage :=
  mkLocalStorage None None None None None
    (Some (mkDesignationHistory six_labels {[ "Spool Yard" := six_labels ]})).

End Examples.

(** The attendance document of a date as stored, if any. *)
Definition stored_date (ls : LocalStorage) (dateStr : string)
  : option DateAttendance :=
  default ∅ (hc_attendance ls) !! dateStr.

(** The rows of an area of a date document, [[]] when the area is not
    there. *)
Definition rows_in (data : DateAttendance) (areaName : string) : list Row :=
  match areas data !! areaName with Some a => rows a | None => [] end.

(** Two stores with the same session and user documents. *)
Definition same_auth (ls ls' : LocalStorage) : Prop :=
  hc_session ls' = hc_session ls ∧ hc_users ls' = hc_users ls.

(** The rows without the first row that has the key. *)
Fixpoint remove_key (key : string) (rs : list Row) : list Row :=
  match rs with
  | [] => []
  | r :: rs' => if Attendance.has_key key r then rs' else r :: remove_key key rs'
  end.

(** The sum of the totals of the listed areas, an area counted as often as
    it is listed. *)
Fixpoint sum_areas (ls : LocalStorage) (dateStr : string) (l : list string) : Z :=
  match l with
  | [] => 0
  | a :: rest => sum_present (stored_rows ls dateStr a) + sum_areas ls dateStr rest
  end.

Fixpoint abs_sum_areas (ls : LocalStorage) (dateStr : string)
    (l : list string) : Z :=
  match l with
  | [] => 0
  | a :: rest =>
      abs_sum_present (stored_rows ls dateStr a) + abs_sum_areas ls dateStr rest
  end.

(** A row after [confirmAll]: confirmed by the user at the clock when it
    had a present count and was not confirmed, as it was otherwise. *)
Definition confirm_row (now : Z) (by_user : string) (r : Row) : Row :=
  if EntryView.to_confirm r
  then mkRow (designationKey r) (designationLabel r) (present r) true
         (Some now) (Some by_user)
  else r.

(** The rows [confirmAll] has to confirm in the listed areas. *)
Fixpoint count_to_confirm (ls : LocalStorage) (dateStr : string)
    (l : list string) : nat :=
  match l with
  | [] => 0
  | a :: rest =>
      length (List.filter EntryView.to_confirm (stored_rows ls dateStr a))
      + count_to_confirm ls dateStr rest
  end.

(** The user list as [Storage.getUsers] reads it. *)
Definition users_of (ls : LocalStorage) : list User :=
  result Storage.getUsers ls.

(** [u.role === 'admin' && !u.disabled] *)
Definition enabled_admin (u : User) : bool :=
  match role u with role_admin => true | _ => false end && negb (disabled u).

(** The user [toggleUser] stores in place of [u]. *)
Definition flip_disabled (u : User) : User :=
  mkUser (username u) (role u) (salt u) (passwordHash u) (assignedAreas u)
    (createdAt u) (negb (disabled u)).

(** What the lookups of an area name give on a store: in [areas] of the
    date document, and in [byArea] of the designation history. *)
Definition area_member (ls : LocalStorage) (dateStr areaName : string)
  : Member AreaData :=
  member (areas (result (Storage.getAttendanceForDate dateStr) ls)) areaName.

Definition history_member (ls : LocalStorage) (areaName : string)
  : Member (list string) :=
  member (byArea (result Storage.getDesignationHistory ls)) areaName.

(** The designation history as [Storage.getDesignationHistory] reads it,
    and the list it holds for an area. *)
Definition history_of (ls : LocalStorage) : DesignationHistory :=
  result Storage.getDesignationHistory ls.

Definition area_history (ls : LocalStorage) (areaName : string) : list string :=
  default [] (byArea (history_of ls) !! areaName).

(** The keys of the labels of a history list. *)
Definition history_keys (l : list string) : list string :=
  map Utils.normalizeDesignation l.

(** The store after [addToHistory] has saved, and the date document
    [addOrUpdateRow] saves with the rows [rs] for the area. *)
Definition history_touched (label areaName : string) (ls : LocalStorage)
  : LocalStorage :=
  exec (Storage.saveDesignationHistory
          (mkDesignationHistory
             (DesignationMgr.touch CONFIG.MAX_GLOBAL_DESIGNATION_HISTORY
                (Utils.normalizeDesignation label) label (global (history_of ls)))
             (<[areaName :=
                  DesignationMgr.touch CONFIG.MAX_AREA_DESIGNATION_HISTORY
                    (Utils.normalizeDesignation label) label
                    (area_history ls areaName)]> (byArea (history_of ls)))))
    ls.

Definition date_with_rows (ls : LocalStorage) (dateStr areaName : string)
    (rs : list Row) (t : option Z) (by_user : option string) : DateAttendance :=
  let data := result (Storage.getAttendanceForDate dateStr) ls in
  mkDateAttendance (<[areaName := mkAreaData rs]> (areas data)) (audit data)
    t by_user.

(** The documents a backup carries, as the [Storage] getters read them. *)
Definition settings_of (ls : LocalStorage) : Settings :=
  result Storage.getSettings ls.

Definition areas_of (ls : LocalStorage) : list string :=
  result Storage.getAreas ls.

Definition attendance_of (ls : LocalStorage) : gmap string DateAttendance :=
  result Storage.getAttendance ls.

(** Two stores that every [Storage] getter but [getSession] reads alike. *)
Definition same_data (ls ls' : LocalStorage) : Prop :=
  settings_of ls' = settings_of ls
  ∧ areas_of ls' = areas_of ls
  ∧ users_of ls' = users_of ls
  ∧ attendance_of ls' = attendance_of ls
  ∧ result Storage.getDesignationHistory ls'
    = result Storage.getDesignationHistory ls.

(** The text of an input once trimmed, and a name that is its own trimmed
    text and is not empty. *)
Definition trimmed_text (value : string) : string :=
  string_of_list_ascii (Utils.trim (list_ascii_of_string value)).

Definition well_named (name : string) : bool :=
  negb (String.eqb name EmptyString)
  && String.eqb (trimmed_text name) name.

(** A list without the first occurrence of a name. *)
Fixpoint remove_first (area : string) (l : list string) : list string :=
  match l with
  | [] => []
  | a :: l' => if String.eqb a area then l' else a :: remove_first area l'
  end.

(** The 256 values of a byte, and those that make [generatePassword] draw a
    given character. *)
Definition all_bytes : list Byte.byte :=
  omap Byte.of_nat (seq 0 256).

Definition bytes_giving (c : ascii) : list Byte.byte :=
  List.filter
    (λ b, String.eqb (Utils.generatePassword [b]) (String c EmptyString))
    all_bytes.

(** The letters and digits the alphabet of [generatePassword] leaves out. *)
Definition left_out : list ascii :=
  list_ascii_of_string "IOilo01".

(** * Properties *)

Ltac st_unfold :=
  unfold result, exec, run,
    Storage.getAttendanceForDate, Storage.saveAttendanceForDate,
    Storage.getAttendance, Storage.saveAttendance,
    Storage.getSession, Storage.saveSession, Storage.getUsers,
    Storage.getDesignationHistory, Storage.saveDesignationHistory in *;
  unfold mbind, St_bind, mret, St_ret in *.

Ltac st_simpl :=
  cbn [fst snd hc_settings hc_areas hc_users hc_session hc_attendance
       hc_designation_history rows areas audit d_updatedAt d_updatedBy] in *.

(** ** Designation keys *)

Section Normalize.
Import Utils LabelSpec.

Lemma trim_start_snoc l c :
  trim_start (l ++ [c])
  = match trim_start l with
    | [] => if is_space c then [] else [c]
    | r => (r ++ [c])%list
    end.
Proof.
  induction l as [|x l IH]; simpl.
  - destruct (is_space c); reflexivity.
  - destruct (is_space x); [exact IH|reflexivity].
Qed.

(** [trim_end] is [trim_start] read from the other end. *)
Lemma trim_end_rev l : trim_end l = rev (trim_start (rev l)).
Proof.
  induction l as [|c l IH]; [reflexivity|].
  simpl. rewrite trim_start_snoc, IH.
  destruct (trim_start (rev l)) as [|x r] eqn:E; simpl.
  - destruct (is_space c); reflexivity.
  - rewrite rev_app_distr. simpl.
    destruct (rev r ++ [x])%list eqn:E2; [by destruct (rev r)|reflexivity].
Qed.











Lemma trim_end_starts l :
  trim_end l ≠ [] → starts_space (trim_end l) = starts_space l.
Proof.
  destruct l as [|c l]; [done|]. simpl.
  destruct (trim_end l); [destruct (is_space c) eqn:Hc; [done|] |]; simpl; auto.
Qed.





Lemma trim_start_starts l : starts_space (trim_start l) = false.
Proof.
  induction l as [|c l IH]; [reflexivity|]. simpl.
  destruct (is_space c) eqn:Hc; [exact IH|]. simpl. exact Hc.
Qed.














End Normalize.

(** ** Sessions and lockout *)

Section Sessions.
Variable hashPassword : string → string → string.

Lemma session_of_set_session s ls : session_of (set_session s ls) = s.
Proof. reflexivity. Qed.

(** [getCurrentUser] writes the session document only, and only to log
    out. *)
Lemma getCurrentUser_cases now ls :
  (∃ u, run (Auth.getCurrentUser now) ls = (Some u, ls))
  ∨ run (Auth.getCurrentUser now) ls = (None, ls)
  ∨ run (Auth.getCurrentUser now) ls
    = (None, set_session (mkSession None None (failedLogin (session_of ls))) ls).
Proof.
  unfold Auth.getCurrentUser, Auth.logout, session_of. st_unfold.
  set (sess := default _ (hc_session ls)).
  destruct (negb (truthy_str (currentUser sess))); [auto|].
  destruct (truthy_num (expiresAt sess) && _); [right; right; eauto|].
  destruct (Auth.find_user _ _) as [u|]; [|right; right; eauto].
  destruct (disabled u); [right; right; eauto|left; eauto].
Qed.

(** C4. On a logged-in session whose [expiresAt] is in the past,
    [getCurrentUser] returns none and leaves a stored session with
    [currentUser] and [expiresAt] cleared; called again, at any instant, it
    returns none once more and writes nothing. *)
Theorem getCurrentUser_expired ls now u e :
  logged_in (session_of ls) u e → e < now →
  let ls' := exec (Auth.getCurrentUser now) ls in
  result (Auth.getCurrentUser now) ls = None
  ∧ ls' = set_session (mkSession None None (failedLogin (session_of ls))) ls
  ∧ ∀ now2, run (Auth.getCurrentUser now2) ls' = (None, ls').
Proof.
  intros (Hu & Hne & He & He0) Hlt.
  assert (Hrun : run (Auth.getCurrentUser now) ls
            = (None, set_session
                       (mkSession None None (failedLogin (session_of ls))) ls)).
  { unfold session_of in *. unfold Auth.getCurrentUser, Auth.logout. st_unfold.
    cbn [fst] in *. rewrite Hu, He. simpl.
    apply String.eqb_neq in Hne. rewrite Hne. simpl.
    assert (Z.eqb e 0 = false) as -> by lia.
    assert ((e <? now) = true) as -> by lia.
    reflexivity. }
  unfold result, exec, run in *. rewrite Hrun. simpl.
  split; [reflexivity|]. split; [reflexivity|].
  intros now2. reflexivity.
Qed.

Lemma handleFailedLogin_run t ls :
  run (Auth._handleFailedLogin t) ls
  = (tt, set_session (fail_session t (session_of ls)) ls).
Proof. reflexivity. Qed.

(** Every way [login] can end. *)
Lemma login_cases now now' u p ls :
  let sess := session_of ls in
  let r := run (Auth.login hashPassword now now' u p) ls in
  (locked now sess = true
   ∧ r = (LoginErr (AccountLocked
            (ceil_div (default 0 (cooldownUntil (failedLogin sess)) - now) 60000)),
          ls))
  ∨ (locked now sess = false
     ∧ ((Auth.find_user u (default [] (hc_users ls)) = None
         ∧ r = (LoginErr InvalidCredentials,
                set_session (fail_session now sess) ls))
        ∨ (∃ usr, Auth.find_user u (default [] (hc_users ls)) = Some usr
           ∧ ((disabled usr = true ∧ r = (LoginErr AccountDisabled, ls))
              ∨ (disabled usr = false
                 ∧ hashPassword p (salt usr) ≠ passwordHash usr
                 ∧ r = (LoginErr InvalidCredentials,
                        set_session (fail_session now' sess) ls))
              ∨ (disabled usr = false
                 ∧ hashPassword p (salt usr) = passwordHash usr
                 ∧ r = (LoginOk,
                        set_session
                          (mkSession (Some u)
                             (Some (now' + CONFIG.SESSION_DURATION))
                             (mkFailedLogin 0 None)) ls)))))).
Proof.
  intros sess r. subst r sess.
  unfold Auth.login, locked, session_of. st_unfold.
  cbn [fst snd].
  set (sess := default _ (hc_session ls)).
  destruct (truthy_num _ && _) eqn:Hl; [left; auto|right].
  split; [reflexivity|].
  destruct (Auth.find_user u (default [] (hc_users ls))) as [usr|] eqn:Hf.
  - right. exists usr. split; [reflexivity|].
    destruct (disabled usr) eqn:Hd; [left; auto|right].
    destruct (String.eqb_spec (hashPassword p (salt usr)) (passwordHash usr))
      as [Heq|Hneq]; simpl.
    + right. auto.
    + left. auto.
  - left. auto.
Qed.

Lemma login_invalid now now' u p ls :
  result (Auth.login hashPassword now now' u p) ls = LoginErr InvalidCredentials →
  ∃ t, (t = now ∨ t = now')
    ∧ exec (Auth.login hashPassword now now' u p) ls
      = set_session (fail_session t (session_of ls)) ls.
Proof.
  unfold result, exec.
  destruct (login_cases now now' u p ls)
    as [[_ Hr] | [_ [[_ Hr] | (usr & _ & [[_ Hr] | [(_ & _ & Hr) | (_ & _ & Hr)]])]]];
    unfold run in Hr; rewrite Hr; simpl; try discriminate; eauto.
Qed.

(** Failed attempts in a row only add up. *)
Lemma attempts_invalid atts ls :
  result (attempts hashPassword atts) ls
  = replicate (length atts) (LoginErr InvalidCredentials) →
  ∃ ts, Forall2 (λ a t, t = at_now a ∨ t = at_now' a) atts ts
    ∧ session_of (exec (attempts hashPassword atts) ls)
      = fold_left (λ s t, fail_session t s) ts (session_of ls)
    ∧ hc_users (exec (attempts hashPassword atts) ls) = hc_users ls.
Proof.
  revert ls. induction atts as [|a rest IH]; intros ls H.
  - exists []. repeat split. constructor.
  - simpl in H. unfold result, exec in *. simpl in *.
    unfold mbind, St_bind, mret, St_ret in *.
    pose proof (login_invalid (at_now a) (at_now' a) (at_username a)
                  (at_password a) ls) as Hl.
    unfold result, exec in Hl.
    destruct (Auth.login hashPassword _ _ _ _ ls) as [o ls1].
    specialize (IH ls1).
    destruct (attempts hashPassword rest ls1) as [os ls2]. simpl in *.
    injection H as Ho Hos.
    destruct (Hl Ho) as (t & Ht & ->).
    destruct (IH Hos) as (ts & Hts & Hs & Hu).
    exists (t :: ts). split; [by constructor|]. split; [exact Hs|exact Hu].
Qed.

Lemma fold_fail_count ts s :
  count (failedLogin (fold_left (λ s t, fail_session t s) ts s))
  = count (failedLogin s) + Z.of_nat (length ts).
Proof.
  revert s. induction ts as [|t ts IH]; intros s; simpl; [lia|].
  rewrite IH. simpl. lia.
Qed.

Lemma fail_session_locks t s :
  5 ≤ count (failedLogin s) + 1 →
  failedLogin (fail_session t s)
  = mkFailedLogin (count (failedLogin s) + 1)
      (Some (t + CONFIG.LOCKOUT_DURATION)).
Proof.
  intros H. unfold fail_session. simpl.
  destruct (Z.leb_spec CONFIG.MAX_LOGIN_ATTEMPTS (count (failedLogin s) + 1));
    [reflexivity|].
  unfold CONFIG.MAX_LOGIN_ATTEMPTS in *. lia.
Qed.

Lemma login_locked now now' u p ls cd :
  cooldownUntil (failedLogin (session_of ls)) = Some cd → cd ≠ 0 → now < cd →
  run (Auth.login hashPassword now now' u p) ls
  = (LoginErr (AccountLocked (ceil_div (cd - now) 60000)), ls).
Proof.
  intros Hcd H0 Hlt.
  destruct (login_cases now now' u p ls) as [[_ Hr] | [Hl _]].
  - rewrite Hr, Hcd. reflexivity.
  - unfold locked in Hl. rewrite Hcd in Hl. simpl in Hl.
    apply andb_false_iff in Hl as [Hl | Hl].
    + apply negb_false_iff in Hl. lia.
    + lia.
Qed.

Lemma login_correct now now' u p ls usr :
  locked now (session_of ls) = false →
  Auth.find_user u (default [] (hc_users ls)) = Some usr →
  disabled usr = false →
  hashPassword p (salt usr) = passwordHash usr →
  run (Auth.login hashPassword now now' u p) ls
  = (LoginOk,
     set_session (mkSession (Some u) (Some (now' + CONFIG.SESSION_DURATION))
                    (mkFailedLogin 0 None)) ls).
Proof.
  intros Hl Hf Hd Hh.
  destruct (login_cases now now' u p ls)
    as [[Hl' _] | [_ [[Hf' _] | (usr' & Hf' & H)]]]; [congruence..|].
  assert (usr' = usr) as -> by congruence.
  destruct H as [[? _] | [(_ & ? & _) | (_ & _ & Hr)]]; [congruence..|exact Hr].
Qed.

Lemma not_locked_after now sess cd :
  cooldownUntil (failedLogin sess) = Some cd → cd ≤ now →
  locked now sess = false.
Proof.
  intros Hcd Hle. unfold locked. rewrite Hcd. simpl.
  apply andb_false_iff. right. lia.
Qed.

Lemma find_user_first uname pre usr post :
  Forall (λ x, username x ≠ uname) pre → username usr = uname →
  Auth.find_user uname (pre ++ usr :: post)%list = Some usr.
Proof.
  intros Hpre Hu. unfold Auth.find_user.
  induction Hpre as [|x pre Hx Hpre IH]; simpl.
  - apply String.eqb_eq in Hu. by rewrite Hu.
  - apply String.eqb_neq in Hx. by rewrite Hx.
Qed.

(** C2. After five calls of [login] in a row that each failed with
    [InvalidCredentials] (wrong password or unknown user name, in any mix),
    the stored [cooldownUntil] is the clock of the fifth failure plus
    [LOCKOUT_DURATION].  Before that instant every call of [login] fails
    with [AccountLocked] and changes nothing, whatever its credentials: so
    does the call with the name [u] and the password [p] of [usr], the first
    stored user of that name, who is enabled.  From that instant on that
    call succeeds and leaves [failedLogin] at
    [{count: 0, cooldownUntil: null}].  The counter starts at zero or more
    and the clock is read after the epoch. *)
Theorem lockout_after_five_failures ls atts a5 u p usr pre post :
  0 ≤ count (failedLogin (session_of ls)) →
  length atts = 5%nat → last atts = Some a5 →
  0 ≤ at_now a5 → 0 ≤ at_now' a5 →
  result (attempts hashPassword atts) ls
  = replicate 5 (LoginErr InvalidCredentials) →
  users_of ls = (pre ++ usr :: post)%list →
  Forall (λ x, username x ≠ u) pre → username usr = u →
  disabled usr = false →
  hashPassword p (salt usr) = passwordHash usr →
  let ls5 := exec (attempts hashPassword atts) ls in
  ∃ cd,
    cooldownUntil (failedLogin (session_of ls5)) = Some cd
    ∧ (cd = at_now a5 + CONFIG.LOCKOUT_DURATION
       ∨ cd = at_now' a5 + CONFIG.LOCKOUT_DURATION)
    ∧ (∀ now now' u' p',
         now < cd →
         run (Auth.login hashPassword now now' u' p') ls5
         = (LoginErr (AccountLocked (ceil_div (cd - now) 60000)), ls5))
    ∧ (∀ now now',
         now < cd →
         result (Auth.login hashPassword now now' u p) ls5
         = LoginErr (AccountLocked (ceil_div (cd - now) 60000)))
    ∧ (∀ now now',
         cd ≤ now →
         let ls6 := exec (Auth.login hashPassword now now' u p) ls5 in
         result (Auth.login hashPassword now now' u p) ls5 = LoginOk
         ∧ currentUser (session_of ls6) = Some u
         ∧ failedLogin (session_of ls6) = mkFailedLogin 0 None).
Proof.
  intros Hc Hlen Hlast Hn Hn' Hres Hus Hpre Hname Hd Hh ls5.
  rewrite <- Hlen in Hres.
  destruct (attempts_invalid atts ls Hres) as (ts & Hts & Hs & Hu).
  fold ls5 in Hs, Hu.
  assert (Hlts : length ts = 5%nat).
  { rewrite <- Hlen. symmetry. eapply Forall2_length, Hts. }
  apply last_Some in Hlast as [atts' ->].
  apply Forall2_app_inv_l in Hts as (ts' & tl & Hts' & Htl & ->).
  inversion Htl as [|? t ? ? Ht Hnil]; subst. inversion Hnil; subst.
  rewrite fold_left_app in Hs. simpl in Hs.
  assert (Hcnt : 5 ≤ count (failedLogin
                   (fold_left (λ s t, fail_session t s) ts' (session_of ls))) + 1).
  { rewrite fold_fail_count. rewrite length_app in Hlts. simpl in Hlts. lia. }
  exists (t + CONFIG.LOCKOUT_DURATION).
  assert (Hcd : cooldownUntil (failedLogin (session_of ls5))
                = Some (t + CONFIG.LOCKOUT_DURATION)).
  { rewrite Hs, fail_session_locks by exact Hcnt. reflexivity. }
  assert (H0 : t + CONFIG.LOCKOUT_DURATION ≠ 0).
  { unfold CONFIG.LOCKOUT_DURATION. destruct Ht; subst; lia. }
  assert (Hf : Auth.find_user (username usr) (default [] (hc_users ls5))
               = Some usr).
  { rewrite Hu. change (default [] (hc_users ls)) with (users_of ls).
    rewrite Hus. by apply find_user_first. }
  split; [exact Hcd|]. split; [destruct Ht; subst; auto|].
  split; [|split].
  - intros now now' u' p' Hlt. by apply login_locked.
  - intros now now' Hlt. unfold result.
    pose proof (login_locked now now' (username usr) p ls5 _ Hcd H0 Hlt) as Hr.
    unfold run in Hr. by rewrite Hr.
  - intros now now' Hle ls6. subst ls6.
    unfold result, exec.
    pose proof (login_correct now now' (username usr) p ls5 usr
                  (not_locked_after _ _ _ Hcd Hle) Hf Hd Hh) as Hr.
    unfold run in Hr. rewrite Hr. simpl. auto.
Qed.

(** C9. When the counter has reached five and the cooldown is over, the
    counter is still there: a call of [login] that fails on its credentials
    raises it by one and stores a new [cooldownUntil], the clock of that
    failure plus [LOCKOUT_DURATION], before which every call is locked out
    again; a call that fails on a disabled account writes nothing; only a
    call that succeeds puts the counter back to zero.  The clock is read
    after the epoch. *)
Theorem count_survives_cooldown ls cd now now' u p :
  5 ≤ count (failedLogin (session_of ls)) →
  cooldownUntil (failedLogin (session_of ls)) = Some cd →
  cd ≤ now → 0 ≤ now → 0 ≤ now' →
  let ls' := exec (Auth.login hashPassword now now' u p) ls in
  match result (Auth.login hashPassword now now' u p) ls with
  | LoginOk => failedLogin (session_of ls') = mkFailedLogin 0 None
  | LoginErr InvalidCredentials =>
      ∃ t, (t = now ∨ t = now')
        ∧ failedLogin (session_of ls')
          = mkFailedLogin (count (failedLogin (session_of ls)) + 1)
              (Some (t + CONFIG.LOCKOUT_DURATION))
        ∧ ∀ now2 now2' u2 p2,
            now2 < t + CONFIG.LOCKOUT_DURATION →
            run (Auth.login hashPassword now2 now2' u2 p2) ls'
            = (LoginErr (AccountLocked
                 (ceil_div (t + CONFIG.LOCKOUT_DURATION - now2) 60000)), ls')
  | LoginErr AccountDisabled => ls' = ls
  | LoginErr (AccountLocked _) => False
  end.
Proof.
  intros Hc Hcd Hle Hn Hn' ls'. subst ls'. unfold result, exec.
  pose proof (not_locked_after now _ _ Hcd Hle) as Hnl.
  assert (Hfail : ∀ t, (t = now ∨ t = now') →
    let ls' := set_session (fail_session t (session_of ls)) ls in
    ∃ t0, (t0 = now ∨ t0 = now')
      ∧ failedLogin (session_of ls')
        = mkFailedLogin (count (failedLogin (session_of ls)) + 1)
            (Some (t0 + CONFIG.LOCKOUT_DURATION))
      ∧ ∀ now2 now2' u2 p2,
          now2 < t0 + CONFIG.LOCKOUT_DURATION →
          run (Auth.login hashPassword now2 now2' u2 p2) ls'
          = (LoginErr (AccountLocked
               (ceil_div (t0 + CONFIG.LOCKOUT_DURATION - now2) 60000)), ls')).
  { intros t Ht ls'. exists t. split; [exact Ht|].
    assert (Hf : failedLogin (session_of ls')
                 = mkFailedLogin (count (failedLogin (session_of ls)) + 1)
                     (Some (t + CONFIG.LOCKOUT_DURATION))).
    { subst ls'. rewrite session_of_set_session.
      apply fail_session_locks. lia. }
    split; [exact Hf|].
    intros now2 now2' u2 p2 Hlt. apply login_locked; [by rewrite Hf| |exact Hlt].
    unfold CONFIG.LOCKOUT_DURATION. destruct Ht; subst; lia. }
  destruct (login_cases now now' u p ls)
    as [[Hl _] | [_ [[_ Hr] | (usr & _ & [[_ Hr] | [(_ & _ & Hr) | (_ & _ & Hr)]])]]];
    [congruence|..]; unfold run in Hr; rewrite Hr; simpl.
  - apply Hfail. auto.
  - reflexivity.
  - apply Hfail. auto.
  - reflexivity.
Qed.

Lemma session_wf_fail t sess : session_wf sess → session_wf (fail_session t sess).
Proof.
  intros [[Hu He] | (u & e & Hu & Hne & He & He0)].
  - left. split; assumption.
  - right. exists u, e. repeat split; assumption.
Qed.

(** X1. The session documents of [session_wf] are closed under the
    operations that write the session: [getCurrentUser], [logout] and
    [login] with a user name that is not empty and a clock after the epoch.
    The sessions of C4 are the logged-in ones among them. *)
Theorem session_wf_preserved ls :
  session_wf (session_of ls) →
  (∀ now, session_wf (session_of (exec (Auth.getCurrentUser now) ls)))
  ∧ session_wf (session_of (exec Auth.logout ls))
  ∧ (∀ now now' u p,
       u ≠ EmptyString → 0 ≤ now' →
       session_wf (session_of (exec (Auth.login hashPassword now now' u p) ls))).
Proof.
  intros Hwf. split; [|split].
  - intros now. unfold exec.
    destruct (getCurrentUser_cases now ls) as [[u H] | [H | H]];
      unfold run in H; rewrite H; simpl; [exact Hwf..|].
    left. split; reflexivity.
  - left. split; reflexivity.
  - intros now now' u p Hu Hn. unfold exec.
    destruct (login_cases now now' u p ls)
      as [[_ Hr] | [_ [[_ Hr] | (usr & _ & [[_ Hr] | [(_ & _ & Hr) | (_ & _ & Hr)]])]]];
      unfold run in Hr; rewrite Hr; simpl;
      [exact Hwf | by apply session_wf_fail | exact Hwf
      | by apply session_wf_fail | ].
    right. exists u, (now' + CONFIG.SESSION_DURATION).
    repeat split; [exact Hu|]. unfold CONFIG.SESSION_DURATION. lia.
Qed.

End Sessions.

Lemma session_wf_preserved_witness :
  (∀ now, session_wf (session_of (exec (Auth.getCurrentUser now) Examples.store)))
  ∧ session_wf (session_of (exec Auth.logout Examples.store))
  ∧ (∀ now now' u p,
       u ≠ EmptyString → 0 ≤ now' →
       session_wf
         (session_of (exec (Auth.login Examples.concat_hash now now' u p)
                        Examples.store))).
Proof.
  apply (session_wf_preserved Examples.concat_hash Examples.store).
  right. exists "admin", 1700030000000. unfold logged_in. simpl.
  repeat split; [discriminate|lia].
Defined.

Lemma getCurrentUser_expired_witness :
  let ls' := exec (Auth.getCurrentUser 1700030000001) Examples.store in
  result (Auth.getCurrentUser 1700030000001) Examples.store = None
  ∧ ls' = set_session
            (mkSession None None (failedLogin (session_of Examples.store)))
            Examples.store
  ∧ ∀ now2, run (Auth.getCurrentUser now2) ls' = (None, ls').
Proof.
  apply (getCurrentUser_expired Examples.store 1700030000001 "admin"
           1700030000000).
  - unfold logged_in. simpl. repeat split; [discriminate|lia].
  - lia.
Defined.

Lemma lockout_after_five_failures_witness :
  let ls5 := exec (attempts Examples.concat_hash Examples.wrong_attempts)
               Examples.store in
  let correct now now' :=
    Auth.login Examples.concat_hash now now' "admin" "secret" in
  cooldownUntil (failedLogin (session_of ls5)) = Some 1700000304040
  ∧ run (correct 1700000304039 1700000304039) ls5
    = (LoginErr (AccountLocked 1), ls5)
  ∧ result (correct 1700000304040 1700000304080) ls5 = LoginOk
  ∧ currentUser (session_of (exec (correct 1700000304040 1700000304080) ls5))
    = Some "admin"
  ∧ failedLogin (session_of (exec (correct 1700000304040 1700000304080) ls5))
    = mkFailedLogin 0 None.
Proof.
  destruct (lockout_after_five_failures Examples.concat_hash Examples.store
              Examples.wrong_attempts
              (mkAttempt 1700000004000 1700000004040 "admin" "secret ")
              "admin" "secret" Examples.admin_user [] [])
    as (cd & Hcd & _ & Hlocked & _ & Hok).
  - simpl. lia.
  - reflexivity.
  - reflexivity.
  - simpl. lia.
  - simpl. lia.
  - vm_compute. reflexivity.
  - reflexivity.
  - constructor.
  - reflexivity.
  - reflexivity.
  - reflexivity.
  - assert (cd = 1700000304040) as ->
      by (vm_compute in Hcd; congruence).
    split; [exact Hcd|].
    split; [apply (Hlocked 1700000304039 1700000304039 "admin" "secret"); lia|].
    apply (Hok 1700000304040 1700000304080). lia.
Defined.

Lemma count_survives_cooldown_witness :
  result (Auth.login Examples.concat_hash 1700000300000 1700000300040
            "admin" "guess") Examples.store_after_cooldown
  = LoginErr InvalidCredentials
  ∧ let ls' := exec (Auth.login Examples.concat_hash 1700000300000
                       1700000300040 "admin" "guess")
                 Examples.store_after_cooldown in
    match result (Auth.login Examples.concat_hash 1700000300000 1700000300040
                    "admin" "guess") Examples.store_after_cooldown with
    | LoginOk => failedLogin (session_of ls') = mkFailedLogin 0 None
    | LoginErr InvalidCredentials =>
        ∃ t, (t = 1700000300000 ∨ t = 1700000300040)
          ∧ failedLogin (session_of ls')
            = mkFailedLogin
                (count (failedLogin (session_of Examples.store_after_cooldown)) + 1)
                (Some (t + CONFIG.LOCKOUT_DURATION))
          ∧ ∀ now2 now2' u2 p2,
              now2 < t + CONFIG.LOCKOUT_DURATION →
              run (Auth.login Examples.concat_hash now2 now2' u2 p2) ls'
              = (LoginErr (AccountLocked
                   (ceil_div (t + CONFIG.LOCKOUT_DURATION - now2) 60000)), ls')
    | LoginErr AccountDisabled => ls' = Examples.store_after_cooldown
    | LoginErr (AccountLocked _) => False
    end.
Proof.
  split; [vm_compute; reflexivity|].
  apply (count_survives_cooldown Examples.concat_hash
           Examples.store_after_cooldown 1700000300000 1700000300000
           1700000300040 "admin" "guess").
  - simpl. lia.
  - reflexivity.
  - lia.
  - lia.
  - lia.
Defined.

(** ** The ledger and its audit trail *)

(** Rewrites with an equation on [run m ls], read as one on [m ls]. *)
Ltac rw_run H :=
  let E := fresh "E" in
  pose proof H as E; unfold run in E; rewrite E; clear E.

Section Ledger.

Lemma getCurrentUser_live now ls u :
  result (Auth.getCurrentUser now) ls = Some u →
  run (Auth.getCurrentUser now) ls = (Some u, ls).
Proof.
  unfold result.
  destruct (getCurrentUser_cases now ls) as [[u' H] | [H | H]];
    unfold run in *; rewrite H; simpl; congruence.
Qed.

Lemma getCurrentUser_none now ls :
  result (Auth.getCurrentUser now) ls = None →
  hc_attendance (exec (Auth.getCurrentUser now) ls) = hc_attendance ls.
Proof.
  unfold result, exec.
  destruct (getCurrentUser_cases now ls) as [[u' H] | [H | H]];
    unfold run in *; rewrite H; simpl; congruence.
Qed.

Lemma stored_rows_insert st ar us se att h dateStr areaName rs
    (m : gmap string AreaData) au t by_user :
  stored_rows
    (mkLocalStorage st ar us se
       (Some (<[dateStr := mkDateAttendance (<[areaName := mkAreaData rs]> m)
                             au t by_user]> att)) h)
    dateStr areaName = rs.
Proof.
  unfold stored_rows. simpl.
  rewrite lookup_insert_eq. simpl. rewrite lookup_insert_eq. reflexivity.
Qed.

(** *** Lookups of an area name *)

Lemma member_Val {A} (obj : gmap string A) key a :
  member obj key = Val a ↔ obj !! key = Some a.
Proof.
  unfold member. destruct (obj !! key) as [x|].
  - split; congruence.
  - destruct (bool_decide _); split; discriminate.
Qed.

Lemma member_Inherited {A} (obj : gmap string A) key :
  member obj key = Inherited ↔ obj !! key = None ∧ key ∈ Object_prototype.
Proof.
  unfold member. destruct (obj !! key) as [x|].
  - split; [discriminate|intros [? _]; discriminate].
  - destruct (bool_decide_reflect (key ∈ Object_prototype)); split;
      try discriminate; try done; intros [_ ?]; done.
Qed.

Lemma member_insert_eq {A} (obj : gmap string A) key a :
  member (<[key := a]> obj) key = Val a.
Proof. unfold member. by rewrite lookup_insert_eq. Qed.

Lemma member_insert_ne {A} (obj : gmap string A) key key' a :
  key ≠ key' → member (<[key := a]> obj) key' = member obj key'.
Proof. intros Hne. unfold member. by rewrite lookup_insert_ne. Qed.

(** The rows the store holds for an area are those of the member the
    lookup finds; a name that is inherited or missing has none. *)
Lemma area_member_rows ls dateStr areaName :
  stored_rows ls dateStr areaName
  = match area_member ls dateStr areaName with
    | Val a => rows a
    | _ => []
    end.
Proof.
  unfold stored_rows, area_member, member. st_unfold. simpl.
  destruct (default ∅ (hc_attendance ls) !! dateStr) as [d|]; simpl.
  - destruct (areas d !! areaName); [reflexivity|].
    by destruct (bool_decide _).
  - rewrite lookup_empty. by destruct (bool_decide _).
Qed.

Lemma stored_rows_member ls dateStr areaName :
  stored_rows ls dateStr areaName ≠ [] →
  area_member ls dateStr areaName ≠ Inherited.
Proof. rewrite area_member_rows. by destruct (area_member _ _ _). Qed.

(** [rows_of] on what [data.areas[areaName] || { rows: [] }] gives. *)
Lemma rows_of_area ls dateStr areaName ls0 :
  Attendance.rows_of
    (or_fresh (area_member ls dateStr areaName) (mkAreaData [])) ls0
  = match area_member ls dateStr areaName with
    | Inherited => (TypeError, ls0)
    | _ => (Ok (stored_rows ls dateStr areaName), ls0)
    end.
Proof.
  rewrite area_member_rows.
  destruct (area_member ls dateStr areaName); reflexivity.
Qed.

Lemma getAreaData_result ls dateStr areaName :
  run (Attendance.getAreaData dateStr areaName) ls
  = (or_fresh (area_member ls dateStr areaName) (mkAreaData []), ls).
Proof. reflexivity. Qed.

Lemma getAreaData_rows ls dateStr areaName :
  EntryView.rows_or_empty (result (Attendance.getAreaData dateStr areaName) ls)
  = stored_rows ls dateStr areaName.
Proof.
  rewrite area_member_rows. unfold result.
  rw_run (getAreaData_result ls dateStr areaName).
  cbn [fst]. by destruct (area_member ls dateStr areaName).
Qed.

Lemma getRow_run ls dateStr areaName key :
  run (Attendance.getRow dateStr areaName key) ls
  = match area_member ls dateStr areaName with
    | Inherited => (TypeError, ls)
    | _ => (Ok (List.find (Attendance.has_key key)
                  (stored_rows ls dateStr areaName)), ls)
    end.
Proof.
  pose proof (rows_of_area ls dateStr areaName ls) as Hr.
  unfold Attendance.getRow, run, mbind, StE_bind, liftE.
  rw_run (getAreaData_result ls dateStr areaName).
  rewrite Hr. by destruct (area_member ls dateStr areaName).
Qed.

Lemma getRow_result ls dateStr areaName key :
  area_member ls dateStr areaName ≠ Inherited →
  result (Attendance.getRow dateStr areaName key) ls
  = Ok (List.find (Attendance.has_key key) (stored_rows ls dateStr areaName)).
Proof.
  intros Hm. unfold result. rw_run (getRow_run ls dateStr areaName key).
  by destruct (area_member ls dateStr areaName).
Qed.

Lemma getEntries_result ls dateStr :
  result (Audit.getEntries dateStr) ls = stored_audit ls dateStr.
Proof.
  unfold Audit.getEntries, stored_audit. st_unfold. st_simpl.
  destruct (default ∅ (hc_attendance ls) !! dateStr); reflexivity.
Qed.

(** *** Adding a designation *)

Lemma history_member_labels ls areaName ls0 :
  DesignationMgr.labels_of (or_fresh (history_member ls areaName) []) ls0
  = match history_member ls areaName with
    | Inherited => (TypeError, ls0)
    | _ => (Ok (area_history ls areaName), ls0)
    end.
Proof.
  unfold history_member, area_history, history_of, member.
  destruct (byArea _ !! areaName); [reflexivity|].
  by destruct (bool_decide _).
Qed.

Lemma addToHistory_run label areaName ls :
  run (DesignationMgr.addToHistory label areaName) ls
  = match history_member ls areaName with
    | Inherited => (TypeError, ls)
    | _ => (Ok tt, history_touched label areaName ls)
    end.
Proof.
  pose proof (history_member_labels ls areaName ls) as Hl.
  unfold DesignationMgr.addToHistory, run, mbind, StE_bind, liftE.
  change (Storage.getDesignationHistory ls) with (history_of ls, ls).
  cbn beta iota zeta.
  change (member (byArea (history_of ls)) areaName)
    with (history_member ls areaName).
  rewrite Hl. by destruct (history_member ls areaName).
Qed.

(** With a live session, [addOrUpdateRow] throws on an area name that is
    inherited, in the date document or, for a new key, in the history, and
    has then written nothing; otherwise it saves the date document, with
    the rows as they are when the key is there and with the new row at
    their end when it is not. *)
Lemma addOrUpdateRow_run now dateStr areaName label ls u :
  result (Auth.getCurrentUser now) ls = Some u →
  let rs := stored_rows ls dateStr areaName in
  let saved rs' ls0 :=
    exec (Storage.saveAttendanceForDate dateStr
            (date_with_rows ls dateStr areaName rs' (Some now)
               (Some (username u)))) ls0 in
  run (Attendance.addOrUpdateRow now dateStr areaName label) ls
  = match area_member ls dateStr areaName with
    | Inherited => (TypeError, ls)
    | _ =>
        match List.find (Attendance.has_key (Utils.normalizeDesignation label)) rs with
        | Some row => (Ok (Some row), saved rs ls)
        | None =>
            match history_member ls areaName with
            | Inherited => (TypeError, ls)
            | _ => (Ok (Some (new_row label)),
                    saved (rs ++ [new_row label])%list
                      (history_touched label areaName ls))
            end
        end
    end.
Proof.
  intros Hu rs saved. subst rs saved. apply getCurrentUser_live in Hu.
  pose proof (rows_of_area ls dateStr areaName ls) as Hr.
  pose proof (addToHistory_run label areaName ls) as Hh.
  unfold Attendance.addOrUpdateRow, run in *.
  unfold mbind at 1, StE_bind at 1, liftE at 1. rewrite Hu.
  unfold mbind at 1, StE_bind at 1, liftE at 1.
  change (Storage.getAttendanceForDate dateStr ls)
    with (result (Storage.getAttendanceForDate dateStr) ls, ls).
  cbn beta iota zeta.
  unfold mbind at 1, StE_bind at 1.
  change (member (areas (result (Storage.getAttendanceForDate dateStr) ls))
            areaName) with (area_member ls dateStr areaName).
  rewrite Hr.
  destruct (area_member ls dateStr areaName) as [area| |]; [|reflexivity|];
    (destruct (List.find _ (stored_rows ls dateStr areaName)) as [row|];
     [reflexivity|];
     unfold mbind at 1, StE_bind at 1; rewrite Hh;
     destruct (history_member ls areaName); reflexivity).
Qed.

Lemma stored_rows_saved ls ls0 dateStr areaName rs t by_user :
  stored_rows
    (exec (Storage.saveAttendanceForDate dateStr
             (date_with_rows ls dateStr areaName rs t by_user)) ls0)
    dateStr areaName = rs.
Proof.
  unfold stored_rows, date_with_rows. st_unfold. simpl.
  rewrite lookup_insert_eq. simpl. by rewrite lookup_insert_eq.
Qed.

(** With a live session and an area name that is not inherited,
    [addOrUpdateRow] leaves the rows as they are when the key is there, and
    appends the new row otherwise. *)
Lemma addOrUpdateRow_live now dateStr areaName label ls u :
  result (Auth.getCurrentUser now) ls = Some u →
  area_member ls dateStr areaName ≠ Inherited →
  history_member ls areaName ≠ Inherited →
  let rs := stored_rows ls dateStr areaName in
  let ls' := exec (Attendance.addOrUpdateRow now dateStr areaName label) ls in
  stored_rows ls' dateStr areaName
  = match List.find (Attendance.has_key (Utils.normalizeDesignation label)) rs with
    | Some _ => rs
    | None => (rs ++ [new_row label])%list
    end
  ∧ hc_session ls' = hc_session ls ∧ hc_users ls' = hc_users ls.
Proof.
  intros Hu Ha Hh rs ls'. subst rs ls'. unfold exec.
  rw_run (addOrUpdateRow_run now dateStr areaName label ls u Hu).
  destruct (area_member ls dateStr areaName) as [area| |]; [|done|];
    (destruct (List.find _ (stored_rows ls dateStr areaName)) as [row|];
     [cbn [snd]; rewrite stored_rows_saved; auto|];
     destruct (history_member ls areaName); [|done|];
     cbn [snd]; rewrite stored_rows_saved; auto).
Qed.

Lemma updateRow_none now dateStr areaName key updates ls :
  result (Auth.getCurrentUser now) ls = None →
  hc_attendance (exec (Attendance.updateRow now dateStr areaName key updates) ls)
  = hc_attendance ls.
Proof.
  intros Hn. pose proof (getCurrentUser_none now ls Hn) as Ha.
  unfold Attendance.updateRow. unfold result, exec in *.
  unfold mbind, StE_bind at 1, liftE at 1.
  destruct (Auth.getCurrentUser now ls) as [o ls']. simpl in *. subst o.
  exact Ha.
Qed.

Lemma addOrUpdateRow_none now dateStr areaName label ls :
  result (Auth.getCurrentUser now) ls = None →
  hc_attendance (exec (Attendance.addOrUpdateRow now dateStr areaName label) ls)
  = hc_attendance ls.
Proof.
  intros Hn. pose proof (getCurrentUser_none now ls Hn) as Ha.
  unfold Attendance.addOrUpdateRow. unfold result, exec in *.
  unfold mbind, StE_bind at 1, liftE at 1.
  destruct (Auth.getCurrentUser now ls) as [o ls']. simpl in *. subst o.
  exact Ha.
Qed.

(** Whatever the session and the area name, the rows of the area are as
    they were or have the new row at their end. *)
Lemma addOrUpdateRow_rows now dateStr areaName label ls :
  let rs := stored_rows ls dateStr areaName in
  let ls' := exec (Attendance.addOrUpdateRow now dateStr areaName label) ls in
  stored_rows ls' dateStr areaName = rs
  ∨ (List.find (Attendance.has_key (Utils.normalizeDesignation label)) rs = None
     ∧ stored_rows ls' dateStr areaName = (rs ++ [new_row label])%list).
Proof.
  intros rs ls'. subst rs ls'.
  destruct (result (Auth.getCurrentUser now) ls) as [u|] eqn:Hu.
  - unfold exec.
    rw_run (addOrUpdateRow_run now dateStr areaName label ls u Hu).
    destruct (area_member ls dateStr areaName) as [area| |]; [|by left|];
      (destruct (List.find _ (stored_rows ls dateStr areaName)) as [row|];
       [left; cbn [snd]; by rewrite stored_rows_saved|];
       destruct (history_member ls areaName); [|by left|];
       right; cbn [snd]; by rewrite stored_rows_saved).
  - left. unfold stored_rows. by rewrite addOrUpdateRow_none.
Qed.

Lemma find_none_filter (p : Row → bool) rs :
  List.find p rs = None → List.filter p rs = [].
Proof.
  induction rs as [|r rs IH]; [reflexivity|]. simpl.
  destruct (p r); [discriminate|exact IH].
Qed.

Lemma has_key_true key r :
  Attendance.has_key key r = true ↔ designationKey r = key.
Proof. unfold Attendance.has_key. apply String.eqb_eq. Qed.

Lemma filter_has_key_not_in key rs :
  key ∉ map designationKey rs → List.filter (Attendance.has_key key) rs = [].
Proof.
  induction rs as [|r rs IH]; [reflexivity|]. simpl. intros Hnin.
  destruct (Attendance.has_key key r) eqn:Hk.
  - apply has_key_true in Hk. exfalso. apply Hnin. rewrite Hk. left.
  - apply IH. intros Hin. apply Hnin. by right.
Qed.

Lemma find_filter_unique key rs r :
  NoDup (map designationKey rs) →
  List.find (Attendance.has_key key) rs = Some r →
  List.filter (Attendance.has_key key) rs = [r].
Proof.
  induction rs as [|x rs IH]; [discriminate|]. simpl.
  intros Hnd Hf. apply NoDup_cons in Hnd as [Hnin Hnd].
  destruct (Attendance.has_key key x) eqn:Hk.
  - injection Hf as ->. f_equal. apply filter_has_key_not_in.
    apply has_key_true in Hk. by rewrite <- Hk.
  - by apply IH.
Qed.

Lemma find_app_new (p : Row → bool) rs x :
  List.find p rs = None → p x = true → List.find p (rs ++ [x]) = Some x.
Proof.
  induction rs as [|r rs IH]; simpl; intros Hf Hx; [by rewrite Hx|].
  destruct (p r); [discriminate|by apply IH].
Qed.

Lemma find_none_not_in key rs :
  List.find (Attendance.has_key key) rs = None → key ∉ map designationKey rs.
Proof.
  induction rs as [|r rs IH]; simpl; intros Hf Hin.
  - by apply not_elem_of_nil in Hin.
  - destruct (Attendance.has_key key r) eqn:Hk; [discriminate|].
    apply elem_of_cons in Hin as [-> | Hin]; [|by apply IH].
    unfold Attendance.has_key in Hk. by rewrite String.eqb_refl in Hk.
Qed.

Lemma area_member_saved ls ls0 dateStr areaName rs t by_user :
  area_member
    (exec (Storage.saveAttendanceForDate dateStr
             (date_with_rows ls dateStr areaName rs t by_user)) ls0)
    dateStr areaName = Val (mkAreaData rs).
Proof.
  unfold area_member, date_with_rows. st_unfold. simpl.
  rewrite lookup_insert_eq. simpl. apply member_insert_eq.
Qed.

(** After a call with a live session that did not throw, the area is a key
    of the date document. *)
Lemma addOrUpdateRow_member now dateStr areaName label ls u :
  result (Auth.getCurrentUser now) ls = Some u →
  area_member ls dateStr areaName ≠ Inherited →
  history_member ls areaName ≠ Inherited →
  area_member (exec (Attendance.addOrUpdateRow now dateStr areaName label) ls)
    dateStr areaName ≠ Inherited.
Proof.
  intros Hu Ha Hh. unfold exec.
  rw_run (addOrUpdateRow_run now dateStr areaName label ls u Hu).
  destruct (area_member ls dateStr areaName) as [area| |]; [|done|];
    (destruct (List.find _ (stored_rows ls dateStr areaName)) as [row|];
     [cbn [snd]; by rewrite area_member_saved|];
     destruct (history_member ls areaName); [|done|];
     cbn [snd]; by rewrite area_member_saved).
Qed.

(** With a live session and the key there, the call returns the row and
    needs no look at the history. *)
Lemma addOrUpdateRow_found now dateStr areaName label ls u row :
  result (Auth.getCurrentUser now) ls = Some u →
  area_member ls dateStr areaName ≠ Inherited →
  List.find (Attendance.has_key (Utils.normalizeDesignation label))
    (stored_rows ls dateStr areaName) = Some row →
  result (Attendance.addOrUpdateRow now dateStr areaName label) ls
  = Ok (Some row)
  ∧ stored_rows (exec (Attendance.addOrUpdateRow now dateStr areaName label) ls)
      dateStr areaName = stored_rows ls dateStr areaName.
Proof.
  intros Hu Ha Hf. unfold result, exec.
  rw_run (addOrUpdateRow_run now dateStr areaName label ls u Hu).
  rewrite Hf.
  destruct (area_member ls dateStr areaName) as [area| |]; [|done|];
    cbn [fst snd]; by rewrite stored_rows_saved.
Qed.

(** X2. [addOrUpdateRow] keeps the keys of the rows of an area distinct,
    with or without a live session. *)
Theorem addOrUpdateRow_keeps_keys_unique now dateStr areaName label ls :
  NoDup (map designationKey (stored_rows ls dateStr areaName)) →
  NoDup (map designationKey
           (stored_rows
              (exec (Attendance.addOrUpdateRow now dateStr areaName label) ls)
              dateStr areaName)).
Proof.
  intros Hnd.
  destruct (addOrUpdateRow_rows now dateStr areaName label ls) as [->|[Hf ->]];
    [exact Hnd|].
  rewrite map_app. simpl. apply NoDup_app. split; [exact Hnd|]. split.
  - intros k Hk Hin. apply list_elem_of_singleton in Hin. subst k.
    by apply find_none_not_in in Hf.
  - apply NoDup_singleton.
Qed.

(** X7. For two labels with the same key, on an area whose name is not
    inherited and whose stored rows have distinct keys, and with a session
    that is live at both calls, [addOrUpdateRow] called with one label and
    then with the other leaves exactly one row with that key; the second
    call returns that row and leaves the rows of the area as the first left
    them, so the row found after it is the row found before it, with its
    [present] and [confirmed]. *)
Theorem addOrUpdateRow_idempotent ls now1 now2 dateStr areaName a b u1 u2 :
  Utils.normalizeDesignation a = Utils.normalizeDesignation b →
  NoDup (map designationKey (stored_rows ls dateStr areaName)) →
  area_member ls dateStr areaName ≠ Inherited →
  history_member ls areaName ≠ Inherited →
  let key := Utils.normalizeDesignation a in
  let ls1 := exec (Attendance.addOrUpdateRow now1 dateStr areaName a) ls in
  let ls2 := exec (Attendance.addOrUpdateRow now2 dateStr areaName b) ls1 in
  result (Auth.getCurrentUser now1) ls = Some u1 →
  result (Auth.getCurrentUser now2) ls1 = Some u2 →
  ∃ r,
    List.filter (Attendance.has_key key) (stored_rows ls2 dateStr areaName) = [r]
    ∧ result (Attendance.getRow dateStr areaName key) ls1 = Ok (Some r)
    ∧ result (Attendance.addOrUpdateRow now2 dateStr areaName b) ls1
      = Ok (Some r)
    ∧ result (Attendance.getRow dateStr areaName key) ls2 = Ok (Some r)
    ∧ stored_rows ls2 dateStr areaName = stored_rows ls1 dateStr areaName.
Proof.
  intros Hab Hnd Ha Hh key ls1 ls2 H1 H2.
  destruct (addOrUpdateRow_live now1 dateStr areaName a ls u1 H1 Ha Hh)
    as (Hr1 & _ & _).
  pose proof (addOrUpdateRow_member now1 dateStr areaName a ls u1 H1 Ha Hh)
    as Ha1.
  fold ls1 in Hr1, Ha1. fold key in Hr1.
  assert (H : ∃ r, List.find (Attendance.has_key key)
                     (stored_rows ls1 dateStr areaName) = Some r
              ∧ List.filter (Attendance.has_key key)
                  (stored_rows ls1 dateStr areaName) = [r]).
  { rewrite Hr1.
    destruct (List.find _ (stored_rows ls dateStr areaName)) as [r|] eqn:Hf.
    - exists r. split; [exact Hf|by apply find_filter_unique].
    - exists (new_row a).
      assert (Hk : Attendance.has_key key (new_row a) = true)
        by (apply has_key_true; reflexivity).
      split; [by apply find_app_new|].
      rewrite List.filter_app, (find_none_filter _ _ Hf). simpl.
      by rewrite Hk. }
  destruct H as (r & Hf & Hflt).
  assert (Hfb : List.find (Attendance.has_key (Utils.normalizeDesignation b))
                  (stored_rows ls1 dateStr areaName) = Some r)
    by (rewrite <- Hab; exact Hf).
  destruct (addOrUpdateRow_found now2 dateStr areaName b ls1 u2 r H2 Ha1 Hfb)
    as [Hres Hrows].
  fold ls2 in Hrows.
  assert (Ha2 : area_member ls2 dateStr areaName ≠ Inherited).
  { apply stored_rows_member. rewrite Hrows. intros E. by rewrite E in Hf. }
  exists r. rewrite Hrows, !getRow_result by assumption.
  rewrite Hrows, Hf. auto.
Qed.

(** *** Deleting a row *)

Lemma findIndex_app key pre r post :
  Forall (λ x, designationKey x ≠ key) pre → designationKey r = key →
  Attendance.findIndex (Attendance.has_key key) (pre ++ r :: post)%list
  = Z.of_nat (length pre).
Proof.
  intros Hpre Hr. induction Hpre as [|x pre Hx Hpre IH]; simpl.
  - apply has_key_true in Hr. by rewrite Hr.
  - destruct (Attendance.has_key key x) eqn:Hk.
    + apply has_key_true in Hk. done.
    + rewrite IH. destruct (Z.ltb_spec (Z.of_nat (length pre)) 0); lia.
Qed.

Lemma delete_middle (pre : list Row) r post :
  delete (length pre) (pre ++ r :: post)%list = (pre ++ post)%list.
Proof. induction pre as [|x pre IH]; simpl; [reflexivity|by rewrite IH]. Qed.

(** [deleteRow] throws on an inherited area name, returns at once on one
    that is missing, and otherwise saves the date document when a row has
    the key. *)
Lemma deleteRow_run ls dateStr areaName key :
  let data := result (Storage.getAttendanceForDate dateStr) ls in
  let rs := stored_rows ls dateStr areaName in
  let idx := Attendance.findIndex (Attendance.has_key key) rs in
  run (Attendance.deleteRow dateStr areaName key) ls
  = match area_member ls dateStr areaName with
    | Inherited => (TypeError, ls)
    | Undefined => (Ok tt, ls)
    | Val _ =>
        if 0 <=? idx then
          (Ok tt,
           exec (Storage.saveAttendanceForDate dateStr
                   (date_with_rows ls dateStr areaName
                      (delete (Z.to_nat idx) rs) (d_updatedAt data)
                      (d_updatedBy data))) ls)
        else (Ok tt, ls)
    end.
Proof.
  intros data rs idx. subst data rs idx. rewrite area_member_rows.
  unfold Attendance.deleteRow, run.
  unfold mbind at 1, StE_bind at 1, liftE at 1.
  change (Storage.getAttendanceForDate dateStr ls)
    with (result (Storage.getAttendanceForDate dateStr) ls, ls).
  cbn beta iota zeta.
  change (member (areas (result (Storage.getAttendanceForDate dateStr) ls))
            areaName) with (area_member ls dateStr areaName).
  destruct (area_member ls dateStr areaName) as [area| |]; [|reflexivity..].
  unfold mbind, StE_bind, Attendance.rows_of, mret, StE_ret.
  destruct (0 <=? _); reflexivity.
Qed.

Lemma deleteRow_removes ls dateStr areaName key pre r post :
  stored_rows ls dateStr areaName = (pre ++ r :: post)%list →
  Forall (λ x, designationKey x ≠ key) pre → designationKey r = key →
  run (Attendance.deleteRow dateStr areaName key) ls
  = (Ok tt, exec (Attendance.deleteRow dateStr areaName key) ls)
  ∧ stored_rows (exec (Attendance.deleteRow dateStr areaName key) ls)
      dateStr areaName = (pre ++ post)%list.
Proof.
  intros Hrows Hpre Hr. unfold exec, run.
  rw_run (deleteRow_run ls dateStr areaName key).
  pose proof (area_member_rows ls dateStr areaName) as Hm.
  rewrite Hrows in *.
  destruct (area_member ls dateStr areaName) as [area| |];
    [|by destruct pre..].
  rewrite findIndex_app by done.
  destruct (Z.leb_spec 0 (Z.of_nat (length pre))); [|lia].
  cbn [snd]. split; [reflexivity|].
  by rewrite stored_rows_saved, Nat2Z.id, delete_middle.
Qed.

(** C8. Without a live session [addOrUpdateRow] and [updateRow] leave the
    attendance document as it is, while [deleteRow], which never looks at
    the session, still removes the first row of the area with the given
    key from the stored document. *)
Theorem deleteRow_needs_no_session ls now dateStr areaName key pre r post :
  result (Auth.getCurrentUser now) ls = None →
  stored_rows ls dateStr areaName = (pre ++ r :: post)%list →
  Forall (λ x, designationKey x ≠ key) pre → designationKey r = key →
  (∀ label,
     hc_attendance (exec (Attendance.addOrUpdateRow now dateStr areaName label) ls)
     = hc_attendance ls)
  ∧ (∀ updates,
       hc_attendance
         (exec (Attendance.updateRow now dateStr areaName key updates) ls)
       = hc_attendance ls)
  ∧ stored_rows (exec (Attendance.deleteRow dateStr areaName key) ls)
      dateStr areaName = (pre ++ post)%list.
Proof.
  intros Hn Hrows Hpre Hr. split; [|split].
  - intros label. by apply addOrUpdateRow_none.
  - intros updates. by apply updateRow_none.
  - by apply (deleteRow_removes ls dateStr areaName key pre r post).
Qed.

(** *** The audit trail of [updateRow] *)

(** X3. With a live session, [addEntry] puts the entry in front of the
    audit list of the date and keeps the first [MAX_AUDIT_ENTRIES] of the
    list. *)
Theorem addEntry_bounded now dateStr areaName key fld oldVal newVal ls u :
  result (Auth.getCurrentUser now) ls = Some u →
  stored_audit
    (exec (Audit.addEntry now dateStr areaName key fld oldVal newVal) ls) dateStr
  = take CONFIG.MAX_AUDIT_ENTRIES
      (mkAuditEntry now (username u) areaName key fld oldVal newVal
       :: stored_audit ls dateStr).
Proof.
  intros Hu. apply getCurrentUser_live in Hu. unfold run in Hu.
  unfold Audit.addEntry, stored_audit. st_unfold. rewrite Hu. st_simpl.
  set (data := default _ (default ∅ (hc_attendance ls) !! dateStr)).
  assert (Ha : audit data
               = match default ∅ (hc_attendance ls) !! dateStr with
                 | Some d => audit d | None => [] end).
  { subst data. destruct (default ∅ (hc_attendance ls) !! dateStr); reflexivity. }
  rewrite <- Ha. simpl. rewrite lookup_insert_eq. simpl.
  destruct (Nat.ltb_spec CONFIG.MAX_AUDIT_ENTRIES (S (length (audit data))));
    [reflexivity|].
  unfold CONFIG.MAX_AUDIT_ENTRIES in *. symmetry. f_equal.
  apply take_ge. lia.
Qed.

(** With a live session, [updateRow] throws on an inherited area name,
    returns at once when the area or the row is missing, and otherwise
    saves, after the audit calls, the date document it read before them. *)
Lemma updateRow_run now dateStr areaName key updates ls u :
  result (Auth.getCurrentUser now) ls = Some u →
  let rs := stored_rows ls dateStr areaName in
  run (Attendance.updateRow now dateStr areaName key updates) ls
  = match area_member ls dateStr areaName with
    | Inherited => (TypeError, ls)
    | Undefined => (Ok tt, ls)
    | Val _ =>
        match List.find (Attendance.has_key key) rs with
        | None => (Ok tt, ls)
        | Some oldRow =>
            (Ok tt,
             exec (Storage.saveAttendanceForDate dateStr
                     (date_with_rows ls dateStr areaName
                        (Attendance.assign_found (Attendance.has_key key)
                           (Attendance.assign updates now (username u)) rs)
                        (Some now) (Some (username u))))
               (exec (audit_changes now dateStr areaName key updates oldRow)
                  ls))
        end
    end.
Proof.
  intros Hu rs. subst rs. apply getCurrentUser_live in Hu.
  rewrite area_member_rows.
  unfold Attendance.updateRow, run in *.
  unfold mbind at 1, StE_bind at 1, liftE at 1. rewrite Hu.
  unfold mbind at 1, StE_bind at 1, liftE at 1.
  change (Storage.getAttendanceForDate dateStr ls)
    with (result (Storage.getAttendanceForDate dateStr) ls, ls).
  cbn beta iota zeta.
  change (member (areas (result (Storage.getAttendanceForDate dateStr) ls))
            areaName) with (area_member ls dateStr areaName).
  destruct (area_member ls dateStr areaName) as [area| |]; [|reflexivity..].
  unfold mbind at 1, StE_bind at 1, Attendance.rows_of at 1, mret at 1,
    StE_ret at 1.
  destruct (List.find _ (rows area)) as [oldRow|]; [|reflexivity].
  unfold audit_changes, exec, date_with_rows.
  set (m1 := match u_present updates with Some _ => _ | None => _ end).
  set (m2 := match u_confirmed updates with Some _ => _ | None => _ end).
  unfold mbind, StE_bind, St_bind, liftE.
  destruct (m1 ls) as [[] ls1]. destruct (m2 ls1) as [[] ls2].
  reflexivity.
Qed.

Lemma stored_audit_saved ls ls0 dateStr areaName rs t by_user :
  stored_audit
    (exec (Storage.saveAttendanceForDate dateStr
             (date_with_rows ls dateStr areaName rs t by_user)) ls0)
    dateStr = stored_audit ls dateStr.
Proof.
  unfold stored_audit, date_with_rows. st_unfold. simpl.
  rewrite lookup_insert_eq. simpl.
  destruct (default ∅ (hc_attendance ls) !! dateStr); reflexivity.
Qed.

(** X4. The audit list of a date is the same after [updateRow] as before
    it, for every store and every call: the entries [Audit.addEntry] saved
    are overwritten by the copy of the date document that [updateRow] read
    before them. *)
Theorem updateRow_keeps_stored_audit now dateStr areaName key updates ls :
  stored_audit (exec (Attendance.updateRow now dateStr areaName key updates) ls)
    dateStr
  = stored_audit ls dateStr.
Proof.
  destruct (result (Auth.getCurrentUser now) ls) as [u|] eqn:Hu.
  - unfold exec.
    rw_run (updateRow_run now dateStr areaName key updates ls u Hu).
    destruct (area_member ls dateStr areaName) as [area| |]; [|reflexivity..].
    destruct (List.find _ _) as [oldRow|]; [|reflexivity].
    cbn [snd]. apply stored_audit_saved.
  - unfold stored_audit. by rewrite updateRow_none.
Qed.

(** C1. Eleven changes of [present] in a row, each to a new value and
    each with a live session, leave the audit list of the date empty,
    although every change reached the row and although [Audit.addEntry]
    alone records the first of them. *)
Theorem updateRow_drops_audit_entries :
  let changes :=
    set_present_seq 1700000100000 "2023-11-14" "Spool Yard" "welder"
      [1; 2; 3; 4; 5; 6; 7; 8; 9; 10; 11] in
  let ls' := exec changes Examples.store in
  result (Audit.getEntries "2023-11-14") ls' = []
  ∧ (fmap present : option Row → option JVal)
      <$> result (Attendance.getRow "2023-11-14" "Spool Yard" "welder") ls'
    = Ok (Some (JNum 11))
  ∧ length (result (Audit.getEntries "2023-11-14")
              (exec (Audit.addEntry 1700000100000 "2023-11-14" "Spool Yard"
                       "welder" f_present JNull (JNum 1)) Examples.store))
    = 1%nat.
Proof. vm_compute. auto. Qed.

(** *** Suggestions *)

Lemma getSuggestions_run partial areaName ls :
  let norm := Utils.normalizeDesignation partial in
  let h := history_of ls in
  let finish suggestions :=
    if Nat.ltb (length suggestions) 5 then
      take 5
        (suggestions ++
         List.filter
           (λ d, Utils.includes (Utils.normalizeDesignation d) norm
                 && negb (existsb (String.eqb d) suggestions))
           (global h))%list
    else suggestions in
  run (DesignationMgr.getSuggestions partial areaName) ls
  = if negb (String.eqb areaName EmptyString) then
      match history_member ls areaName with
      | Inherited => (TypeError, ls)
      | Undefined => (Ok (finish []), ls)
      | Val l =>
          (Ok (finish
                 (List.filter
                    (λ d, Utils.includes (Utils.normalizeDesignation d) norm)
                    l)), ls)
      end
    else (Ok (finish []), ls).
Proof.
  intros norm h finish. subst norm h finish.
  unfold DesignationMgr.getSuggestions, run.
  unfold mbind at 1, StE_bind at 1, liftE at 1.
  change (Storage.getDesignationHistory ls) with (history_of ls, ls).
  cbn beta iota zeta.
  change (member (byArea (history_of ls)) areaName)
    with (history_member ls areaName).
  destruct (negb (String.eqb areaName EmptyString)); [|reflexivity].
  destruct (history_member ls areaName) as [l| |]; try reflexivity.
  unfold mbind, StE_bind, DesignationMgr.labels_of, mret, StE_ret.
  by destruct (Nat.ltb _ 5).
Qed.

(** X5. Five or more matches in the history of the area are all
    returned. *)
Theorem getSuggestions_area_only partial areaName ls l :
  areaName ≠ EmptyString →
  byArea (result Storage.getDesignationHistory ls) !! areaName = Some l →
  let matches :=
    List.filter
      (λ d, Utils.includes (Utils.normalizeDesignation d)
              (Utils.normalizeDesignation partial)) l in
  (5 ≤ length matches)%nat →
  result (DesignationMgr.getSuggestions partial areaName) ls = Ok matches.
Proof.
  intros Hne Hl matches Hlen. unfold result.
  rw_run (getSuggestions_run partial areaName ls).
  apply String.eqb_neq in Hne. rewrite Hne. cbn [negb].
  apply member_Val in Hl. unfold history_member. rewrite Hl.
  fold matches. cbn [fst].
  destruct (Nat.ltb_spec (length matches) 5); [lia|reflexivity].
Qed.

(** X6. [getSuggestions] returns at most five labels, or no more than
    the history of the area has matches; it returns unless the area name
    is an inherited one, on which it throws. *)
Theorem getSuggestions_length partial areaName ls :
  match result (DesignationMgr.getSuggestions partial areaName) ls with
  | Ok l =>
      (length l ≤ Nat.max 5 (length (area_matches ls partial areaName)))%nat
  | TypeError =>
      areaName ≠ EmptyString ∧ history_member ls areaName = Inherited
  end.
Proof.
  unfold result. rw_run (getSuggestions_run partial areaName ls).
  unfold area_matches.
  destruct (String.eqb_spec areaName EmptyString) as [->|Hne]; cbn [negb fst].
  - simpl. rewrite length_take. lia.
  - destruct (history_member ls areaName) as [l| |] eqn:Hm; cbn [fst].
    + apply member_Val in Hm. rewrite Hm. cbn [default from_option id].
      destruct (Nat.ltb_spec (length (List.filter
        (λ d, Utils.includes (Utils.normalizeDesignation d)
                (Utils.normalizeDesignation partial)) l)) 5).
      * rewrite length_take. lia.
      * unfold id. lia.
    + done.
    + simpl. rewrite length_take. lia.
Qed.

(** C7. With six labels in the history of an area that all contain the
    partial text, [getSuggestions] returns the six of them. *)
Theorem getSuggestions_exceeds_five :
  result (DesignationMgr.getSuggestions "weld" "Spool Yard")
    Examples.history_store
  = Ok Examples.six_labels
  ∧ length
      <$> result (DesignationMgr.getSuggestions "weld" "Spool Yard")
            Examples.history_store
    = Ok 6%nat.
Proof. vm_compute. auto. Qed.

(** *** Totals and reads *)

Lemma round_double_safe z :
  Z.abs z ≤ MAX_SAFE_INTEGER → round_double z = Fin z.
Proof.
  unfold MAX_SAFE_INTEGER. intros Hz. unfold round_double. cbv zeta.
  assert (Hl : Z.log2 (Z.abs z) < 53).
  { destruct (Z.eq_dec (Z.abs z) 0) as [->|Hne]; [reflexivity|].
    apply Z.log2_lt_pow2; lia. }
  destruct (Z.leb_spec (Z.log2 (Z.abs z) - 52) 0); [reflexivity|lia].
Qed.

Lemma abs_sum_present_nonneg rs : 0 ≤ abs_sum_present rs.
Proof. induction rs as [|r rs IH]; simpl; lia. Qed.

Lemma fold_left_sum_present rs acc :
  Z.abs acc + abs_sum_present rs ≤ MAX_SAFE_INTEGER →
  fold_left (λ sum r, js_add sum (Attendance.present_or_0 r)) rs (Fin acc)
  = Fin (acc + sum_present rs).
Proof.
  revert acc. induction rs as [|r rs IH]; intros acc Hs;
    cbn [fold_left abs_sum_present sum_present] in *.
  - f_equal. lia.
  - pose proof (abs_sum_present_nonneg rs).
    assert (Hstep : js_add (Fin acc) (Attendance.present_or_0 r)
                    = Fin (acc + present_number r)).
    { unfold Attendance.present_or_0, present_number in *.
      destruct (present r); simpl; apply round_double_safe; lia. }
    rewrite Hstep, IH by lia. f_equal. lia.
Qed.

Lemma getAreaTotals_run ls dateStr areaName :
  let rs := stored_rows ls dateStr areaName in
  run (Attendance.getAreaTotals dateStr areaName) ls
  = match area_member ls dateStr areaName with
    | Inherited => (TypeError, ls)
    | _ =>
        (Ok (mkAreaTotals
               (fold_left (λ sum r, js_add sum (Attendance.present_or_0 r)) rs
                  (Fin 0))
               (count_confirmed rs) (length rs)), ls)
    end.
Proof.
  intros rs. subst rs.
  pose proof (rows_of_area ls dateStr areaName ls) as Hr.
  unfold Attendance.getAreaTotals, run, mbind, StE_bind, liftE.
  rw_run (getAreaData_result ls dateStr areaName).
  rewrite Hr. by destruct (area_member ls dateStr areaName).
Qed.

Lemma getGrandTotal_from_exec ls dateStr areas0 sum :
  exec (Attendance.getGrandTotal_from sum dateStr areas0) ls = ls.
Proof.
  revert sum. induction areas0 as [|a rest IH]; intros sum; [reflexivity|].
  simpl. unfold exec, mbind, StE_bind in *.
  rw_run (getAreaTotals_run ls dateStr a).
  destruct (area_member ls dateStr a); [apply IH|reflexivity|apply IH].
Qed.

(** C6. On an area whose name is not an inherited one, and while the
    absolute values of the present numbers of its rows add up to no more
    than [MAX_SAFE_INTEGER], [getAreaTotals] returns the sum of [present]
    over the rows where it is a number, the number of rows with [confirmed]
    set and the number of rows. *)
Theorem getAreaTotals_spec ls dateStr areaName :
  area_member ls dateStr areaName ≠ Inherited →
  abs_sum_present (stored_rows ls dateStr areaName) ≤ MAX_SAFE_INTEGER →
  result (Attendance.getAreaTotals dateStr areaName) ls
  = Ok (let rs := stored_rows ls dateStr areaName in
        mkAreaTotals (Fin (sum_present rs)) (count_confirmed rs) (length rs)).
Proof.
  intros Ha Hs. unfold result.
  rw_run (getAreaTotals_run ls dateStr areaName).
  rewrite fold_left_sum_present by (simpl; lia).
  by destruct (area_member ls dateStr areaName).
Qed.

(** C10. [getRow], [getAreaData], [getAreaTotals], [getGrandTotal] and
    [getEntries] leave the store as it is, for every store: also when the
    date has no document, since the empty document made for it is not
    saved. *)
Theorem reads_leave_store_unchanged ls dateStr areaName key areas0 :
  exec (Attendance.getRow dateStr areaName key) ls = ls
  ∧ exec (Attendance.getAreaData dateStr areaName) ls = ls
  ∧ exec (Attendance.getAreaTotals dateStr areaName) ls = ls
  ∧ exec (Attendance.getGrandTotal dateStr areas0) ls = ls
  ∧ exec (Audit.getEntries dateStr) ls = ls.
Proof.
  split; [|split; [|split; [|split]]]; try reflexivity.
  - unfold exec. rw_run (getRow_run ls dateStr areaName key).
    by destruct (area_member ls dateStr areaName).
  - unfold exec. rw_run (getAreaTotals_run ls dateStr areaName).
    by destruct (area_member ls dateStr areaName).
  - apply getGrandTotal_from_exec.
Qed.

(** C3. On an area that the Add button of the area form accepted under the
    name [constructor], both calls of [addOrUpdateRow] throw and store
    nothing, so that no row has the key afterwards; in the area
    [Spool Yard] the same two calls leave the one row with the key. *)
Theorem addOrUpdateRow_inherited_area :
  let ls := exec (AdminView.addArea "constructor") Examples.store in
  let first area :=
    Attendance.addOrUpdateRow 1700000100000 "2023-11-14" area "Welder" in
  let second area :=
    Attendance.addOrUpdateRow 1700000200000 "2023-11-14" area " welder" in
  result (AdminView.addArea "constructor") Examples.store = AreaAdded
  ∧ result Storage.getAreas ls = ["constructor"]
  ∧ Utils.normalizeDesignation "Welder" = "welder"
  ∧ Utils.normalizeDesignation " welder" = "welder"
  ∧ run (first "constructor") ls = (TypeError, ls)
  ∧ run (second "constructor") ls = (TypeError, ls)
  ∧ List.filter (Attendance.has_key "welder")
      (stored_rows (exec (second "constructor") (exec (first "constructor") ls))
         "2023-11-14" "constructor") = []
  ∧ List.filter (Attendance.has_key "welder")
      (stored_rows (exec (second "Spool Yard") (exec (first "Spool Yard") ls))
         "2023-11-14" "Spool Yard") = [Examples.welder].
Proof. vm_compute. repeat split. Qed.

End Ledger.

Lemma getAreaTotals_spec_witness :
  stored_rows Examples.totals_store "2024-05-01" "Spool Yard"
  = Examples.totals_rows
  ∧ result (Attendance.getAreaTotals "2024-05-01" "Spool Yard")
      Examples.totals_store
    = Ok (mkAreaTotals (Fin 8) 2 3).
Proof.
  split; [vm_compute; reflexivity|].
  apply (getAreaTotals_spec Examples.totals_store "2024-05-01" "Spool Yard").
  - vm_compute. discriminate.
  - vm_compute. discriminate.
Defined.

(** The claim of C6 fails from [2^53] on: the sum of the rows
    [2^53, 1, 1] is [2^53 + 2], and [getAreaTotals] returns [2^53]. *)
Lemma getAreaTotals_rounds :
  stored_rows Examples.big_store "2024-05-01" "Spool Yard" = Examples.big_rows
  ∧ sum_present Examples.big_rows = 9007199254740994
  ∧ result (Attendance.getAreaTotals "2024-05-01" "Spool Yard")
      Examples.big_store
    = Ok (mkAreaTotals (Fin 9007199254740992) 0 3)
  ∧ result (Attendance.getAreaTotals "2024-05-01" "Spool Yard")
      Examples.big_store
    ≠ Ok (mkAreaTotals (Fin (sum_present Examples.big_rows))
            (count_confirmed Examples.big_rows) (length Examples.big_rows)).
Proof. vm_compute. repeat split. discriminate. Qed.

Lemma addOrUpdateRow_idempotent_witness :
  let key := Utils.normalizeDesignation "Pipe  Fitter" in
  let ls1 := exec (Attendance.addOrUpdateRow 1700000100000 "2023-11-14"
                     "Spool Yard" "Pipe  Fitter") Examples.store in
  let ls2 := exec (Attendance.addOrUpdateRow 1700000200000 "2023-11-14"
                     "Spool Yard" " pipe fitter") ls1 in
  ∃ r,
    List.filter (Attendance.has_key key)
      (stored_rows ls2 "2023-11-14" "Spool Yard") = [r]
    ∧ result (Attendance.getRow "2023-11-14" "Spool Yard" key) ls1 = Ok (Some r)
    ∧ result (Attendance.addOrUpdateRow 1700000200000 "2023-11-14"
                "Spool Yard" " pipe fitter") ls1 = Ok (Some r)
    ∧ result (Attendance.getRow "2023-11-14" "Spool Yard" key) ls2 = Ok (Some r)
    ∧ stored_rows ls2 "2023-11-14" "Spool Yard"
      = stored_rows ls1 "2023-11-14" "Spool Yard".
Proof.
  apply (addOrUpdateRow_idempotent Examples.store 1700000100000 1700000200000
           "2023-11-14" "Spool Yard" "Pipe  Fitter" " pipe fitter"
           Examples.admin_user Examples.admin_user).
  - reflexivity.
  - change (NoDup ["welder"; "fitter"]).
    apply NoDup_cons. split; [|apply NoDup_singleton].
    intros H. apply list_elem_of_singleton in H. discriminate.
  - vm_compute. discriminate.
  - vm_compute. discriminate.
  - vm_compute. reflexivity.
  - vm_compute. reflexivity.
Defined.

Lemma deleteRow_needs_no_session_witness :
  (∀ label,
     hc_attendance
       (exec (Attendance.addOrUpdateRow 1700000100000 "2023-11-14" "Spool Yard"
                label) Examples.store_logged_out)
     = hc_attendance Examples.store_logged_out)
  ∧ (∀ updates,
       hc_attendance
         (exec (Attendance.updateRow 1700000100000 "2023-11-14" "Spool Yard"
                  "fitter" updates) Examples.store_logged_out)
       = hc_attendance Examples.store_logged_out)
  ∧ stored_rows
      (exec (Attendance.deleteRow "2023-11-14" "Spool Yard" "fitter")
         Examples.store_logged_out) "2023-11-14" "Spool Yard"
    = ([Examples.welder] ++ [])%list.
Proof.
  apply (deleteRow_needs_no_session Examples.store_logged_out 1700000100000
           "2023-11-14" "Spool Yard" "fitter" [Examples.welder] Examples.fitter []).
  - reflexivity.
  - reflexivity.
  - constructor; [discriminate|constructor].
  - reflexivity.
Defined.

Lemma addOrUpdateRow_keeps_keys_unique_witness :
  NoDup (map designationKey
           (stored_rows
              (exec (Attendance.addOrUpdateRow 1700000100000 "2023-11-14"
                       "Spool Yard" "Pipe  Fitter") Examples.store)
              "2023-11-14" "Spool Yard")).
Proof.
  apply (addOrUpdateRow_keeps_keys_unique 1700000100000 "2023-11-14"
           "Spool Yard" "Pipe  Fitter" Examples.store).
  change (NoDup ["welder"; "fitter"]).
  apply NoDup_cons. split; [|apply NoDup_singleton].
  intros H. apply list_elem_of_singleton in H. discriminate.
Defined.

Lemma addEntry_bounded_witness :
  stored_audit
    (exec (Audit.addEntry 1700000100000 "2023-11-14" "Spool Yard" "welder"
             f_present JNull (JNum 7)) Examples.store) "2023-11-14"
  = take CONFIG.MAX_AUDIT_ENTRIES
      (mkAuditEntry 1700000100000 (username Examples.admin_user) "Spool Yard"
         "welder" f_present JNull (JNum 7)
       :: stored_audit Examples.store "2023-11-14").
Proof.
  apply (addEntry_bounded 1700000100000 "2023-11-14" "Spool Yard" "welder"
           f_present JNull (JNum 7) Examples.store Examples.admin_user).
  vm_compute. reflexivity.
Defined.

Lemma getSuggestions_area_only_witness :
  result (DesignationMgr.getSuggestions "weld" "Spool Yard")
    Examples.history_store
  = Ok (List.filter
          (λ d, Utils.includes (Utils.normalizeDesignation d)
                  (Utils.normalizeDesignation "weld")) Examples.six_labels).
Proof.
  apply (getSuggestions_area_only "weld" "Spool Yard" Examples.history_store
           Examples.six_labels).
  - discriminate.
  - reflexivity.
  - vm_compute. lia.
Defined.

(** ** Rows under [updateRow], [deleteRow] and the totals *)

Lemma stored_rows_date ls ls' dateStr areaName :
  stored_date ls' dateStr = stored_date ls dateStr →
  stored_rows ls' dateStr areaName = stored_rows ls dateStr areaName.
Proof. unfold stored_date, stored_rows. by intros ->. Qed.

Lemma stored_audit_date ls ls' dateStr :
  stored_date ls' dateStr = stored_date ls dateStr →
  stored_audit ls' dateStr = stored_audit ls dateStr.
Proof. unfold stored_date, stored_audit. by intros ->. Qed.

Lemma stored_date_save d data ls d' :
  stored_date (exec (Storage.saveAttendanceForDate d data) ls) d'
  = if decide (d' = d) then Some data else stored_date ls d'.
Proof.
  unfold stored_date. st_unfold. simpl.
  destruct (decide (d' = d)) as [->|Hne];
    [by rewrite lookup_insert_eq|by rewrite lookup_insert_ne].
Qed.

(** The rows of a store in which [date_with_rows] was saved: the new rows
    in the area, the rows read before in the other areas of the date, and
    the rows of the store saved into on the other dates. *)
Lemma stored_rows_saved_at ls ls0 dateStr areaName rs t by_user d a :
  stored_rows
    (exec (Storage.saveAttendanceForDate dateStr
             (date_with_rows ls dateStr areaName rs t by_user)) ls0) d a
  = if decide (d = dateStr)
    then if decide (a = areaName) then rs else stored_rows ls dateStr a
    else stored_rows ls0 d a.
Proof.
  unfold stored_rows at 1.
  change (default ∅ (hc_attendance ?l) !! ?x) with (stored_date l x).
  rewrite stored_date_save.
  destruct (decide (d = dateStr)) as [->|Hd]; [|reflexivity].
  unfold date_with_rows. cbn [areas].
  destruct (decide (a = areaName)) as [->|Ha].
  - by rewrite lookup_insert_eq.
  - rewrite lookup_insert_ne by done. unfold stored_rows. st_unfold. simpl.
    destruct (default ∅ (hc_attendance ls) !! dateStr); [reflexivity|].
    simpl. by rewrite lookup_empty.
Qed.

Lemma same_auth_refl ls : same_auth ls ls.
Proof. split; reflexivity. Qed.

Lemma same_auth_trans ls1 ls2 ls3 :
  same_auth ls1 ls2 → same_auth ls2 ls3 → same_auth ls1 ls3.
Proof. intros [? ?] [? ?]. split; congruence. Qed.

(** [getCurrentUser] looks at the session and the users only. *)
Lemma getCurrentUser_same_auth now ls ls' :
  same_auth ls ls' →
  result (Auth.getCurrentUser now) ls' = result (Auth.getCurrentUser now) ls.
Proof.
  intros [Hs Hu]. destruct ls, ls'. simpl in Hs, Hu. subst.
  unfold Auth.getCurrentUser, Auth.logout. st_unfold. simpl.
  destruct (negb _); [reflexivity|]. destruct (_ && _); [reflexivity|].
  destruct (Auth.find_user _ _) as [u|]; [|reflexivity].
  destruct (disabled u); reflexivity.
Qed.

Lemma saveAttendanceForDate_same_auth d data ls :
  same_auth ls (exec (Storage.saveAttendanceForDate d data) ls).
Proof. split; reflexivity. Qed.

(** [addEntry] writes the document of its date only. *)
Lemma addEntry_other_dates now dateStr areaName key fld oldVal newVal ls d :
  d ≠ dateStr →
  stored_date (exec (Audit.addEntry now dateStr areaName key fld oldVal newVal) ls) d
  = stored_date ls d.
Proof.
  intros Hd. unfold Audit.addEntry, stored_date, exec.
  unfold mbind at 1, St_bind at 1.
  destruct (getCurrentUser_cases now ls) as [[u H] | [H | H]];
    unfold run in H; rewrite H; [|reflexivity..].
  st_unfold. simpl. by rewrite lookup_insert_ne.
Qed.

Lemma addEntry_same_auth now dateStr areaName key fld oldVal newVal ls u :
  result (Auth.getCurrentUser now) ls = Some u →
  same_auth ls (exec (Audit.addEntry now dateStr areaName key fld oldVal newVal) ls).
Proof.
  intros Hu. apply getCurrentUser_live in Hu. unfold run in Hu.
  unfold Audit.addEntry, exec. unfold mbind at 1, St_bind at 1. rewrite Hu.
  split; reflexivity.
Qed.

(** The audit calls of [updateRow] write the document of the date only,
    and with a live session neither the session nor the users. *)
Lemma audit_changes_frame now dateStr areaName key updates old ls :
  let ls' := exec (audit_changes now dateStr areaName key updates old) ls in
  (∀ d, d ≠ dateStr → stored_date ls' d = stored_date ls d)
  ∧ ∀ u, result (Auth.getCurrentUser now) ls = Some u → same_auth ls ls'.
Proof.
  intros ls'. subst ls'. unfold audit_changes, exec.
  set (m1 := match u_present updates with Some _ => _ | None => _ end).
  set (m2 := match u_confirmed updates with Some _ => _ | None => _ end).
  assert (H1 : (∀ d, d ≠ dateStr → stored_date (m1 ls).2 d = stored_date ls d)
               ∧ ∀ u, result (Auth.getCurrentUser now) ls = Some u →
                      same_auth ls (m1 ls).2).
  { subst m1. destruct (u_present updates) as [v|];
      [|split; [reflexivity|intros; apply same_auth_refl]].
    destruct (decide _); [split; [reflexivity|intros; apply same_auth_refl]|].
    split; [intros d Hd; by apply addEntry_other_dates|].
    intros u Hu. by eapply addEntry_same_auth. }
  assert (H2 : ∀ ls0,
             (∀ d, d ≠ dateStr → stored_date (m2 ls0).2 d = stored_date ls0 d)
             ∧ ∀ u, result (Auth.getCurrentUser now) ls0 = Some u →
                    same_auth ls0 (m2 ls0).2).
  { intros ls0. subst m2. destruct (u_confirmed updates) as [b|];
      [|split; [reflexivity|intros; apply same_auth_refl]].
    destruct (Bool.eqb _ _); [split; [reflexivity|intros; apply same_auth_refl]|].
    split; [intros d Hd; by apply addEntry_other_dates|].
    intros u Hu. by eapply addEntry_same_auth. }
  unfold mbind, St_bind. destruct H1 as [H1d H1a].
  destruct (m1 ls) as [[] ls1]. destruct (H2 ls1) as [H2d H2a].
  destruct (m2 ls1) as [[] ls2]. cbn [snd] in *. split.
  - intros d Hd. by rewrite H2d, H1d.
  - intros u Hu. pose proof (H1a u Hu) as Ha1.
    eapply same_auth_trans; [exact Ha1|]. apply (H2a u).
    by rewrite (getCurrentUser_same_auth now ls ls1 Ha1).
Qed.

Lemma find_some_member ls dateStr areaName key old :
  List.find (Attendance.has_key key) (stored_rows ls dateStr areaName) = Some old →
  ∃ area, area_member ls dateStr areaName = Val area.
Proof.
  rewrite area_member_rows.
  destruct (area_member ls dateStr areaName) as [area| |]; [eauto|done..].
Qed.

(** What [updateRow] stores when it finds the row, whatever the audit calls
    in between did. *)
Lemma updateRow_live_rows now dateStr areaName key updates ls u old :
  result (Auth.getCurrentUser now) ls = Some u →
  List.find (Attendance.has_key key) (stored_rows ls dateStr areaName) = Some old →
  let ls' := exec (Attendance.updateRow now dateStr areaName key updates) ls in
  result (Attendance.updateRow now dateStr areaName key updates) ls = Ok tt
  ∧ (∀ d a,
       stored_rows ls' d a
       = if decide ((d, a) = (dateStr, areaName))
         then Attendance.assign_found (Attendance.has_key key)
                (Attendance.assign updates now (username u))
                (stored_rows ls dateStr areaName)
         else stored_rows ls d a)
  ∧ same_auth ls ls'.
Proof.
  intros Hu Hf ls'. subst ls'. unfold result, exec.
  rw_run (updateRow_run now dateStr areaName key updates ls u Hu).
  destruct (find_some_member _ _ _ _ _ Hf) as [area ->]. rewrite Hf.
  cbn [fst snd].
  destruct (audit_changes_frame now dateStr areaName key updates old ls)
    as [Hd Ha].
  split; [reflexivity|]. split.
  - intros d a. rewrite stored_rows_saved_at.
    destruct (decide (d = dateStr)) as [->|Hne].
    + destruct (decide (a = areaName)) as [->|Hna].
      * by rewrite decide_True.
      * by rewrite decide_False by congruence.
    + rewrite decide_False by congruence. apply stored_rows_date. by apply Hd.
  - eapply same_auth_trans; [by apply (Ha u)|].
    apply saveAttendanceForDate_same_auth.
Qed.

(** Without the row, or without a session, [updateRow] leaves the
    attendance document as it is. *)
Lemma updateRow_no_row now dateStr areaName key updates ls :
  List.find (Attendance.has_key key) (stored_rows ls dateStr areaName) = None →
  hc_attendance (exec (Attendance.updateRow now dateStr areaName key updates) ls)
  = hc_attendance ls.
Proof.
  intros Hf.
  destruct (result (Auth.getCurrentUser now) ls) as [u|] eqn:Hu;
    [|by apply updateRow_none].
  unfold exec. rw_run (updateRow_run now dateStr areaName key updates ls u Hu).
  rewrite Hf. by destruct (area_member ls dateStr areaName).
Qed.

Lemma updateRow_same_auth now dateStr areaName key updates ls u :
  result (Auth.getCurrentUser now) ls = Some u →
  same_auth ls (exec (Attendance.updateRow now dateStr areaName key updates) ls).
Proof.
  intros Hu.
  destruct (List.find (Attendance.has_key key) (stored_rows ls dateStr areaName))
    as [old|] eqn:Hf.
  - by destruct (updateRow_live_rows now dateStr areaName key updates ls u old
                   Hu Hf) as (_ & _ & ?).
  - unfold exec.
    rw_run (updateRow_run now dateStr areaName key updates ls u Hu).
    rewrite Hf. destruct (area_member ls dateStr areaName); apply same_auth_refl.
Qed.

Lemma assign_found_keys key f rs :
  (∀ r, designationKey (f r) = designationKey r) →
  map designationKey (Attendance.assign_found (Attendance.has_key key) f rs)
  = map designationKey rs.
Proof.
  intros Hf. induction rs as [|r rs IH]; [reflexivity|]. simpl.
  destruct (Attendance.has_key key r); simpl; [by rewrite Hf|by rewrite IH].
Qed.

Lemma find_assign_found_same key f rs old :
  (∀ r, designationKey (f r) = designationKey r) →
  List.find (Attendance.has_key key) rs = Some old →
  List.find (Attendance.has_key key)
    (Attendance.assign_found (Attendance.has_key key) f rs) = Some (f old).
Proof.
  intros Hf. induction rs as [|r rs IH]; [discriminate|]. simpl.
  destruct (Attendance.has_key key r) eqn:Hk; simpl.
  - intros [= ->]. unfold Attendance.has_key in *. by rewrite Hf, Hk.
  - intros H. rewrite Hk. by apply IH.
Qed.

Lemma find_assign_found_other key key' f rs :
  (∀ r, designationKey (f r) = designationKey r) → key' ≠ key →
  List.find (Attendance.has_key key')
    (Attendance.assign_found (Attendance.has_key key) f rs)
  = List.find (Attendance.has_key key') rs.
Proof.
  intros Hf Hne. induction rs as [|r rs IH]; [reflexivity|]. simpl.
  destruct (Attendance.has_key key r) eqn:Hk; simpl.
  - unfold Attendance.has_key in *. rewrite Hf.
    apply String.eqb_eq in Hk. rewrite Hk.
    destruct (String.eqb_spec key key'); [congruence|reflexivity].
  - by rewrite IH.
Qed.

Lemma getRow_Some ls dateStr areaName key old :
  result (Attendance.getRow dateStr areaName key) ls = Ok (Some old) →
  List.find (Attendance.has_key key) (stored_rows ls dateStr areaName) = Some old.
Proof.
  unfold result. rw_run (getRow_run ls dateStr areaName key).
  destruct (area_member ls dateStr areaName); cbn [fst]; congruence.
Qed.

(** X8. With a live session and the row there, [updateRow] returns and
    stores the row with the fields of [updates], the clock and the user;
    the other rows of the area, the other areas and the other dates stay as
    they are. *)
Theorem updateRow_applies now dateStr areaName key updates ls u old :
  result (Auth.getCurrentUser now) ls = Some u →
  result (Attendance.getRow dateStr areaName key) ls = Ok (Some old) →
  let ls' := exec (Attendance.updateRow now dateStr areaName key updates) ls in
  result (Attendance.updateRow now dateStr areaName key updates) ls = Ok tt
  ∧ result (Attendance.getRow dateStr areaName key) ls'
    = Ok (Some (mkRow (designationKey old) (designationLabel old)
                  (default (present old) (u_present updates))
                  (default (confirmed old) (u_confirmed updates))
                  (Some now) (Some (username u))))
  ∧ (∀ key', key' ≠ key →
       result (Attendance.getRow dateStr areaName key') ls'
       = result (Attendance.getRow dateStr areaName key') ls)
  ∧ (∀ d a, (d, a) ≠ (dateStr, areaName) →
       stored_rows ls' d a = stored_rows ls d a)
  ∧ length (stored_rows ls' dateStr areaName)
    = length (stored_rows ls dateStr areaName).
Proof.
  intros Hu Hrow ls'. apply getRow_Some in Hrow.
  destruct (updateRow_live_rows now dateStr areaName key updates ls u old Hu Hrow)
    as (Hres & Hrows & _).
  fold ls' in Hrows.
  assert (Hk : ∀ r, designationKey (Attendance.assign updates now (username u) r)
                    = designationKey r) by reflexivity.
  assert (Hnew : stored_rows ls' dateStr areaName
                 = Attendance.assign_found (Attendance.has_key key)
                     (Attendance.assign updates now (username u))
                     (stored_rows ls dateStr areaName)).
  { rewrite Hrows. by rewrite decide_True. }
  assert (Hm : area_member ls dateStr areaName ≠ Inherited).
  { apply stored_rows_member. intros E. by rewrite E in Hrow. }
  assert (Hm' : area_member ls' dateStr areaName ≠ Inherited).
  { apply stored_rows_member. rewrite Hnew. intros E.
    apply (f_equal (map designationKey)) in E.
    rewrite assign_found_keys in E by done.
    destruct (stored_rows ls dateStr areaName); [discriminate Hrow|discriminate E]. }
  split; [exact Hres|]. split; [|split; [|split]].
  - rewrite getRow_result, Hnew by done.
    by rewrite (find_assign_found_same _ _ _ old Hk Hrow).
  - intros key' Hne. rewrite !getRow_result, Hnew by done.
    by rewrite find_assign_found_other.
  - intros d a Hne. rewrite Hrows. by rewrite decide_False.
  - rewrite Hnew. rewrite <- !(length_map designationKey). f_equal.
    by apply assign_found_keys.
Qed.

(** X9. [updateRow] neither adds nor removes a row, and changes no key: on
    every store, for every date and area. *)
Theorem updateRow_keeps_keys now dateStr areaName key updates ls d a :
  map designationKey
    (stored_rows (exec (Attendance.updateRow now dateStr areaName key updates) ls)
       d a)
  = map designationKey (stored_rows ls d a).
Proof.
  destruct (List.find (Attendance.has_key key) (stored_rows ls dateStr areaName))
    as [old|] eqn:Hf.
  - destruct (result (Auth.getCurrentUser now) ls) as [u|] eqn:Hu.
    + destruct (updateRow_live_rows now dateStr areaName key updates ls u old
                  Hu Hf) as (_ & Hrows & _).
      rewrite Hrows. destruct (decide _) as [[= -> ->]|]; [|reflexivity].
      by apply assign_found_keys.
    + unfold stored_rows. by rewrite updateRow_none.
  - unfold stored_rows. by rewrite updateRow_no_row.
Qed.

(** *** [deleteRow] *)

Lemma findIndex_remove key rs :
  (if 0 <=? Attendance.findIndex (Attendance.has_key key) rs
   then delete (Z.to_nat (Attendance.findIndex (Attendance.has_key key) rs)) rs
   else rs) = remove_key key rs
  ∧ -1 ≤ Attendance.findIndex (Attendance.has_key key) rs.
Proof.
  induction rs as [|r rs [IH Hge]]; simpl; [split; [reflexivity|lia]|].
  destruct (Attendance.has_key key r); [split; [reflexivity|lia]|].
  set (i := Attendance.findIndex (Attendance.has_key key) rs) in *.
  destruct (Z.ltb_spec i 0).
  - assert (i = -1) as Hi by lia. rewrite Hi in IH. simpl in *.
    split; [by rewrite <- IH|lia].
  - destruct (Z.leb_spec 0 i); [|lia].
    destruct (Z.leb_spec 0 (i + 1)); [|lia].
    split; [|lia]. rewrite <- IH.
    replace (Z.to_nat (i + 1)) with (S (Z.to_nat i)) by lia. reflexivity.
Qed.

(** What [deleteRow] leaves of the rows, on every store. *)
Lemma deleteRow_rows ls dateStr areaName key d a :
  stored_rows (exec (Attendance.deleteRow dateStr areaName key) ls) d a
  = if decide ((d, a) = (dateStr, areaName))
    then remove_key key (stored_rows ls dateStr areaName)
    else stored_rows ls d a.
Proof.
  destruct (findIndex_remove key (stored_rows ls dateStr areaName)) as [Hrm _].
  unfold exec. rw_run (deleteRow_run ls dateStr areaName key).
  pose proof (area_member_rows ls dateStr areaName) as Hm.
  destruct (area_member ls dateStr areaName) as [area| |].
  - destruct (0 <=? _); cbn [snd].
    + rewrite stored_rows_saved_at, Hrm.
      destruct (decide (d = dateStr)) as [->|Hd].
      * destruct (decide (a = areaName)) as [->|Ha].
        -- by rewrite decide_True.
        -- by rewrite decide_False by congruence.
      * by rewrite decide_False by congruence.
    + rewrite <- Hrm. by destruct (decide _) as [[= -> ->]|].
  - cbn [snd]. rewrite Hm. by destruct (decide _) as [[= -> ->]|].
  - cbn [snd]. rewrite Hm. by destruct (decide _) as [[= -> ->]|].
Qed.

Lemma deleteRow_audit ls dateStr areaName key d :
  stored_audit (exec (Attendance.deleteRow dateStr areaName key) ls) d
  = stored_audit ls d.
Proof.
  unfold exec. rw_run (deleteRow_run ls dateStr areaName key).
  destruct (area_member ls dateStr areaName) as [area| |]; [|reflexivity..].
  destruct (0 <=? _); [|reflexivity]. cbn [snd].
  destruct (decide (d = dateStr)) as [->|Hd].
  - apply stored_audit_saved.
  - apply stored_audit_date. rewrite stored_date_save. by rewrite decide_False.
Qed.

Lemma deleteRow_same_auth ls dateStr areaName key :
  same_auth ls (exec (Attendance.deleteRow dateStr areaName key) ls).
Proof.
  unfold exec. rw_run (deleteRow_run ls dateStr areaName key).
  destruct (area_member ls dateStr areaName) as [area| |];
    [|apply same_auth_refl..].
  destruct (0 <=? _); [|apply same_auth_refl].
  apply saveAttendanceForDate_same_auth.
Qed.

(** [deleteRow] throws on an inherited area name only, and leaves a name
    inherited or not as it found it. *)
Lemma deleteRow_member ls dateStr areaName key :
  let ls' := exec (Attendance.deleteRow dateStr areaName key) ls in
  result (Attendance.deleteRow dateStr areaName key) ls
  = match area_member ls dateStr areaName with
    | Inherited => TypeError
    | _ => Ok tt
    end
  ∧ (area_member ls' dateStr areaName = Inherited
     ↔ area_member ls dateStr areaName = Inherited).
Proof.
  intros ls'. subst ls'. unfold result, exec.
  rw_run (deleteRow_run ls dateStr areaName key).
  destruct (area_member ls dateStr areaName) as [area| |] eqn:Hm.
  - destruct (0 <=? _); cbn [fst snd]; (split; [reflexivity|]).
    + by rewrite area_member_saved.
    + by rewrite Hm.
  - cbn [fst snd]. by rewrite Hm.
  - cbn [fst snd]. by rewrite Hm.
Qed.

Lemma find_remove_key_other key key' rs :
  key' ≠ key →
  List.find (Attendance.has_key key') (remove_key key rs)
  = List.find (Attendance.has_key key') rs.
Proof.
  intros Hne. induction rs as [|r rs IH]; [reflexivity|]. simpl.
  destruct (Attendance.has_key key r) eqn:Hk; simpl.
  - apply has_key_true in Hk.
    destruct (Attendance.has_key key' r) eqn:Hk'; [|reflexivity].
    apply has_key_true in Hk'. congruence.
  - by rewrite IH.
Qed.

Lemma find_remove_key_same key rs :
  NoDup (map designationKey rs) →
  List.find (Attendance.has_key key) (remove_key key rs) = None.
Proof.
  induction rs as [|r rs IH]; [reflexivity|]. simpl. intros Hnd.
  apply NoDup_cons in Hnd as [Hnin Hnd].
  destruct (Attendance.has_key key r) eqn:Hk; simpl.
  - apply has_key_true in Hk. subst key.
    destruct (List.find _ rs) as [x|] eqn:Hf; [|reflexivity].
    exfalso. apply Hnin. apply find_some in Hf as [Hin Hx].
    apply has_key_true in Hx. rewrite <- Hx.
    apply list_elem_of_In in Hin. by apply list_elem_of_fmap_2.
  - rewrite Hk. by apply IH.
Qed.

Lemma getRow_same ls ls' dateStr areaName key :
  (area_member ls' dateStr areaName = Inherited
   ↔ area_member ls dateStr areaName = Inherited) →
  List.find (Attendance.has_key key) (stored_rows ls' dateStr areaName)
  = List.find (Attendance.has_key key) (stored_rows ls dateStr areaName) →
  result (Attendance.getRow dateStr areaName key) ls'
  = result (Attendance.getRow dateStr areaName key) ls.
Proof.
  intros Hm Hf. unfold result.
  rw_run (getRow_run ls dateStr areaName key).
  rw_run (getRow_run ls' dateStr areaName key).
  rewrite Hf.
  destruct (area_member ls dateStr areaName) as [x| |],
    (area_member ls' dateStr areaName) as [x'| |]; try reflexivity;
    exfalso; destruct Hm as [H1 H2];
    first [by discriminate H1 | by discriminate H2].
Qed.

(** X10. [deleteRow] removes the first row with the key and nothing else:
    the rows with other keys, the other areas and dates and every audit list
    stay as they are (a deletion is not audited), and when the keys of the
    area are distinct no row with the key is left.  It throws on an
    inherited area name, and on no other. *)
Theorem deleteRow_frame ls dateStr areaName key :
  let ls' := exec (Attendance.deleteRow dateStr areaName key) ls in
  (∀ key', key' ≠ key →
     result (Attendance.getRow dateStr areaName key') ls'
     = result (Attendance.getRow dateStr areaName key') ls)
  ∧ (∀ d a, (d, a) ≠ (dateStr, areaName) →
       stored_rows ls' d a = stored_rows ls d a)
  ∧ (∀ d, result (Audit.getEntries d) ls' = result (Audit.getEntries d) ls)
  ∧ (NoDup (map designationKey (stored_rows ls dateStr areaName)) →
     List.filter (Attendance.has_key key) (stored_rows ls' dateStr areaName)
     = [])
  ∧ result (Attendance.deleteRow dateStr areaName key) ls
    = match area_member ls dateStr areaName with
      | Inherited => TypeError
      | _ => Ok tt
      end.
Proof.
  intros ls'. subst ls'.
  destruct (deleteRow_member ls dateStr areaName key) as [Hres Hm].
  split; [|split; [|split; [|split]]].
  - intros key' Hne. apply getRow_same; [exact Hm|].
    rewrite deleteRow_rows, decide_True by done.
    by apply find_remove_key_other.
  - intros d a Hne. rewrite deleteRow_rows. by rewrite decide_False.
  - intros d. rewrite !getEntries_result. apply deleteRow_audit.
  - intros Hnd. rewrite deleteRow_rows, decide_True by done.
    apply find_none_filter. by apply find_remove_key_same.
  - exact Hres.
Qed.

(** *** Totals *)

Lemma js_add_safe x y :
  Z.abs x + Z.abs y ≤ MAX_SAFE_INTEGER → js_add (Fin x) (Fin y) = Fin (x + y).
Proof. intros H. simpl. apply round_double_safe. lia. Qed.

Lemma abs_sum_present_bound rs : Z.abs (sum_present rs) ≤ abs_sum_present rs.
Proof. induction rs as [|r rs IH]; simpl; lia. Qed.

Lemma abs_sum_areas_nonneg ls dateStr l : 0 ≤ abs_sum_areas ls dateStr l.
Proof.
  induction l as [|a l IH]; simpl; [lia|].
  pose proof (abs_sum_present_nonneg (stored_rows ls dateStr a)). lia.
Qed.

Lemma getGrandTotal_from_run ls dateStr l sum :
  Forall (λ a, area_member ls dateStr a ≠ Inherited) l →
  Z.abs sum + abs_sum_areas ls dateStr l ≤ MAX_SAFE_INTEGER →
  run (Attendance.getGrandTotal_from (Fin sum) dateStr l) ls
  = (Ok (Fin (sum + sum_areas ls dateStr l)), ls).
Proof.
  intros Hl. revert sum. induction Hl as [|a rest Ha Hrest IH]; intros sum Hs;
    cbn [Attendance.getGrandTotal_from sum_areas abs_sum_areas] in *.
  - unfold run, mret, StE_ret. by rewrite Z.add_0_r.
  - pose proof (abs_sum_present_nonneg (stored_rows ls dateStr a)).
    pose proof (abs_sum_areas_nonneg ls dateStr rest).
    pose proof (abs_sum_present_bound (stored_rows ls dateStr a)).
    unfold run, mbind, StE_bind in *.
    rw_run (getAreaTotals_run ls dateStr a).
    rewrite fold_left_sum_present by (change (Z.abs 0) with 0; lia).
    assert (Hok : ∀ (t : AreaTotals),
              match area_member ls dateStr a with
              | Inherited => (TypeError, ls)
              | _ => (Ok t, ls)
              end = (Ok t, ls))
      by (intros t; by destruct (area_member ls dateStr a)).
    rewrite Hok. cbn [t_total]. rewrite js_add_safe by lia.
    rewrite IH by lia. by rewrite Z.add_0_l, Z.add_assoc.
Qed.

(** X11. While no listed area has an inherited name and the absolute
    values of the present numbers of their rows add up to no more than
    [MAX_SAFE_INTEGER], [getGrandTotal] is the sum, over the listed areas, of
    the present counts that are numbers: an area that is listed twice counts
    twice and an area without rows counts zero. *)
Theorem getGrandTotal_sum ls dateStr l :
  Forall (λ a, area_member ls dateStr a ≠ Inherited) l →
  abs_sum_areas ls dateStr l ≤ MAX_SAFE_INTEGER →
  result (Attendance.getGrandTotal dateStr l) ls
  = Ok (Fin (sum_areas ls dateStr l)).
Proof.
  intros Hl Hs. unfold Attendance.getGrandTotal, result.
  rw_run (getGrandTotal_from_run ls dateStr l 0 Hl ltac:(simpl; lia)).
  reflexivity.
Qed.

(** ** The entry view: [clearAll] and [confirmAll] *)

Lemma user_areas_run u ls :
  run (user_areas u) ls = (result (user_areas u) ls, ls).
Proof. unfold user_areas. destruct (role u); reflexivity. Qed.

Lemma render_live now ls u :
  result (Auth.getCurrentUser now) ls = Some u →
  run (EntryView.render now) ls = (tt, ls).
Proof.
  intros Hu. apply getCurrentUser_live in Hu. unfold run in *.
  unfold EntryView.render, mbind, St_bind. by rewrite Hu.
Qed.

(** On an area name that is not inherited, [delete_keys] is one
    [deleteRow] after the other and none of them throws. *)
Lemma delete_keys_step dateStr areaName k keys ls :
  area_member ls dateStr areaName ≠ Inherited →
  run (EntryView.delete_keys dateStr areaName (k :: keys)) ls
  = run (EntryView.delete_keys dateStr areaName keys)
      (exec (Attendance.deleteRow dateStr areaName k) ls)
  ∧ area_member (exec (Attendance.deleteRow dateStr areaName k) ls)
      dateStr areaName ≠ Inherited.
Proof.
  intros Hm. destruct (deleteRow_member ls dateStr areaName k) as [Hres Hiff].
  split; [|by rewrite Hiff].
  cbn [EntryView.delete_keys]. unfold run, result, exec, mbind, StE_bind in *.
  destruct (Attendance.deleteRow dateStr areaName k ls) as [r ls1].
  cbn [fst snd] in *. subst r.
  by destruct (area_member ls dateStr areaName).
Qed.

Lemma delete_keys_same_auth dateStr areaName keys ls :
  area_member ls dateStr areaName ≠ Inherited →
  result (EntryView.delete_keys dateStr areaName keys) ls = Ok tt
  ∧ same_auth ls (exec (EntryView.delete_keys dateStr areaName keys) ls).
Proof.
  revert ls. induction keys as [|k keys IH]; intros ls Hm;
    [split; [reflexivity|apply same_auth_refl]|].
  destruct (delete_keys_step dateStr areaName k keys ls Hm) as [Hstep Hm1].
  unfold result, exec in *. unfold run in Hstep. rewrite Hstep.
  destruct (IH _ Hm1) as [IH1 IH2]. split; [exact IH1|].
  eapply same_auth_trans; [apply deleteRow_same_auth|exact IH2].
Qed.

Lemma delete_keys_other dateStr areaName keys ls d a :
  area_member ls dateStr areaName ≠ Inherited →
  (d, a) ≠ (dateStr, areaName) →
  stored_rows (exec (EntryView.delete_keys dateStr areaName keys) ls) d a
  = stored_rows ls d a.
Proof.
  intros Hm Hne. revert ls Hm.
  induction keys as [|k keys IH]; intros ls Hm; [reflexivity|].
  destruct (delete_keys_step dateStr areaName k keys ls Hm) as [Hstep Hm1].
  unfold exec in *. unfold run in Hstep. rewrite Hstep, (IH _ Hm1).
  pose proof (deleteRow_rows ls dateStr areaName k d a) as H. unfold exec in H.
  rewrite H. by rewrite decide_False.
Qed.

(** Deleting the keys of the rows in their order empties the area, also when
    keys repeat. *)
Lemma delete_keys_own dateStr areaName rs ls :
  area_member ls dateStr areaName ≠ Inherited →
  stored_rows ls dateStr areaName = rs →
  stored_rows
    (exec (EntryView.delete_keys dateStr areaName (map designationKey rs)) ls)
    dateStr areaName = [].
Proof.
  revert ls. induction rs as [|r rs IH]; intros ls Hm Hrs; [exact Hrs|].
  cbn [map].
  destruct (delete_keys_step dateStr areaName (designationKey r)
              (map designationKey rs) ls Hm) as [Hstep Hm1].
  unfold exec in *. unfold run in Hstep. rewrite Hstep.
  apply (IH _ Hm1).
  pose proof (deleteRow_rows ls dateStr areaName (designationKey r)
                dateStr areaName) as H. unfold exec in H.
  rewrite H, decide_True, Hrs by done. simpl.
  unfold Attendance.has_key. by rewrite String.eqb_refl.
Qed.

(** The loop of [clearAll] over one area: nothing to delete under an
    inherited name, whose [rows] are [undefined]. *)
Lemma clear_area_run dateStr a0 ls :
  let keys :=
    map designationKey
      (EntryView.rows_or_empty
         (result (Attendance.getAreaData dateStr a0) ls)) in
  let ls1 := exec (EntryView.delete_keys dateStr a0 keys) ls in
  result (EntryView.delete_keys dateStr a0 keys) ls = Ok tt
  ∧ same_auth ls ls1
  ∧ ∀ d a, stored_rows ls1 d a
           = if decide ((d, a) = (dateStr, a0)) then [] else stored_rows ls d a.
Proof.
  intros keys ls1. subst keys ls1. rewrite getAreaData_rows.
  assert (Hcase : area_member ls dateStr a0 = Inherited
                  ∨ area_member ls dateStr a0 ≠ Inherited)
    by (destruct (area_member ls dateStr a0); [right|left|right]; done).
  destruct Hcase as [Hi|Hm].
  - assert (Hrs : stored_rows ls dateStr a0 = [])
      by (rewrite area_member_rows; by rewrite Hi).
    rewrite Hrs. cbn [map EntryView.delete_keys].
    split; [reflexivity|]. split; [apply same_auth_refl|].
    intros d a. destruct (decide _) as [[= -> ->]|]; [exact Hrs|reflexivity].
  - destruct (delete_keys_same_auth dateStr a0
                (map designationKey (stored_rows ls dateStr a0)) ls Hm)
      as [Hres Hauth].
    split; [exact Hres|]. split; [exact Hauth|].
    intros d a. destruct (decide _) as [[= -> ->]|Hne].
    + by apply delete_keys_own.
    + by apply delete_keys_other.
Qed.

Lemma clear_areas_rows dateStr l ls :
  let ls' := exec (EntryView.clear_areas dateStr l) ls in
  result (EntryView.clear_areas dateStr l) ls = Ok tt
  ∧ same_auth ls ls'
  ∧ ∀ d a, stored_rows ls' d a
           = if bool_decide (d = dateStr ∧ a ∈ l) then [] else stored_rows ls d a.
Proof.
  intros ls'. subst ls'. revert ls. induction l as [|a0 rest IH]; intros ls.
  - split; [reflexivity|]. split; [apply same_auth_refl|].
    intros d a. rewrite bool_decide_false; [reflexivity|].
    intros [_ H]. by apply not_elem_of_nil in H.
  - destruct (clear_area_run dateStr a0 ls) as (Hres & Hauth & Hrows).
    cbn [EntryView.clear_areas]. unfold result, exec in *.
    unfold mbind, StE_bind, liftE.
    rw_run (getAreaData_result ls dateStr a0).
    change (or_fresh (area_member ls dateStr a0) (mkAreaData []))
      with (result (Attendance.getAreaData dateStr a0) ls).
    unfold result.
    destruct (EntryView.delete_keys dateStr a0 _ ls) as [r ls1].
    cbn [fst snd] in *. subst r.
    destruct (IH ls1) as (IHres & IHa & IHr).
    split; [exact IHres|]. split; [by eapply same_auth_trans|].
    intros d a. rewrite IHr, Hrows.
    destruct (decide (d = dateStr ∧ a ∈ rest)) as [[-> Hin]|Hnin].
    + rewrite !bool_decide_true; [reflexivity|split; [done|by right]|done].
    + rewrite (bool_decide_false _ Hnin).
      destruct (decide ((d, a) = (dateStr, a0))) as [[= -> ->]|Hne].
      * rewrite bool_decide_true; [reflexivity|]. split; [done|by left].
      * rewrite bool_decide_false; [reflexivity|].
        intros [-> Hin]. apply elem_of_cons in Hin as [->|Hin]; [done|].
        apply Hnin. done.
Qed.

Lemma clearAll_run now dateStr ls u :
  result (Auth.getCurrentUser now) ls = Some u →
  run (EntryView.clearAll now dateStr) ls
  = (Ok tt, exec (EntryView.clear_areas dateStr (result (user_areas u) ls)) ls).
Proof.
  intros Hu. pose proof Hu as Hlive.
  apply getCurrentUser_live in Hu. unfold run in Hu.
  unfold EntryView.clearAll, run.
  unfold mbind at 1, StE_bind at 1, liftE at 1. rewrite Hu.
  unfold mbind at 1, StE_bind at 1, liftE at 1.
  rw_run (user_areas_run u ls).
  destruct (clear_areas_rows dateStr (result (user_areas u) ls) ls)
    as (Hres & Hauth & _).
  unfold mbind, StE_bind, liftE. unfold result, exec in *.
  destruct (EntryView.clear_areas dateStr _ ls) as [r ls1].
  cbn [fst snd] in *. subst r.
  rw_run (render_live now ls1 u
            ltac:(by rewrite (getCurrentUser_same_auth now ls ls1 Hauth))).
  reflexivity.
Qed.

(** X12. With a live session, [clearAll] returns and leaves no row on the
    date in any area of the user (all areas for an admin, the assigned ones
    otherwise), and leaves the rows of every other area and date as they
    are. *)
Theorem clearAll_empties now dateStr ls u :
  result (Auth.getCurrentUser now) ls = Some u →
  result (EntryView.clearAll now dateStr) ls = Ok tt
  ∧ ∀ d a,
      stored_rows (exec (EntryView.clearAll now dateStr) ls) d a
      = if bool_decide (d = dateStr ∧ a ∈ result (user_areas u) ls)
        then [] else stored_rows ls d a.
Proof.
  intros Hu. unfold result at 1, exec.
  rw_run (clearAll_run now dateStr ls u Hu). cbn [fst snd].
  split; [reflexivity|].
  by destruct (clear_areas_rows dateStr (result (user_areas u) ls) ls)
    as (_ & _ & ?).
Qed.

(** *** [confirmAll] *)

Lemma confirm_row_key now by_user r :
  designationKey (confirm_row now by_user r) = designationKey r.
Proof. unfold confirm_row. by destruct (EntryView.to_confirm r). Qed.

Lemma to_confirm_confirm_row now by_user r :
  EntryView.to_confirm (confirm_row now by_user r) = false.
Proof.
  unfold confirm_row. destruct (EntryView.to_confirm r) eqn:E; [reflexivity|exact E].
Qed.

Lemma find_app_fresh key (pre : list Row) r rest :
  key ∉ map designationKey pre → designationKey r = key →
  List.find (Attendance.has_key key) (pre ++ r :: rest) = Some r
  ∧ ∀ f, Attendance.assign_found (Attendance.has_key key) f (pre ++ r :: rest)
         = (pre ++ f r :: rest)%list.
Proof.
  intros Hnin Hr. induction pre as [|x pre IH]; simpl.
  - apply has_key_true in Hr. rewrite Hr. auto.
  - destruct (Attendance.has_key key x) eqn:Hk.
    + apply has_key_true in Hk. exfalso. apply Hnin. rewrite <- Hk. left.
    + destruct IH as [IH1 IH2]; [intros H; apply Hnin; by right|].
      split; [exact IH1|]. intros f. by rewrite IH2.
Qed.

Lemma confirm_rows_run now dateStr areaName u l pre ls count0 :
  result (Auth.getCurrentUser now) ls = Some u →
  NoDup (map designationKey (pre ++ l)) →
  stored_rows ls dateStr areaName
  = (map (confirm_row now (username u)) pre ++ l)%list →
  let r := run (EntryView.confirm_rows now dateStr areaName l count0) ls in
  stored_rows r.2 dateStr areaName
  = map (confirm_row now (username u)) (pre ++ l)
  ∧ (∀ d a, (d, a) ≠ (dateStr, areaName) →
       stored_rows r.2 d a = stored_rows ls d a)
  ∧ same_auth ls r.2
  ∧ r.1 = Ok (count0 + length (List.filter EntryView.to_confirm l))%nat.
Proof.
  revert pre ls count0. induction l as [|x l IH]; intros pre ls count0 Hu Hnd Hrows.
  - simpl. rewrite app_nil_r in *. split; [exact Hrows|]. split; [done|].
    split; [apply same_auth_refl|]. by rewrite Nat.add_0_r.
  - cbn [EntryView.confirm_rows]. unfold run in *.
    assert (Hnd' : NoDup (map designationKey ((pre ++ [x]) ++ l)))
      by (by rewrite <- app_assoc).
    assert (Hxk : designationKey x
                  ∉ map designationKey (map (confirm_row now (username u)) pre)).
    { rewrite map_map. rewrite (map_ext _ designationKey)
        by (intros; apply confirm_row_key).
      rewrite map_app in Hnd. apply NoDup_app in Hnd as (_ & Hdis & _).
      intros Hin. apply (Hdis _ Hin). simpl. left. }
    destruct (EntryView.to_confirm x) eqn:Hx.
    + unfold mbind, StE_bind.
      destruct (find_app_fresh (designationKey x) _ x l Hxk eq_refl) as [Hf Has].
      rewrite <- Hrows in Hf.
      destruct (updateRow_live_rows now dateStr areaName (designationKey x)
                  (mkUpdates None (Some true)) ls u x Hu Hf)
        as (Hres & Hur & Hauth).
      unfold result, exec in Hres, Hur, Hauth.
      destruct (Attendance.updateRow now dateStr areaName _ _ ls) as [r0 ls1].
      cbn [fst snd] in Hres, Hur, Hauth. subst r0.
      assert (Hu1 : result (Auth.getCurrentUser now) ls1 = Some u)
        by (by rewrite (getCurrentUser_same_auth now ls ls1 Hauth)).
      assert (Hrows1 : stored_rows ls1 dateStr areaName
                = (map (confirm_row now (username u)) (pre ++ [x]) ++ l)%list).
      { assert (Hcx : confirm_row now (username u) x
                      = Attendance.assign (mkUpdates None (Some true)) now
                          (username u) x)
          by (unfold confirm_row; by rewrite Hx).
        rewrite Hur, decide_True, Hrows, Has by done.
        rewrite map_app, <- app_assoc. cbn [map app]. by rewrite Hcx. }
      destruct (IH (pre ++ [x])%list ls1 (S count0) Hu1 Hnd' Hrows1)
        as (IH1 & IH2 & IH3 & IH4).
      rewrite <- app_assoc in IH1. simpl in IH1.
      split; [exact IH1|]. split; [|split].
      * intros d a Hne. rewrite IH2, Hur by done. by rewrite decide_False.
      * by eapply same_auth_trans.
      * rewrite IH4. cbn [List.filter]. rewrite Hx. simpl. f_equal. lia.
    + assert (Hrows1 : stored_rows ls dateStr areaName
                = (map (confirm_row now (username u)) (pre ++ [x]) ++ l)%list).
      { assert (Hcx : confirm_row now (username u) x = x)
          by (unfold confirm_row; by rewrite Hx).
        rewrite Hrows, map_app, <- app_assoc. cbn [map app]. by rewrite Hcx. }
      destruct (IH (pre ++ [x])%list ls count0 Hu Hnd' Hrows1)
        as (IH1 & IH2 & IH3 & IH4).
      rewrite <- app_assoc in IH1. simpl in IH1.
      split; [exact IH1|]. split; [exact IH2|]. split; [exact IH3|].
      rewrite IH4. cbn [List.filter]. by rewrite Hx.
Qed.

Lemma confirm_row_idem now by_user rs :
  map (confirm_row now by_user) (map (confirm_row now by_user) rs)
  = map (confirm_row now by_user) rs.
Proof.
  rewrite map_map. apply map_ext. intros r.
  unfold confirm_row at 1. by rewrite to_confirm_confirm_row.
Qed.

Lemma confirm_areas_run now dateStr u l ls count0 :
  result (Auth.getCurrentUser now) ls = Some u →
  (∀ a, a ∈ l → NoDup (map designationKey (stored_rows ls dateStr a))) →
  let r := run (EntryView.confirm_areas now dateStr l count0) ls in
  (∀ d a, stored_rows r.2 d a
          = if bool_decide (d = dateStr ∧ a ∈ l)
            then map (confirm_row now (username u)) (stored_rows ls d a)
            else stored_rows ls d a)
  ∧ same_auth ls r.2
  ∧ (∃ c, r.1 = Ok c
       ∧ (NoDup l → c = (count0 + count_to_confirm ls dateStr l)%nat)).
Proof.
  revert ls count0. induction l as [|a0 rest IH]; intros ls count0 Hu Hnd.
  - simpl. split; [|split; [apply same_auth_refl|]].
    + intros d a. rewrite bool_decide_false; [reflexivity|].
      intros [_ H]. by apply not_elem_of_nil in H.
    + exists count0. split; [reflexivity|]. intros _. by rewrite Nat.add_0_r.
  - cbn [EntryView.confirm_areas]. unfold run, mbind, StE_bind, liftE in *.
    pose proof (getAreaData_rows ls dateStr a0) as Hr. unfold result in Hr.
    pose proof (getAreaData_result ls dateStr a0) as Hg. unfold run in Hg.
    rewrite Hg in Hr |- *. cbn [fst] in Hr. rewrite Hr. clear Hg.
    assert (Hnd0 : NoDup (map designationKey
                            ([] ++ stored_rows ls dateStr a0)))
      by (simpl; apply Hnd; left).
    destruct (confirm_rows_run now dateStr a0 u (stored_rows ls dateStr a0) []
                ls count0 Hu Hnd0 eq_refl) as (C1 & C2 & C3 & C4).
    unfold run in C1, C2, C3, C4.
    destruct (EntryView.confirm_rows now dateStr a0 _ count0 ls) as [rc ls1].
    cbn [fst snd app] in C1, C2, C3, C4. subst rc.
    assert (Hu1 : result (Auth.getCurrentUser now) ls1 = Some u)
      by (by rewrite (getCurrentUser_same_auth now ls ls1 C3)).
    assert (Hrows1 : ∀ a, stored_rows ls1 dateStr a
                = if decide (a = a0)
                  then map (confirm_row now (username u)) (stored_rows ls dateStr a)
                  else stored_rows ls dateStr a).
    { intros a. destruct (decide (a = a0)) as [->|Hne]; [exact C1|].
      apply C2. congruence. }
    assert (Hnd1 : ∀ a, a ∈ rest →
              NoDup (map designationKey (stored_rows ls1 dateStr a))).
    { intros a Hin. rewrite Hrows1. destruct (decide (a = a0)) as [->|Hne].
      - rewrite map_map. rewrite (map_ext _ designationKey)
          by (intros; apply confirm_row_key). apply Hnd. left.
      - apply Hnd. by right. }
    destruct (IH ls1 (count0 + length (List.filter EntryView.to_confirm
                                         (stored_rows ls dateStr a0)))%nat
                Hu1 Hnd1) as (I1 & I2 & (c & I3 & I4)).
    destruct (EntryView.confirm_areas now dateStr rest _ ls1) as [c2 ls2].
    cbn [fst snd] in *. split; [|split].
    + intros d a. rewrite I1.
      destruct (decide (d = dateStr)) as [->|Hd].
      * rewrite Hrows1.
        destruct (decide (a = a0)) as [->|Hne].
        -- rewrite (bool_decide_true (dateStr = dateStr ∧ a0 ∈ a0 :: rest))
             by (split; [done|left]).
           destruct (bool_decide _); [apply confirm_row_idem|reflexivity].
        -- destruct (decide (a ∈ rest)) as [Hin|Hnin].
           ++ rewrite !bool_decide_true; [reflexivity|split; [done|by right]|done].
           ++ rewrite !bool_decide_false; [reflexivity| |].
              ** intros [_ H]. apply elem_of_cons in H as [?|?]; done.
              ** intros [_ H]. done.
      * rewrite !bool_decide_false by (intros [? _]; done).
        apply C2. congruence.
    + by eapply same_auth_trans.
    + exists c. split; [exact I3|].
      intros Hndl. apply NoDup_cons in Hndl as [Hnin Hndl].
      rewrite (I4 Hndl).
      assert (Hc : count_to_confirm ls1 dateStr rest
                   = count_to_confirm ls dateStr rest).
      { clear -Hrows1 Hnin. induction rest as [|b rest IHr]; [reflexivity|].
        simpl. rewrite Hrows1. rewrite decide_False.
        - rewrite IHr; [reflexivity|]. intros H. apply Hnin. by right.
        - intros ->. apply Hnin. left. }
      rewrite Hc. simpl. lia.
Qed.

(** X13. With a live session and distinct keys in each area of the user,
    [confirmAll] returns and has confirmed on the date exactly the rows of
    those areas that were not confirmed and whose [present] is neither
    [null] nor the empty string, stamping them with the clock and the user;
    it changes no [present], no other row, area or date; and when no area is
    listed twice it returns the number of rows it confirmed. *)
Theorem confirmAll_confirms now dateStr ls u :
  result (Auth.getCurrentUser now) ls = Some u →
  (∀ a, a ∈ result (user_areas u) ls →
        NoDup (map designationKey (stored_rows ls dateStr a))) →
  let ls' := exec (EntryView.confirmAll now dateStr) ls in
  (∀ d a, stored_rows ls' d a
          = if bool_decide (d = dateStr ∧ a ∈ result (user_areas u) ls)
            then map (confirm_row now (username u)) (stored_rows ls d a)
            else stored_rows ls d a)
  ∧ (∀ d a, map present (stored_rows ls' d a) = map present (stored_rows ls d a))
  ∧ (∃ c, result (EntryView.confirmAll now dateStr) ls = Ok (Some c)
       ∧ (NoDup (result (user_areas u) ls) →
          c = count_to_confirm ls dateStr (result (user_areas u) ls))).
Proof.
  intros Hu Hnd ls'.
  assert (H : ∃ c ls1,
            run (EntryView.confirmAll now dateStr) ls = (Ok (Some c), ls1)
            ∧ (∀ d a, stored_rows ls1 d a
                 = if bool_decide (d = dateStr ∧ a ∈ result (user_areas u) ls)
                   then map (confirm_row now (username u)) (stored_rows ls d a)
                   else stored_rows ls d a)
            ∧ (NoDup (result (user_areas u) ls) →
               c = count_to_confirm ls dateStr (result (user_areas u) ls))).
  { pose proof Hu as Hlive.
    apply getCurrentUser_live in Hu. unfold run in Hu.
    unfold EntryView.confirmAll, run.
    unfold mbind at 1, StE_bind at 1, liftE at 1. rewrite Hu.
    unfold mbind at 1, StE_bind at 1, liftE at 1.
    rw_run (user_areas_run u ls).
    destruct (confirm_areas_run now dateStr u (result (user_areas u) ls) ls
                0%nat Hlive Hnd) as (C1 & C2 & (c & C3 & C4)).
    unfold run in C1, C2, C3. unfold mbind, StE_bind, liftE.
    destruct (EntryView.confirm_areas now dateStr _ 0%nat ls) as [rc ls1].
    cbn [fst snd] in C1, C2, C3. subst rc.
    rw_run (render_live now ls1 u
              ltac:(by rewrite (getCurrentUser_same_auth now ls ls1 C2))).
    exists c, ls1. split; [reflexivity|]. split; [exact C1|].
    intros Hndl. by rewrite (C4 Hndl). }
  destruct H as (c & ls1 & Hrun & H1 & H2).
  subst ls'. unfold result, exec. unfold run in Hrun. rewrite Hrun.
  cbn [fst snd].
  split; [exact H1|]. split; [|exists c; split; [reflexivity|exact H2]].
  intros d a. rewrite H1. destruct (bool_decide _); [|reflexivity].
  rewrite map_map. apply map_ext. intros r. unfold confirm_row.
  by destruct (EntryView.to_confirm r).
Qed.

(** ** Users: [createUser], [resetPassword], [toggleUser], [checkFirstRun] *)

Section Users.
Variable hashPassword : string → string → string.

Lemma find_user_name uname users usr :
  Auth.find_user uname users = Some usr → username usr = uname.
Proof.
  unfold Auth.find_user. intros H. apply find_some in H as [_ H].
  by apply String.eqb_eq.
Qed.

Lemma find_user_app_new uname users usr :
  Auth.find_user uname users = None → username usr = uname →
  Auth.find_user uname (users ++ [usr]) = Some usr.
Proof.
  unfold Auth.find_user. intros Hf Hn.
  induction users as [|x users IH]; simpl in *.
  - apply String.eqb_eq in Hn. by rewrite Hn.
  - destruct (String.eqb (username x) uname); [discriminate|by apply IH].
Qed.

Lemma find_user_app_other uname other users usr :
  username usr = uname → other ≠ uname →
  Auth.find_user other (users ++ [usr]) = Auth.find_user other users.
Proof.
  unfold Auth.find_user. intros Hn Hne.
  induction users as [|x users IH]; simpl.
  - destruct (String.eqb_spec (username usr) other); [congruence|reflexivity].
  - destruct (String.eqb (username x) other); [reflexivity|exact IH].
Qed.

Lemma find_user_none_not_in uname users :
  Auth.find_user uname users = None → uname ∉ map username users.
Proof.
  unfold Auth.find_user. induction users as [|x users IH]; simpl; intros Hf Hin.
  - by apply not_elem_of_nil in Hin.
  - destruct (String.eqb_spec (username x) uname); [discriminate|].
    apply elem_of_cons in Hin as [Heq|Hin]; [congruence|by apply IH].
Qed.

Lemma createUser_run now salt0 uname password role0 areas0 ls :
  run (Auth.createUser hashPassword now salt0 uname password role0 areas0) ls
  = match Auth.find_user uname (users_of ls) with
    | Some _ => (UserErr UsernameExists, ls)
    | None =>
        (UserOk,
         exec (Storage.saveUsers
                 (users_of ls ++
                  [mkUser uname role0 salt0 (hashPassword password salt0)
                     areas0 now false])) ls)
    end.
Proof.
  unfold Auth.createUser, users_of. st_unfold. simpl.
  by destruct (Auth.find_user _ _).
Qed.

Lemma find_user_not_in uname users :
  uname ∉ map username users → Auth.find_user uname users = None.
Proof.
  intros Hnin. destruct (Auth.find_user uname users) as [usr|] eqn:Hf;
    [|reflexivity].
  exfalso. apply Hnin. pose proof (find_user_name _ _ _ Hf) as <-.
  unfold Auth.find_user in Hf. apply find_some in Hf as [Hin _].
  apply list_elem_of_In in Hin. by apply list_elem_of_fmap_2.
Qed.

Lemma assign_user_first uname f pre usr post :
  Forall (λ x, username x ≠ uname) pre → username usr = uname →
  Auth.assign_user uname f (pre ++ usr :: post)%list
  = (pre ++ f usr :: post)%list.
Proof.
  intros Hpre Hu. induction Hpre as [|x pre Hx Hpre IH]; simpl.
  - apply String.eqb_eq in Hu. by rewrite Hu.
  - apply String.eqb_neq in Hx. by rewrite Hx, IH.
Qed.

(** X14. [createUser] refuses a name that is taken and then writes nothing;
    otherwise it appends the user, enabled, and leaves the users that were
    there as they were.  User names that are distinct stay distinct. *)
Theorem createUser_unique now salt0 uname password role0 areas0 ls :
  let r := run (Auth.createUser hashPassword now salt0 uname password role0
                  areas0) ls in
  (uname ∈ map username (users_of ls) → r = (UserErr UsernameExists, ls))
  ∧ (uname ∉ map username (users_of ls) →
     r.1 = UserOk
     ∧ users_of r.2
       = (users_of ls ++
          [mkUser uname role0 salt0 (hashPassword password salt0) areas0 now
             false])%list)
  ∧ (NoDup (map username (users_of ls)) → NoDup (map username (users_of r.2))).
Proof.
  intros r. subst r. rewrite createUser_run.
  destruct (Auth.find_user uname (users_of ls)) as [usr|] eqn:Hf.
  - pose proof (find_user_name _ _ _ Hf) as Hn.
    assert (Hin : uname ∈ map username (users_of ls)).
    { unfold Auth.find_user in Hf. apply find_some in Hf as [Hin _].
      apply list_elem_of_In in Hin. rewrite <- Hn.
      by apply list_elem_of_fmap_2. }
    split; [done|]. split; [done|]. done.
  - pose proof (find_user_none_not_in _ _ Hf) as Hnin.
    split; [done|]. split; [intros _; split; reflexivity|].
    intros Hnd. simpl. unfold users_of at 1. unfold result. simpl.
    rewrite map_app. simpl. apply NoDup_app. split; [exact Hnd|].
    split; [|apply NoDup_singleton].
    intros x Hx Hx'. apply list_elem_of_singleton in Hx'. by subst x.
Qed.

(** X15. A user that [createUser] has just stored can log in with the
    password it was created with, whenever no lockout is running. *)
Theorem createUser_then_login t salt0 uname password role0 areas0 ls now now' :
  result (Auth.createUser hashPassword t salt0 uname password role0 areas0) ls
  = UserOk →
  let ls1 := exec (Auth.createUser hashPassword t salt0 uname password role0
                     areas0) ls in
  locked now (session_of ls) = false →
  result (Auth.login hashPassword now now' uname password) ls1 = LoginOk
  ∧ currentUser
      (session_of (exec (Auth.login hashPassword now now' uname password) ls1))
    = Some uname.
Proof.
  intros Hok ls1 Hl. subst ls1. unfold result, exec in *.
  pose proof (createUser_run t salt0 uname password role0 areas0 ls) as Hr.
  unfold run in Hr. rewrite Hr in *.
  destruct (Auth.find_user uname (users_of ls)) as [usr|] eqn:Hf; [discriminate|].
  cbn [fst snd].
  set (new := mkUser uname role0 salt0 _ areas0 t false).
  pose proof (login_correct hashPassword now now' uname password
                (exec (Storage.saveUsers (users_of ls ++ [new])) ls) new) as Hlog.
  unfold run in Hlog. rewrite Hlog; [split; reflexivity|exact Hl| |reflexivity..].
  simpl. by apply find_user_app_new.
Qed.

(** *** [resetPassword] and [toggleUser] *)

Lemma find_assign_user_same uname f users usr :
  (∀ u, username (f u) = username u) →
  Auth.find_user uname users = Some usr →
  Auth.find_user uname (Auth.assign_user uname f users) = Some (f usr).
Proof.
  unfold Auth.find_user. intros Hf.
  induction users as [|x users IH]; [discriminate|]. simpl.
  destruct (String.eqb (username x) uname) eqn:Hx; simpl.
  - intros [= ->]. by rewrite Hf, Hx.
  - intros H. rewrite Hx. by apply IH.
Qed.

Lemma find_assign_user_other uname other f users :
  (∀ u, username (f u) = username u) → other ≠ uname →
  Auth.find_user other (Auth.assign_user uname f users)
  = Auth.find_user other users.
Proof.
  unfold Auth.find_user. intros Hf Hne.
  induction users as [|x users IH]; [reflexivity|]. simpl.
  destruct (String.eqb (username x) uname) eqn:Hx; simpl.
  - rewrite Hf. apply String.eqb_eq in Hx. rewrite Hx.
    destruct (String.eqb_spec uname other); [congruence|reflexivity].
  - by rewrite IH.
Qed.


(** X16. [resetPassword] on a name no stored user has reports it and
    writes nothing; otherwise it replaces salt and hash of the first user of
    that name only: the other users, the [disabled] flag and the session
    with its lockout counter stay, and the user, when enabled and not locked
    out, logs in with the new password. *)
Theorem resetPassword_then_login salt0 uname newPassword ls :
  let r := run (Auth.resetPassword hashPassword salt0 uname newPassword) ls in
  (uname ∉ map username (users_of ls) → r = (UserErr UserNotFound, ls))
  ∧ (∀ pre usr post,
       users_of ls = (pre ++ usr :: post)%list →
       Forall (λ x, username x ≠ uname) pre → username usr = uname →
       r.1 = UserOk
       ∧ hc_session r.2 = hc_session ls
       ∧ users_of r.2
         = (pre ++
            mkUser (username usr) (role usr) salt0
              (hashPassword newPassword salt0) (assignedAreas usr)
              (createdAt usr) (disabled usr) :: post)%list
       ∧ (∀ now now',
            disabled usr = false → locked now (session_of ls) = false →
            result (Auth.login hashPassword now now' uname newPassword) r.2
            = LoginOk)).
Proof.
  intros r. subst r.
  set (f := λ u, mkUser (username u) (role u) salt0
                   (hashPassword newPassword salt0) (assignedAreas u)
                   (createdAt u) (disabled u)).
  assert (Hrun : run (Auth.resetPassword hashPassword salt0 uname newPassword) ls
            = match Auth.find_user uname (users_of ls) with
              | None => (UserErr UserNotFound, ls)
              | Some _ =>
                  (UserOk,
                   exec (Storage.saveUsers
                           (Auth.assign_user uname f (users_of ls))) ls)
              end).
  { unfold Auth.resetPassword, users_of. st_unfold. simpl.
    by destruct (Auth.find_user _ _). }
  rewrite Hrun. split.
  - intros Hnin. by rewrite (find_user_not_in _ _ Hnin).
  - intros pre usr post Hus Hpre Hname.
    pose proof (find_user_first uname pre usr post Hpre Hname) as Hf.
    rewrite <- Hus in Hf. rewrite Hf. cbn [fst snd].
    assert (Hn : ∀ u, username (f u) = username u) by reflexivity.
    assert (Hfind : Auth.find_user uname
                      (users_of (exec (Storage.saveUsers
                         (Auth.assign_user uname f (users_of ls))) ls))
                    = Some (f usr))
      by (by apply find_assign_user_same).
    split; [reflexivity|]. split; [reflexivity|]. split.
    + change (users_of (exec (Storage.saveUsers
                         (Auth.assign_user uname f (users_of ls))) ls))
        with (Auth.assign_user uname f (users_of ls)).
      rewrite Hus. by apply assign_user_first.
    + intros now now' Hd Hl. unfold result.
      pose proof (login_correct hashPassword now now' uname newPassword
                    (exec (Storage.saveUsers
                       (Auth.assign_user uname f (users_of ls))) ls) (f usr)) as Hlog.
      unfold run in Hlog. rewrite Hlog; [reflexivity|exact Hl|exact Hfind|exact Hd|].
      reflexivity.
Qed.

Lemma toggleUser_run uname ls :
  run (AdminView.toggleUser uname) ls
  = match Auth.find_user uname (users_of ls) with
    | Some _ =>
        (tt, exec (Storage.saveUsers
                     (Auth.assign_user uname flip_disabled (users_of ls))) ls)
    | None => (tt, ls)
    end.
Proof.
  unfold AdminView.toggleUser, users_of. st_unfold. simpl.
  by destruct (Auth.find_user _ _).
Qed.


(** *** [checkFirstRun] *)

Lemma existsb_assign_user uname users usr :
  NoDup (map username users) →
  Auth.find_user uname users = Some usr →
  (∀ u, u ∈ users → enabled_admin u = true → username u = uname) →
  disabled usr = false →
  existsb enabled_admin (Auth.assign_user uname flip_disabled users) = false.
Proof.
  unfold Auth.find_user.
  induction users as [|x users IH]; [discriminate|]. simpl.
  intros Hnd Hf Hall Hd. apply NoDup_cons in Hnd as [Hnin Hnd].
  destruct (String.eqb (username x) uname) eqn:Hx; simpl.
  - injection Hf as ->. apply orb_false_iff. split.
    + unfold enabled_admin, flip_disabled. simpl. rewrite Hd.
      by destruct (role usr).
    + apply String.eqb_eq in Hx.
      apply not_true_is_false. intros He. apply existsb_exists in He as (u & Hin & Hu).
      apply Hnin. rewrite Hx.
      rewrite <- (Hall u); [|right; by apply list_elem_of_In|exact Hu].
      apply list_elem_of_fmap_2. by apply list_elem_of_In.
  - apply orb_false_iff. split.
    + apply not_true_is_false. intros He.
      apply String.eqb_neq in Hx. apply Hx. apply Hall; [left|exact He].
    + apply IH; [exact Hnd|exact Hf| |exact Hd].
      intros u Hin. apply Hall. by right.
Qed.

(** X18. Once [toggleUser] has disabled the only enabled admin, the next
    [checkFirstRun] reports a first run, so the create-admin screen is shown
    again; an area list that is not empty is kept. *)
Theorem checkFirstRun_after_disabling_admin uname ls pre usr post :
  NoDup (map username (users_of ls)) →
  users_of ls = (pre ++ usr :: post)%list → username usr = uname →
  disabled usr = false →
  (∀ u, u ∈ users_of ls → enabled_admin u = true → username u = uname) →
  let ls1 := exec (AdminView.toggleUser uname) ls in
  result App.checkFirstRun ls1 = true
  ∧ (result Storage.getAreas ls ≠ [] → exec App.checkFirstRun ls1 = ls1).
Proof.
  intros Hnd Hus Hname Hd Hall ls1.
  assert (Hpre : Forall (λ x, username x ≠ uname) pre).
  { rewrite Hus, map_app in Hnd. apply NoDup_app in Hnd as (_ & Hdis & _).
    apply Forall_forall. intros x Hx Hxn.
    apply (Hdis (username x)); [by apply list_elem_of_fmap_2|].
    simpl. rewrite Hxn, <- Hname. left. }
  pose proof (find_user_first uname pre usr post Hpre Hname) as Hf.
  rewrite <- Hus in Hf. rewrite Hus in Hnd.
  assert (Hnd' : NoDup (map username (users_of ls))) by (by rewrite Hus).
  clear Hnd. rename Hnd' into Hnd.
  assert (Hls1 : ls1 = exec (Storage.saveUsers
                   (Auth.assign_user uname flip_disabled (users_of ls))) ls).
  { subst ls1. unfold exec. pose proof (toggleUser_run uname ls) as Hr.
    unfold run in Hr. by rewrite Hr, Hf. }
  pose proof (existsb_assign_user uname (users_of ls) usr Hnd Hf Hall Hd) as He.
  rewrite Hls1. unfold App.checkFirstRun. st_unfold. simpl.
  fold enabled_admin. rewrite He. rewrite orb_true_r.
  split.
  - by destruct (Nat.eqb _ 0).
  - intros Har. unfold Storage.getAreas in *. simpl in *.
    destruct (default [] (hc_areas ls)); [done|reflexivity].
Qed.

End Users.

(** ** Sessions after [login] and [logout] *)

Section SessionLife.
Variable hashPassword : string → string → string.

(** X19. After a successful [login] under a name that is not empty,
    [getCurrentUser] returns that user, enabled, and writes nothing at every
    instant up to [SESSION_DURATION] after the login; later it returns none
    and clears the session (for a clock after the epoch). *)
Theorem login_session_live now now' uname p ls :
  result (Auth.login hashPassword now now' uname p) ls = LoginOk →
  uname ≠ EmptyString →
  let ls1 := exec (Auth.login hashPassword now now' uname p) ls in
  (∀ t, t ≤ now' + CONFIG.SESSION_DURATION →
     ∃ usr, run (Auth.getCurrentUser t) ls1 = (Some usr, ls1)
       ∧ username usr = uname ∧ disabled usr = false)
  ∧ (∀ t, 0 ≤ now' → now' + CONFIG.SESSION_DURATION < t →
       result (Auth.getCurrentUser t) ls1 = None
       ∧ currentUser (session_of (exec (Auth.getCurrentUser t) ls1)) = None).
Proof.
  intros Hok Hne ls1. subst ls1. unfold result, exec in *.
  destruct (login_cases hashPassword now now' uname p ls)
    as [[_ Hr] | [_ [[_ Hr] | (usr & Hf & [[_ Hr] | [(_ & _ & Hr) | (Hd & _ & Hr)]])]]];
    unfold run in Hr; rewrite Hr in *; try discriminate. clear Hok.
  cbn [fst snd].
  set (e := now' + CONFIG.SESSION_DURATION).
  set (ls1 := set_session _ ls).
  assert (Hgo : ∀ t, run (Auth.getCurrentUser t) ls1
            = if negb (Z.eqb e 0) && (e <? t)
              then (None, set_session (mkSession None None (mkFailedLogin 0 None)) ls1)
              else (Some usr, ls1)).
  { intros t. subst ls1. destruct ls as [se ar us ss at' dh].
    unfold Auth.getCurrentUser, Auth.logout, run, set_session. st_unfold.
    simpl in *.
    apply String.eqb_neq in Hne. rewrite Hne. cbn [negb]. fold e.
    destruct (negb (Z.eqb e 0) && (e <? t)); [reflexivity|].
    unfold id in *. cbn [hc_users]. rewrite Hf, Hd. reflexivity. }
  split.
  - intros t Ht. exists usr. rewrite Hgo.
    assert ((e <? t) = false) as -> by lia. rewrite andb_false_r.
    split; [reflexivity|]. split; [|exact Hd].
    by apply (find_user_name uname (default [] (hc_users ls))).
  - intros t H0 Ht. pose proof (Hgo t) as Hg. unfold run in Hg. rewrite Hg.
    assert ((e <? t) = true) as -> by lia.
    assert (Z.eqb e 0 = false) as ->
      by (subst e; unfold CONFIG.SESSION_DURATION; lia).
    split; reflexivity.
Qed.

Lemma login_result_same now now' u p ls1 ls2 :
  failedLogin (session_of ls1) = failedLogin (session_of ls2) →
  hc_users ls1 = hc_users ls2 →
  result (Auth.login hashPassword now now' u p) ls1
  = result (Auth.login hashPassword now now' u p) ls2.
Proof.
  unfold session_of, result. intros Hfl Hus.
  destruct ls1 as [se1 ar1 us1 ss1 at1 dh1], ls2 as [se2 ar2 us2 ss2 at2 dh2].
  unfold Auth.login, Auth._handleFailedLogin. st_unfold. simpl in *. subst us2.
  rewrite Hfl.
  destruct (truthy_num _ && _); [reflexivity|].
  destruct (Auth.find_user _ _) as [usr|]; [|reflexivity].
  destruct (disabled usr); [reflexivity|].
  destruct (negb _); reflexivity.
Qed.

(** X20. After [logout] nobody is logged in, at any instant, and the
    lockout is as it was: every later [login] ends as it would have ended
    without the [logout]. *)
Theorem logout_keeps_lockout ls :
  let ls1 := exec Auth.logout ls in
  (∀ t, run (Auth.getCurrentUser t) ls1 = (None, ls1))
  ∧ failedLogin (session_of ls1) = failedLogin (session_of ls)
  ∧ ∀ now now' u p,
      result (Auth.login hashPassword now now' u p) ls1
      = result (Auth.login hashPassword now now' u p) ls.
Proof.
  intros ls1. split; [intros t; reflexivity|]. split; [reflexivity|].
  intros now now' u p. by apply login_result_same.
Qed.

End SessionLife.

(** ** The designation history *)

Lemma filter_bool_sublist {A} (p : A → bool) l : List.filter p l `sublist_of` l.
Proof.
  induction l as [|x l IH]; simpl; [constructor|].
  destruct (p x); by constructor.
Qed.

Lemma touch_head cap norm label l :
  (0 < cap)%nat → hd_error (DesignationMgr.touch cap norm label l) = Some label.
Proof. intros H. unfold DesignationMgr.touch. destruct cap; [lia|reflexivity]. Qed.

Lemma touch_length cap norm label l :
  (length (DesignationMgr.touch cap norm label l) ≤ cap)%nat.
Proof. unfold DesignationMgr.touch. rewrite length_take. lia. Qed.

Lemma filter_keys_not_in norm l :
  norm ∉ history_keys
           (List.filter
              (λ d, negb (String.eqb (Utils.normalizeDesignation d) norm)) l).
Proof.
  unfold history_keys. induction l as [|x l IH]; simpl.
  - apply not_elem_of_nil.
  - destruct (String.eqb_spec (Utils.normalizeDesignation x) norm); simpl;
      [exact IH|].
    intros Hin. apply elem_of_cons in Hin as [?|?]; [congruence|by apply IH].
Qed.

Lemma touch_keys_NoDup cap label l :
  NoDup (history_keys l) →
  NoDup (history_keys
           (DesignationMgr.touch cap (Utils.normalizeDesignation label) label l)).
Proof.
  intros Hnd. unfold DesignationMgr.touch, history_keys.
  eapply sublist_NoDup;
    [|apply (fmap_sublist Utils.normalizeDesignation), sublist_take].
  simpl. apply NoDup_cons. split; [apply filter_keys_not_in|].
  eapply sublist_NoDup; [exact Hnd|].
  apply (fmap_sublist Utils.normalizeDesignation), filter_bool_sublist.
Qed.

Lemma history_touched_of label areaName ls :
  history_of (history_touched label areaName ls)
  = mkDesignationHistory
      (DesignationMgr.touch CONFIG.MAX_GLOBAL_DESIGNATION_HISTORY
         (Utils.normalizeDesignation label) label (global (history_of ls)))
      (<[areaName :=
           DesignationMgr.touch CONFIG.MAX_AREA_DESIGNATION_HISTORY
             (Utils.normalizeDesignation label) label (area_history ls areaName)]>
         (byArea (history_of ls))).
Proof. reflexivity. Qed.

(** X21. On an area name that is not inherited, [addToHistory] returns and
    has put the label first in the global list and in the list of the area;
    it keeps at most 100 and 50 labels there, leaves the lists of the other
    areas alone, and keeps lists whose keys are distinct that way: the label
    replaces the entry that had its key. *)
Theorem addToHistory_recent label areaName ls :
  history_member ls areaName ≠ Inherited →
  let ls' := exec (DesignationMgr.addToHistory label areaName) ls in
  result (DesignationMgr.addToHistory label areaName) ls = Ok tt
  ∧ hd_error (global (history_of ls')) = Some label
  ∧ hd_error (area_history ls' areaName) = Some label
  ∧ (length (global (history_of ls')) ≤ 100)%nat
  ∧ (length (area_history ls' areaName) ≤ 50)%nat
  ∧ (∀ a, a ≠ areaName → area_history ls' a = area_history ls a)
  ∧ (NoDup (history_keys (global (history_of ls))) →
     NoDup (history_keys (global (history_of ls'))))
  ∧ (NoDup (history_keys (area_history ls areaName)) →
     NoDup (history_keys (area_history ls' areaName))).
Proof.
  intros Hm ls'. subst ls'. unfold result, exec.
  rw_run (addToHistory_run label areaName ls).
  assert (Hok : ∀ (x : Res unit * LocalStorage),
            match history_member ls areaName with
            | Inherited => (TypeError, ls)
            | _ => x
            end = x)
    by (intros x; by destruct (history_member ls areaName)).
  rewrite Hok. cbn [fst snd]. split; [reflexivity|].
  unfold area_history. rewrite history_touched_of.
  cbn [global byArea]. rewrite lookup_insert_eq. cbn [default from_option id].
  split; [apply touch_head; unfold CONFIG.MAX_GLOBAL_DESIGNATION_HISTORY; lia|].
  split; [apply touch_head; unfold CONFIG.MAX_AREA_DESIGNATION_HISTORY; lia|].
  split; [apply touch_length|]. split; [apply touch_length|].
  split; [intros a Hne; by rewrite lookup_insert_ne|].
  split; apply touch_keys_NoDup.
Qed.

(** *** A new designation is suggested first *)

Lemma prefix_refl s : String.prefix s s = true.
Proof.
  induction s as [|c s IH]; simpl; [reflexivity|].
  destruct (ascii_dec c c); [exact IH|congruence].
Qed.

Lemma includes_refl s : Utils.includes s s = true.
Proof.
  assert (H : Utils.includes s s = String.prefix s s || match s with
            | EmptyString => false | String _ s' => Utils.includes s' s end)
    by (destruct s; reflexivity).
  by rewrite H, prefix_refl.
Qed.

Lemma getSuggestions_head partial areaName ls label rest :
  areaName ≠ EmptyString →
  history_member ls areaName = Val (label :: rest) →
  Utils.includes (Utils.normalizeDesignation label)
    (Utils.normalizeDesignation partial) = true →
  ∃ more,
    result (DesignationMgr.getSuggestions partial areaName) ls
    = Ok (label :: more).
Proof.
  intros Hne Hl Hinc. unfold result.
  rw_run (getSuggestions_run partial areaName ls).
  apply String.eqb_neq in Hne. rewrite Hne, Hl. cbn [negb fst List.filter].
  rewrite Hinc.
  destruct (Nat.ltb _ 5); [|eauto].
  cbn [app take]. eauto.
Qed.

(** X22. With a live session and an area name that is not inherited, a
    designation whose key the area does not hold yet is added by
    [addOrUpdateRow], which returns the new row, and is from then on the
    first suggestion of that area for every partial text its key contains,
    the label itself among them. *)
Theorem addOrUpdateRow_then_suggests now dateStr areaName label ls u :
  result (Auth.getCurrentUser now) ls = Some u →
  areaName ≠ EmptyString →
  area_member ls dateStr areaName ≠ Inherited →
  history_member ls areaName ≠ Inherited →
  List.find (Attendance.has_key (Utils.normalizeDesignation label))
    (stored_rows ls dateStr areaName) = None →
  let ls' := exec (Attendance.addOrUpdateRow now dateStr areaName label) ls in
  result (Attendance.addOrUpdateRow now dateStr areaName label) ls
  = Ok (Some (new_row label))
  ∧ (∀ partial,
       Utils.includes (Utils.normalizeDesignation label)
         (Utils.normalizeDesignation partial) = true →
       ∃ more,
         result (DesignationMgr.getSuggestions partial areaName) ls'
         = Ok (label :: more))
  ∧ ∃ more,
      result (DesignationMgr.getSuggestions label areaName) ls'
      = Ok (label :: more).
Proof.
  intros Hu Hne Ha Hh Hf ls'. subst ls'. unfold result at 1, exec.
  rw_run (addOrUpdateRow_run now dateStr areaName label ls u Hu).
  rewrite Hf.
  set (ls1 := exec _ (history_touched label areaName ls)).
  assert (Hrun : match area_member ls dateStr areaName with
                 | Inherited => (TypeError, ls)
                 | _ =>
                     match history_member ls areaName with
                     | Inherited => (TypeError, ls)
                     | _ => (Ok (Some (new_row label)), ls1)
                     end
                 end = (Ok (Some (new_row label)), ls1)).
  { destruct (area_member ls dateStr areaName); [|done|];
      by destruct (history_member ls areaName). }
  rewrite Hrun. cbn [fst snd]. split; [reflexivity|].
  assert (Hl : ∃ rest, history_member ls1 areaName = Val (label :: rest)).
  { unfold history_member. subst ls1.
    change (result Storage.getDesignationHistory
              (exec (Storage.saveAttendanceForDate dateStr ?D) ?l))
      with (history_of l).
    rewrite history_touched_of. cbn [byArea]. rewrite member_insert_eq.
    unfold DesignationMgr.touch, CONFIG.MAX_AREA_DESIGNATION_HISTORY.
    cbn [take]. eauto. }
  destruct Hl as [rest Hl].
  assert (Hgen : ∀ partial,
    Utils.includes (Utils.normalizeDesignation label)
      (Utils.normalizeDesignation partial) = true →
    ∃ more,
      result (DesignationMgr.getSuggestions partial areaName) ls1
      = Ok (label :: more))
    by (intros partial Hinc; by eapply getSuggestions_head).
  split; [exact Hgen|]. apply Hgen, includes_refl.
Qed.

(** ** Backup *)

(** X23. A backup that [exportBackup] made of one store and [importBackup]
    loads into any other store is accepted and brings every document of the
    first store along: settings, areas, users, attendance and designation
    history read as they did there.  The export writes nothing, and the
    import leaves the session of the store it loads into as it is. *)
Theorem export_import_round_trip now ls ls2 :
  let b := result (BackupView.exportBackup now) ls in
  let ls2' := exec (BackupView.importBackup b) ls2 in
  exec (BackupView.exportBackup now) ls = ls
  ∧ result (BackupView.importBackup b) ls2 = Imported
  ∧ same_data ls ls2'
  ∧ hc_session ls2' = hc_session ls2.
Proof.
  intros b ls2'. subst b ls2'. unfold same_data.
  split; [reflexivity|]. split; [reflexivity|].
  split; [|reflexivity]. repeat split.
Qed.



(** ** Areas *)

Lemma trim_start_idem l :
  LabelSpec.starts_space l = false → Utils.trim_start l = l.
Proof. destruct l as [|c l]; [done|]. simpl. by intros ->. Qed.

Lemma trim_end_idem l : Utils.trim_end (Utils.trim_end l) = Utils.trim_end l.
Proof.
  rewrite !trim_end_rev, rev_involutive. f_equal.
  apply trim_start_idem, trim_start_starts.
Qed.

Lemma trim_idem l : Utils.trim (Utils.trim l) = Utils.trim l.
Proof.
  unfold Utils.trim.
  destruct (decide (Utils.trim_end (Utils.trim_start l) = [])) as [E|Hne].
  - rewrite E. reflexivity.
  - rewrite (trim_start_idem (Utils.trim_end _)); [apply trim_end_idem|].
    rewrite trim_end_starts by exact Hne. apply trim_start_starts.
Qed.

Lemma trimmed_text_idem value : trimmed_text (trimmed_text value) = trimmed_text value.
Proof.
  unfold trimmed_text. by rewrite list_ascii_of_string_of_list_ascii, trim_idem.
Qed.

Lemma existsb_eqb_elem_of (name : string) l :
  existsb (String.eqb name) l = true ↔ name ∈ l.
Proof.
  rewrite existsb_exists. split.
  - intros (x & Hin & Hx). apply String.eqb_eq in Hx. subst x.
    by apply list_elem_of_In.
  - intros Hin. exists name. split; [by apply list_elem_of_In|apply String.eqb_refl].
Qed.

Lemma addArea_run value ls :
  run (AdminView.addArea value) ls
  = if String.eqb (trimmed_text value) EmptyString then (NameRequired, ls)
    else if existsb (String.eqb (trimmed_text value)) (areas_of ls)
    then (AlreadyExists, ls)
    else (AreaAdded,
          exec (Storage.saveAreas (areas_of ls ++ [trimmed_text value])%list) ls).
Proof.
  unfold AdminView.addArea, run, areas_of, trimmed_text, exec, result.
  unfold Storage.getAreas, Storage.saveAreas. st_unfold. cbn [fst snd].
  destruct (String.eqb _ EmptyString); [reflexivity|].
  destruct (existsb _ _); reflexivity.
Qed.

(** X25. The Add button of the area form stores the trimmed text at the end
    of the list of areas exactly when it is not empty and is not in the list
    yet, and writes nothing otherwise.  So it keeps the names of the areas
    distinct, and keeps them trimmed and not empty; settings, users,
    session, attendance and history stay as they are. *)
Theorem addArea_keeps_names value ls :
  let name := trimmed_text value in
  let r := result (AdminView.addArea value) ls in
  let ls' := exec (AdminView.addArea value) ls in
  (r = AreaAdded ↔ name ≠ EmptyString ∧ name ∉ areas_of ls)
  ∧ areas_of ls'
    = match r with
      | AreaAdded => (areas_of ls ++ [name])%list
      | _ => areas_of ls
      end
  ∧ (r ≠ AreaAdded → ls' = ls)
  ∧ (NoDup (areas_of ls) → NoDup (areas_of ls'))
  ∧ (forallb well_named (areas_of ls) = true →
     forallb well_named (areas_of ls') = true)
  ∧ same_auth ls ls'
  ∧ hc_settings ls' = hc_settings ls
  ∧ hc_attendance ls' = hc_attendance ls
  ∧ hc_designation_history ls' = hc_designation_history ls.
Proof.
  intros name r ls'. subst name r ls'. unfold result, exec.
  pose proof (addArea_run value ls) as Hrun. unfold run in Hrun. rewrite Hrun.
  clear Hrun.
  destruct (String.eqb_spec (trimmed_text value) EmptyString) as [He|He].
  { cbn [fst snd]. split; [split; [discriminate|by intros [? _]]|].
    repeat split; auto. }
  destruct (existsb _ (areas_of ls)) eqn:Hex.
  { apply existsb_eqb_elem_of in Hex. cbn [fst snd].
    split; [split; [discriminate|by intros [_ ?]]|]. repeat split; auto. }
  assert (Hni : trimmed_text value ∉ areas_of ls).
  { intros Hin. apply existsb_eqb_elem_of in Hin. congruence. }
  cbn [fst snd].
  split; [split; [by intros _|reflexivity]|].
  split; [reflexivity|]. split; [done|].
  split.
  { intros Hnd. change (NoDup (areas_of ls ++ [trimmed_text value])).
    apply NoDup_app. split; [exact Hnd|]. split.
    - intros x Hx Hx'. apply list_elem_of_singleton in Hx'. by subst x.
    - apply NoDup_singleton. }
  split.
  { intros Hall. change (forallb well_named (areas_of ls ++ [trimmed_text value]) = true).
    rewrite forallb_app, Hall. cbn [forallb andb]. rewrite andb_true_r.
    unfold well_named. rewrite trimmed_text_idem, String.eqb_refl, andb_true_r.
    apply negb_true_iff. by apply String.eqb_neq. }
  repeat split.
Qed.

Lemma indexOf_remove_first area l :
  (AdminView.indexOf area l = -1 ∧ remove_first area l = l)
  ∨ (0 ≤ AdminView.indexOf area l
     ∧ delete (Z.to_nat (AdminView.indexOf area l)) l = remove_first area l).
Proof.
  induction l as [|a l IH]; [left; done|]. simpl.
  destruct (String.eqb a area); [right; split; [lia|reflexivity]|].
  destruct IH as [[E1 E2]|[H1 H2]].
  - left. rewrite E1, E2. done.
  - right. assert ((AdminView.indexOf area l <? 0) = false) as -> by lia.
    split; [lia|].
    replace (Z.to_nat (AdminView.indexOf area l + 1))
      with (S (Z.to_nat (AdminView.indexOf area l))) by lia.
    simpl. by rewrite H2.
Qed.

Lemma deleteArea_areas area ls :
  areas_of (exec (AdminView.deleteArea area) ls)
  = remove_first area (areas_of ls).
Proof.
  unfold AdminView.deleteArea, areas_of, exec, result.
  unfold Storage.getAreas, Storage.saveAreas. st_unfold. cbn [fst snd].
  destruct (indexOf_remove_first area (default [] (hc_areas ls))) as [[E1 E2]|[H1 H2]].
  - rewrite E1, E2. reflexivity.
  - assert ((0 <=? AdminView.indexOf area (default [] (hc_areas ls))) = true)
      as -> by lia.
    simpl. exact H2.
Qed.

Lemma filter_ne_id (area : string) (l : list string) :
  area ∉ l → filter (λ b, b ≠ area) l = l.
Proof.
  induction l as [|a l IH]; [done|]. intros Hni.
  apply not_elem_of_cons in Hni as [Hne Hni].
  rewrite filter_cons_True by done. by rewrite IH.
Qed.

Lemma remove_first_NoDup area (l : list string) :
  NoDup l → remove_first area l = filter (λ b, b ≠ area) l.
Proof.
  induction 1 as [|a l Hni Hnd IH]; [reflexivity|]. simpl.
  destruct (String.eqb_spec a area) as [->|Hne].
  - rewrite filter_cons_False by (intros H; by apply H).
    by rewrite filter_ne_id.
  - rewrite filter_cons_True by done. by rewrite IH.
Qed.

(** X26. [deleteArea] takes the first occurrence of the name out of the
    list of areas, which for distinct names leaves exactly the other areas,
    in their order.  It touches nothing else: the rows stored for the area
    stay in the attendance of every date, and the users keep the area among
    their assigned areas. *)
Theorem deleteArea_leaves_data area ls :
  let ls' := exec (AdminView.deleteArea area) ls in
  areas_of ls' = remove_first area (areas_of ls)
  ∧ (NoDup (areas_of ls) →
     areas_of ls' = filter (λ b, b ≠ area) (areas_of ls))
  ∧ (∀ dateStr areaName,
       stored_rows ls' dateStr areaName = stored_rows ls dateStr areaName)
  ∧ users_of ls' = users_of ls
  ∧ same_auth ls ls'.
Proof.
  intros ls'. subst ls'.
  split; [apply deleteArea_areas|].
  split; [intros Hnd; rewrite deleteArea_areas; by apply remove_first_NoDup|].
  unfold AdminView.deleteArea, exec.
  unfold Storage.getAreas, Storage.saveAreas. st_unfold. cbn [fst snd].
  destruct (0 <=? _); repeat split.
Qed.

Lemma remove_first_snoc area l :
  area ∉ l → remove_first area (l ++ [area]) = l.
Proof.
  induction l as [|a l IH]; intros Hni; simpl.
  - by rewrite String.eqb_refl.
  - apply not_elem_of_cons in Hni as [Hne Hni].
    destruct (String.eqb_spec a area) as [->|_]; [done|]. by rewrite IH.
Qed.

(** X27. Deleting an area that the Add button has just added gives back the
    list of areas as it was before. *)
Theorem addArea_then_deleteArea value ls :
  result (AdminView.addArea value) ls = AreaAdded →
  areas_of (exec (AdminView.deleteArea (trimmed_text value))
              (exec (AdminView.addArea value) ls))
  = areas_of ls.
Proof.
  intros Hr. rewrite deleteArea_areas. unfold result, exec in *.
  pose proof (addArea_run value ls) as Hrun. unfold run in Hrun.
  rewrite Hrun in *. clear Hrun.
  destruct (String.eqb _ EmptyString); [discriminate|].
  destruct (existsb _ _) eqn:Hex; [discriminate|]. cbn [snd].
  change (remove_first (trimmed_text value) (areas_of ls ++ [trimmed_text value])
          = areas_of ls).
  apply remove_first_snoc. intros Hin.
  apply existsb_eqb_elem_of in Hin. congruence.
Qed.

(** ** Generated passwords *)

Lemma get_alphabet s i :
  (i < String.length s)%nat →
  ∃ c, String.get i s = Some c ∧ c ∈ list_ascii_of_string s.
Proof.
  revert i. induction s as [|a s IH]; intros i Hi; simpl in Hi; [lia|].
  destruct i as [|i]; simpl.
  - exists a. split; [reflexivity|apply list_elem_of_here].
  - destruct (IH i) as (c & Hc & Hin); [lia|].
    exists c. split; [exact Hc|by apply list_elem_of_further].
Qed.

Lemma char_at_alphabet n :
  ∃ c, Utils.char_at Utils.password_chars
         (n mod String.length Utils.password_chars)
       = String c EmptyString
     ∧ c ∈ list_ascii_of_string Utils.password_chars.
Proof.
  destruct (get_alphabet Utils.password_chars
              (n mod String.length Utils.password_chars)) as (c & Hc & Hin).
  { apply Nat.mod_upper_bound. discriminate. }
  exists c. unfold Utils.char_at. rewrite Hc. done.
Qed.

Lemma list_ascii_app a b :
  list_ascii_of_string (a ++ b)
  = (list_ascii_of_string a ++ list_ascii_of_string b)%list.
Proof. induction a as [|c a IH]; simpl; [reflexivity|]. by rewrite IH. Qed.

Lemma length_list_ascii s : length (list_ascii_of_string s) = String.length s.
Proof. induction s as [|c s IH]; simpl; [reflexivity|]. by rewrite IH. Qed.

Lemma generatePassword_fold arr acc :
  let pwd :=
    fold_left
      (λ pwd b,
         pwd ++ Utils.char_at Utils.password_chars
                  (Byte.to_nat b mod String.length Utils.password_chars))
      arr acc in
  String.length pwd = (String.length acc + length arr)%nat
  ∧ ∀ c, c ∈ list_ascii_of_string pwd →
      c ∈ list_ascii_of_string acc
      ∨ c ∈ list_ascii_of_string Utils.password_chars.
Proof.
  revert acc. induction arr as [|b arr IH]; intros acc; cbn [fold_left].
  - cbn zeta. split; [simpl; lia|auto].
  - destruct (char_at_alphabet (Byte.to_nat b)) as (c0 & Hc0 & Hin0).
    rewrite Hc0. cbn zeta.
    destruct (IH (acc ++ String c0 EmptyString)) as [Hlen Hmem].
    cbn zeta in Hlen, Hmem. split.
    + rewrite Hlen, <- !length_list_ascii, list_ascii_app, length_app.
      simpl. lia.
    + intros c Hc. destruct (Hmem c Hc) as [H|H]; [|by right].
      rewrite list_ascii_app in H. apply elem_of_app in H as [H|H]; [by left|].
      right. simpl in H. apply list_elem_of_singleton in H. by subst c.
Qed.

(** X28. [generatePassword] makes one character for each random byte, and
    every character is one of the 60 of its alphabet, whatever the bytes:
    never the text [undefined], and never one of the letters and digits
    I, O, i, l, o, 0 and 1 that the alphabet leaves out. *)
Theorem generatePassword_alphabet arr :
  let pwd := Utils.generatePassword arr in
  String.length pwd = length arr
  ∧ (∀ c, c ∈ list_ascii_of_string pwd →
       c ∈ list_ascii_of_string Utils.password_chars)
  ∧ (∀ c, c ∈ left_out → c ∉ list_ascii_of_string pwd).
Proof.
  intros pwd. subst pwd. unfold Utils.generatePassword.
  destruct (generatePassword_fold arr EmptyString) as [Hlen Hmem].
  cbn zeta in Hlen, Hmem.
  assert (Hal : ∀ c,
    c ∈ list_ascii_of_string
          (fold_left
             (λ pwd b,
                pwd ++ Utils.char_at Utils.password_chars
                         (Byte.to_nat b mod String.length Utils.password_chars))
             arr EmptyString) →
    c ∈ list_ascii_of_string Utils.password_chars).
  { intros c Hc. destruct (Hmem c Hc) as [H|H]; [|exact H].
    simpl in H. by apply elem_of_nil in H. }
  split; [exact Hlen|]. split; [exact Hal|].
  intros c Hout Hin. apply Hal in Hin.
  assert (Hb : forallb
                 (λ c, negb (existsb (Ascii.eqb c) left_out))
                 (list_ascii_of_string Utils.password_chars) = true)
    by (vm_compute; reflexivity).
  rewrite forallb_forall in Hb. apply list_elem_of_In in Hin.
  specialize (Hb c Hin). apply negb_true_iff in Hb.
  assert (Hex : existsb (Ascii.eqb c) left_out = true); [|congruence].
  apply existsb_exists. exists c. split; [by apply list_elem_of_In|].
  apply Ascii.eqb_refl.
Qed.

Lemma all_bytes_to_nat : Byte.to_nat <$> all_bytes = seq 0 256.
Proof. vm_compute. reflexivity. Qed.

Lemma all_bytes_NoDup : NoDup all_bytes.
Proof.
  apply (NoDup_fmap_1 Byte.to_nat).
  rewrite all_bytes_to_nat. apply NoDup_seq.
Qed.

Lemma all_bytes_all b : b ∈ all_bytes.
Proof.
  unfold all_bytes. apply list_elem_of_omap.
  exists (Byte.to_nat b). split; [|apply Byte.of_to_nat].
  apply elem_of_seq. pose proof (Byte.to_nat_bounded b). lia.
Qed.

(** X29. The characters of a generated password are not equally likely:
    [generatePassword] takes the byte modulo 60, so that of the 256 values
    of a byte five give each of the first 16 characters of the alphabet and
    four give each of the other 44. *)
Theorem generatePassword_bias :
  NoDup all_bytes
  ∧ (∀ b, b ∈ all_bytes)
  ∧ ∀ i c, String.get i Utils.password_chars = Some c →
      length (bytes_giving c) = if Nat.ltb i 16 then 5%nat else 4%nat.
Proof.
  split; [apply all_bytes_NoDup|]. split; [apply all_bytes_all|].
  intros i c Hget.
  do 60 (destruct i as [|i];
         [injection Hget as <-; vm_compute; reflexivity|]).
  vm_compute in Hget. discriminate.
Qed.

(** ** Area names that every object inherits *)

Lemma getGrandTotal_from_inherited ls dateStr areaName l sum :
  area_member ls dateStr areaName = Inherited → areaName ∈ l →
  run (Attendance.getGrandTotal_from sum dateStr l) ls = (TypeError, ls).
Proof.
  intros Hm Hin. revert sum.
  induction l as [|a rest IH]; intros sum; [by apply not_elem_of_nil in Hin|].
  cbn [Attendance.getGrandTotal_from]. unfold run, mbind, StE_bind in *.
  rw_run (getAreaTotals_run ls dateStr a).
  apply elem_of_cons in Hin as [<-|Hin].
  - by rewrite Hm.
  - destruct (area_member ls dateStr a); [by apply IH|reflexivity|by apply IH].
Qed.

(** X30. An area whose name is one that every object inherits
    ([constructor], [toString], ...), and that the date document does not
    hold, has no rows, and every ledger operation on it throws and writes
    nothing: [getRow], [getAreaTotals], [getGrandTotal] over a list with the
    area, [deleteRow], and with a live session [addOrUpdateRow] and
    [updateRow]; so no row can be entered for such an area.  [getAreaData]
    itself returns, and the entry view, which reads [rows || []], shows the
    area as empty. *)
Theorem inherited_area_throws ls dateStr areaName :
  area_member ls dateStr areaName = Inherited →
  stored_rows ls dateStr areaName = []
  ∧ EntryView.rows_or_empty
      (result (Attendance.getAreaData dateStr areaName) ls) = []
  ∧ (∀ key, run (Attendance.getRow dateStr areaName key) ls = (TypeError, ls))
  ∧ run (Attendance.getAreaTotals dateStr areaName) ls = (TypeError, ls)
  ∧ (∀ l, areaName ∈ l →
       run (Attendance.getGrandTotal dateStr l) ls = (TypeError, ls))
  ∧ (∀ key, run (Attendance.deleteRow dateStr areaName key) ls = (TypeError, ls))
  ∧ (∀ now u, result (Auth.getCurrentUser now) ls = Some u →
       (∀ label,
          run (Attendance.addOrUpdateRow now dateStr areaName label) ls
          = (TypeError, ls))
       ∧ ∀ key updates,
           run (Attendance.updateRow now dateStr areaName key updates) ls
           = (TypeError, ls)).
Proof.
  intros Hm.
  assert (Hrs : stored_rows ls dateStr areaName = [])
    by (rewrite area_member_rows; by rewrite Hm).
  split; [exact Hrs|]. split; [by rewrite getAreaData_rows|].
  split; [intros key; rewrite getRow_run; by rewrite Hm|].
  split; [rewrite getAreaTotals_run; by rewrite Hm|].
  split; [intros l Hin; by eapply getGrandTotal_from_inherited|].
  split; [intros key; rewrite deleteRow_run; by rewrite Hm|].
  intros now u Hu. split.
  - intros label.
    rewrite (addOrUpdateRow_run now dateStr areaName label ls u Hu).
    by rewrite Hm.
  - intros key updates.
    rewrite (updateRow_run now dateStr areaName key updates ls u Hu).
    by rewrite Hm.
Qed.

(** ** The theorems at concrete stores *)

Lemma updateRow_applies_witness :
  result (Attendance.getRow "2023-11-14" "Spool Yard" "welder")
    (exec (Attendance.updateRow 1700000100000 "2023-11-14" "Spool Yard"
             "welder" (mkUpdates (Some (JNum 7)) None)) Examples.store)
  = Ok (Some (mkRow "welder" "Welder" (JNum 7) false (Some 1700000100000)
                (Some "admin"))).
Proof.
  destruct (updateRow_applies 1700000100000 "2023-11-14" "Spool Yard" "welder"
              (mkUpdates (Some (JNum 7)) None) Examples.store
              Examples.admin_user Examples.welder) as (_ & H & _);
    [vm_compute; reflexivity..|exact H].
Defined.

Lemma getGrandTotal_sum_witness :
  result (Attendance.getGrandTotal "2024-05-01"
            ["Spool Yard"; "Old Spool Yard"; "Spool Yard"])
    Examples.totals_store
  = Ok (Fin 16).
Proof.
  apply (getGrandTotal_sum Examples.totals_store "2024-05-01"
           ["Spool Yard"; "Old Spool Yard"; "Spool Yard"]).
  - repeat constructor; vm_compute; discriminate.
  - vm_compute. discriminate.
Defined.

Lemma clearAll_empties_witness :
  result (EntryView.clearAll 1700000100000 "2023-11-14")
    Examples.store_with_areas = Ok tt
  ∧ stored_rows
      (exec (EntryView.clearAll 1700000100000 "2023-11-14")
         Examples.store_with_areas) "2023-11-14" "Spool Yard" = [].
Proof.
  destruct (clearAll_empties 1700000100000 "2023-11-14"
              Examples.store_with_areas Examples.admin_user) as [H1 H2];
    [vm_compute; reflexivity|].
  split; [exact H1|]. rewrite H2. vm_compute. reflexivity.
Defined.

(** The welder has a present count of 7 and is not confirmed. *)
Lemma confirmAll_confirms_witness :
  let ls :=
    exec (Attendance.updateRow 1700000100000 "2023-11-14" "Spool Yard"
            "welder" (mkUpdates (Some (JNum 7)) None))
      Examples.store_with_areas in
  result (EntryView.confirmAll 1700000200000 "2023-11-14") ls
  = Ok (Some 1%nat)
  ∧ map confirmed
      (stored_rows (exec (EntryView.confirmAll 1700000200000 "2023-11-14") ls)
         "2023-11-14" "Spool Yard") = [true; true].
Proof.
  intros ls.
  destruct (confirmAll_confirms 1700000200000 "2023-11-14" ls
              Examples.admin_user) as (H1 & _ & (c & Hc & Hn)).
  - vm_compute. reflexivity.
  - intros a Ha.
    change (a ∈ ["Spool Yard"; "constructor"]) in Ha.
    apply elem_of_cons in Ha as [->|Ha];
      [|apply list_elem_of_singleton in Ha as ->].
    + change (NoDup ["welder"; "fitter"]).
      apply NoDup_cons. split; [|apply NoDup_singleton].
      intros H. apply list_elem_of_singleton in H. discriminate.
    + change (NoDup (@nil string)). constructor.
  - split.
    + rewrite Hc, Hn; [vm_compute; reflexivity|].
      change (NoDup ["Spool Yard"; "constructor"]).
      apply NoDup_cons. split; [|apply NoDup_singleton].
      intros H. apply list_elem_of_singleton in H. discriminate.
    + rewrite H1. vm_compute. reflexivity.
Defined.

Lemma createUser_then_login_witness :
  let ls1 :=
    exec (Auth.createUser Examples.concat_hash 1700000100000 "9c41" "maria"
            "pass-1" role_user ["Spool Yard"]) Examples.store_logged_out in
  result (Auth.login Examples.concat_hash 1700000200000 1700000200040
            "maria" "pass-1") ls1 = LoginOk
  ∧ currentUser
      (session_of (exec (Auth.login Examples.concat_hash 1700000200000
                           1700000200040 "maria" "pass-1") ls1))
    = Some "maria".
Proof.
  apply (createUser_then_login Examples.concat_hash 1700000100000 "9c41"
           "maria" "pass-1" role_user ["Spool Yard"] Examples.store_logged_out
           1700000200000 1700000200040);
    vm_compute; reflexivity.
Defined.

Lemma resetPassword_then_login_witness :
  let ls1 :=
    exec (Auth.resetPassword Examples.concat_hash "7e03" "admin" "new-pass")
      Examples.store_logged_out in
  result (Auth.resetPassword Examples.concat_hash "7e03" "admin" "new-pass")
    Examples.store_logged_out = UserOk
  ∧ users_of ls1
    = [mkUser "admin" role_admin "7e03" "new-pass7e03" [] 1700000000000 false]
  ∧ result (Auth.login Examples.concat_hash 1700000200000 1700000200040
              "admin" "new-pass") ls1 = LoginOk
  ∧ result (Auth.login Examples.concat_hash 1700000200000 1700000200040
              "admin" "secret") ls1 = LoginErr InvalidCredentials.
Proof.
  intros ls1.
  destruct (resetPassword_then_login Examples.concat_hash "7e03" "admin"
              "new-pass" Examples.store_logged_out) as [_ H].
  destruct (H [] Examples.admin_user []) as (H1 & _ & H3 & H4);
    [reflexivity|constructor|reflexivity|].
  split; [exact H1|]. split; [exact H3|].
  split; [apply H4; reflexivity|vm_compute; reflexivity].
Defined.


Lemma checkFirstRun_after_disabling_admin_witness :
  let ls1 := exec (AdminView.toggleUser "admin") Examples.store_with_areas in
  result App.checkFirstRun ls1 = true
  ∧ exec App.checkFirstRun ls1 = ls1.
Proof.
  intros ls1.
  destruct (checkFirstRun_after_disabling_admin "admin"
              Examples.store_with_areas [] Examples.admin_user []) as [H1 H2].
  - change (NoDup ["admin"]). apply NoDup_singleton.
  - reflexivity.
  - reflexivity.
  - reflexivity.
  - intros u Hu _. change (u ∈ [Examples.admin_user]) in Hu.
    apply list_elem_of_singleton in Hu as ->. reflexivity.
  - split; [exact H1|]. apply H2. discriminate.
Defined.

Lemma login_session_live_witness :
  let ls1 :=
    exec (Auth.login Examples.concat_hash 1700000200000 1700000200040
            "admin" "secret") Examples.store_logged_out in
  result (Auth.getCurrentUser (1700000200040 + CONFIG.SESSION_DURATION)) ls1
  = Some Examples.admin_user
  ∧ result (Auth.getCurrentUser (1700000200041 + CONFIG.SESSION_DURATION)) ls1
    = None.
Proof.
  intros ls1.
  destruct (login_session_live Examples.concat_hash 1700000200000 1700000200040
              "admin" "secret" Examples.store_logged_out) as [H1 H2];
    [vm_compute; reflexivity|discriminate|].
  fold ls1 in H1, H2. split.
  - destruct (H1 (1700000200040 + CONFIG.SESSION_DURATION)) as (usr & Hr & _);
      [lia|].
    unfold result. unfold run in Hr. rewrite Hr. cbn [fst]. f_equal.
    vm_compute in Hr. injection Hr as Hu. rewrite <- Hu. reflexivity.
  - apply H2; unfold CONFIG.SESSION_DURATION; lia.
Defined.

Lemma addToHistory_recent_witness :
  let ls' :=
    exec (DesignationMgr.addToHistory "welder  c" "Spool Yard")
      Examples.history_store in
  result (DesignationMgr.addToHistory "welder  c" "Spool Yard")
    Examples.history_store = Ok tt
  ∧ area_history ls' "Spool Yard"
    = ["welder  c"; "Welder A"; "Welder B"; "Welder D"; "Welder E"; "Welder F"].
Proof.
  intros ls'.
  destruct (addToHistory_recent "welder  c" "Spool Yard"
              Examples.history_store) as (H1 & _);
    [vm_compute; discriminate|].
  split; [exact H1|vm_compute; reflexivity].
Defined.

Lemma addOrUpdateRow_then_suggests_witness :
  let ls' :=
    exec (Attendance.addOrUpdateRow 1700000100000 "2023-11-14" "Spool Yard"
            "Pipe Fitter") Examples.store in
  result (Attendance.addOrUpdateRow 1700000100000 "2023-11-14" "Spool Yard"
            "Pipe Fitter") Examples.store
  = Ok (Some (new_row "Pipe Fitter"))
  ∧ ∃ more,
      result (DesignationMgr.getSuggestions "FIT" "Spool Yard") ls'
      = Ok ("Pipe Fitter" :: more).
Proof.
  intros ls'.
  destruct (addOrUpdateRow_then_suggests 1700000100000 "2023-11-14"
              "Spool Yard" "Pipe Fitter" Examples.store Examples.admin_user)
    as (H1 & H2 & _);
    [vm_compute; reflexivity|discriminate|vm_compute; discriminate
    |vm_compute; discriminate|vm_compute; reflexivity|].
  split; [exact H1|]. apply H2. vm_compute. reflexivity.
Defined.


Lemma addArea_then_deleteArea_witness :
  areas_of (exec (AdminView.deleteArea "Spool Yard")
              (exec (AdminView.addArea "  Spool Yard ") Examples.store))
  = areas_of Examples.store.
Proof.
  apply (addArea_then_deleteArea "  Spool Yard " Examples.store).
  vm_compute. reflexivity.
Defined.

Lemma inherited_area_throws_witness :
  let ls := Examples.store_with_areas in
  "constructor" ∈ areas_of ls
  ∧ run (Attendance.addOrUpdateRow 1700000100000 "2023-11-14" "constructor"
           "Welder") ls = (TypeError, ls)
  ∧ run (Attendance.getAreaTotals "2023-11-14" "constructor") ls
    = (TypeError, ls)
  ∧ run (Attendance.getGrandTotal "2023-11-14" (areas_of ls)) ls
    = (TypeError, ls).
Proof.
  intros ls.
  destruct (inherited_area_throws ls "2023-11-14" "constructor")
    as (_ & _ & _ & H4 & H5 & _ & H7); [vm_compute; reflexivity|].
  assert (Hin : "constructor" ∈ areas_of ls)
    by (change ("constructor" ∈ ["Spool Yard"; "constructor"]);
        apply list_elem_of_further, list_elem_of_here).
  split; [exact Hin|].
  split; [apply (H7 1700000100000 Examples.admin_user); vm_compute; reflexivity|].
  split; [exact H4|]. apply H5. exact Hin.
Defined.
